(** * Lead management backend: lead lifecycle, duplicate detection,
      audit history and reports

    A shallow embedding of [controllers/leadController.js],
    [controllers/reportController.js], [models/Lead.js] and
    [utils/emailSender.js].

    The handlers are [async] functions over a MongoDB collection reached
    through Mongoose.  Each handler is embedded as a function from the
    collections it reads (lists of documents, in natural order) and the
    request to the response together with the collection after the call.
    Requests are handled one at a time: interleavings of the awaits of two
    requests are not part of this model.

    Conventions.
    - Strings are [string] and hold ASCII characters: [toUpperCase], [trim]
      and the character classes of the regular expressions are those of
      JavaScript on ASCII.  Strings with other characters (some of which
      JavaScript upper-cases to ASCII letters) are outside the model.
    - An ObjectId is kept as its hex string, and the strings that stand for
      ids in a request are taken to be castable to ObjectIds.  Mongoose
      casts the filter and the update of a query with the schema; it does
      not cast the stages of an aggregation.
    - An instant is kept as the civil time [Date] reads it back in the
      server's zone (a fixed offset): year, month (0..11), day of the month
      and milliseconds within the day; instants are ordered
      lexicographically.
    - JavaScript numbers that are divided are binary64 floats
      ([PrimFloat]); counts are [nat]. *)

From Stdlib Require Import ZArith List String Ascii Bool Lia PrimFloat Uint63.
From Stdlib Require Import DecimalString.
Import ListNotations.

Local Open Scope string_scope.
Local Open Scope list_scope.

(* ------------------------------------------------------------------ *)
(** ** JavaScript strings *)

Module JsString.

Definition isDigit (c : ascii) : bool :=
  let n := nat_of_ascii c in (48 <=? n)%nat && (n <=? 57)%nat.

Definition isUpper (c : ascii) : bool :=
  let n := nat_of_ascii c in (65 <=? n)%nat && (n <=? 90)%nat.

Definition isLower (c : ascii) : bool :=
  let n := nat_of_ascii c in (97 <=? n)%nat && (n <=? 122)%nat.

(** White space as [String.prototype.trim] sees it, within ASCII. *)
Definition isSpace (c : ascii) : bool :=
  let n := nat_of_ascii c in
  (n =? 32)%nat || ((9 <=? n)%nat && (n <=? 13)%nat).

Definition upperChar (c : ascii) : ascii :=
  if isLower c then ascii_of_nat (nat_of_ascii c - 32) else c.

Definition lowerChar (c : ascii) : ascii :=
  if isUpper c then ascii_of_nat (nat_of_ascii c + 32) else c.

(** [toLowerCase] and [toUpperCase], on ASCII. *)
Fixpoint toLowerCase (s : string) : string :=
  match s with
  | EmptyString => EmptyString
  | String c r => String (lowerChar c) (toLowerCase r)
  end.

Fixpoint toUpperCase (s : string) : string :=
  match s with
  | EmptyString => EmptyString
  | String c r => String (upperChar c) (toUpperCase r)
  end.

Fixpoint trimStartL (l : list ascii) : list ascii :=
  match l with
  | c :: r => if isSpace c then trimStartL r else l
  | [] => []
  end.

Definition trim (s : string) : string :=
  string_of_list_ascii
    (rev (trimStartL (rev (trimStartL (list_ascii_of_string s))))).

(** [n] leading characters of class [p], and what follows them. *)
Fixpoint take (p : ascii -> bool) (n : nat) (s : string) : option string :=
  match n with
  | O => Some s
  | S k =>
      match s with
      | String c r => if p c then take p k r else None
      | EmptyString => None
      end
  end.

Definition atEnd (s : option string) : bool :=
  match s with
  | Some EmptyString => true
  | _ => false
  end.

Definition bind (o : option string) (f : string -> option string) :=
  match o with Some s => f s | None => None end.

(** [/^[A-Z]{5}[0-9]{4}[A-Z]{1}$/.test s] *)
Definition panRegex (s : string) : bool :=
  atEnd (bind (bind (take isUpper 5 s) (take isDigit 4)) (take isUpper 1)).

(** [/^[0-9]{n}$/.test s] *)
Definition digitsRegex (n : nat) (s : string) : bool :=
  atEnd (take isDigit n s).

(** [!s] for a value that is undefined ([None]) or a string. *)
Definition falsy (o : option string) : bool :=
  match o with
  | None => true
  | Some EmptyString => true
  | Some _ => false
  end.

Definition includes (l : list string) (s : string) : bool :=
  existsb (String.eqb s) l.

(** No character of [s] is white space. *)
Definition noSpace (s : string) : bool :=
  forallb (fun c => negb (isSpace c)) (list_ascii_of_string s).

End JsString.

(* ------------------------------------------------------------------ *)
(** ** Dates *)

Module JsDate.

Local Open Scope Z_scope.

Record Date := mkDate { year : Z; month : Z; day : Z; ms : Z }.

Definition isLeap (y : Z) : bool :=
  ((y mod 4 =? 0) && negb (y mod 100 =? 0)) || (y mod 400 =? 0).

Definition daysInMonth (y m : Z) : Z :=
  if m =? 1 then (if isLeap y then 29 else 28)
  else if (m =? 3) || (m =? 5) || (m =? 8) || (m =? 10) then 30
  else 31.

Definition msOfDay (h mi s milli : Z) : Z :=
  ((h * 60 + mi) * 60 + s) * 1000 + milli.

(** [new Date(y, m, d, h, mi, s)].  A month outside 0..11 is carried into
    the year, and day 0 is the last day of the month before, as the
    constructor does; these are the only out-of-range arguments the
    controllers pass (months [m+1] and [m-1], days 0 and 1). *)
Definition newDate (y m d h mi s : Z) : Date :=
  let y1 := y + m / 12 in
  let m1 := m mod 12 in
  if d =? 0 then
    let y2 := if m1 =? 0 then y1 - 1 else y1 in
    let m2 := if m1 =? 0 then 11 else m1 - 1 in
    mkDate y2 m2 (daysInMonth y2 m2) (msOfDay h mi s 0)
  else mkDate y1 m1 d (msOfDay h mi s 0).

Definition getFullYear (d : Date) : Z := year d.
Definition getMonth (d : Date) : Z := month d.

(** [d.setHours(h, mi, s, milli)] *)
Definition setHours (d : Date) (h mi s milli : Z) : Date :=
  mkDate (year d) (month d) (day d) (msOfDay h mi s milli).

Definition prevDay (d : Date) : Date :=
  if 1 <? day d then mkDate (year d) (month d) (day d - 1) (ms d)
  else
    let y := if month d =? 0 then year d - 1 else year d in
    let m := if month d =? 0 then 11 else month d - 1 in
    mkDate y m (daysInMonth y m) (ms d).

(** [d.setDate(d.getDate() - n)] *)
Definition minusDays (n : nat) (d : Date) : Date := Nat.iter n prevDay d.

Definition compare (a b : Date) : comparison :=
  match year a ?= year b with
  | Eq =>
      match month a ?= month b with
      | Eq =>
          match day a ?= day b with
          | Eq => ms a ?= ms b
          | c => c
          end
      | c => c
      end
  | c => c
  end.

(** [a <= b] on instants ([$lte], and [$gte] with the arguments swapped) *)
Definition leb (a b : Date) : bool :=
  match compare a b with
  | Gt => false
  | _ => true
  end.

(** A civil time that names an instant. *)
Definition wf (d : Date) : Prop :=
  0 <= month d <= 11 /\ 1 <= day d <= daysInMonth (year d) (month d)
  /\ 0 <= ms d < 86400000.

Definition sameMonth (a b : Date) : Prop :=
  year a = year b /\ month a = month b.

End JsDate.

Import JsDate.

(* ------------------------------------------------------------------ *)
(** ** Users *)

Module User.

(** Modelled from the spec: [models/User.js] is not among the sources.  A
    user has an id, a name, an email and a role (ADMIN or SUPER ADMIN); the
    controllers read [_id], [name], [email] and [role], and compare [role]
    with string literals. *)
Record t := mk { _id : string; name : string; email : string; role : string }.

(** [User.findById(id)] *)
Definition findById (users : list t) (id : string) : option t :=
  find (fun u => _id u =? id) users.

(** [User.find({ role })] *)
Definition findByRole (users : list t) (r : string) : list t :=
  filter (fun u => role u =? r) users.

End User.

(** Modelled from the spec: the authentication middleware is not among the
    sources.  It resolves the bearer credential to the identity and the role
    of a user, which the handlers read as [req.user.id] and [req.user.role];
    [id] is a string, as [lead.createdBy.toString() !== req.user.id] takes
    it. *)
Record ReqUser := mkReqUser { id : string; role : string }.

(* ------------------------------------------------------------------ *)
(** ** Errors and responses *)

Inductive Error :=
| ValidatorError (path kind : string)
| TypeError (what : string)
| MongoServerError (what : string)
| TransportError (recipient : string).

(** The [message] of a response: a literal of the controller, or the
    [error.message] of a caught error. *)
Inductive Message :=
| Text (s : string)
| ErrorMessage (e : Error).

Record Response (D : Type) := mkResponse {
  statusCode : Z;
  success : bool;
  message : option Message;
  data : option D
}.

Arguments mkResponse {D}.
Arguments statusCode {D}.
Arguments success {D}.
Arguments message {D}.
Arguments data {D}.

(** [res.status(c).json({ success: false, message })] *)
Definition failure {D : Type} (c : Z) (m : Message) : Response D :=
  mkResponse c false (Some m) None.

(* ------------------------------------------------------------------ *)
(** ** The lead schema ([models/Lead.js]) *)

Module Lead.

(** A lead document without its [editHistory]: what
    [{ ...lead.toObject() }] holds once [editHistory] is deleted.
    (The version key [__v] that Mongoose keeps is left out.) *)
Record Data := mkData {
  _id : string;
  customerName : string;
  mobileNumber : string;
  panCard : string;
  aadharNumber : string;
  preferredBank : option string;
  employmentType : option string;
  monthlySalary : option Z;
  status : string;
  rejectionReason : string;
  rejectionNotes : option string;
  source : string;
  createdBy : string;
  createdAt : Date;
  updatedAt : Date
}.

(** [editHistorySchema] *)
Record Edit := mkEdit {
  editorId : string;
  timestamp : Date;
  previousData : Data;
  newData : Data
}.

Record t := mk { doc : Data; editHistory : list Edit }.

(** The document with [updatedAt] set to [now]. *)
Definition withUpdatedAt (now : Date) (d : Data) : Data :=
  mkData (_id d) (customerName d) (mobileNumber d) (panCard d)
    (aadharNumber d) (preferredBank d) (employmentType d)
    (monthlySalary d) (status d) (rejectionReason d) (rejectionNotes d)
    (source d) (createdBy d) (createdAt d) now.

Definition employmentTypes := ["Salaried"; "Self-Employed"].
Definition statuses := ["New"; "Follow-up"; "Approved"; "Rejected"].
Definition rejectionReasons :=
  [""; "CIBIL Issue"; "Low Income"; "Documentation Missing";
   "Not Interested"; "Poor Lead"; "Other"].
Definition sources := ["Manual"; "Link"].

(** Setters of the string paths: [trim], and [uppercase] for the PAN. *)
Definition setCustomerName (s : string) := JsString.trim s.
Definition setPanCard (s : string) := JsString.trim (JsString.toUpperCase s).
Definition setAadharNumber (s : string) := JsString.trim s.
Definition setRejectionNotes (s : string) := JsString.trim s.

(** Validators.  [required] rejects a missing value and the empty string;
    [enum] and [match] run on present values only, and [match] lets the
    empty string through. *)
Definition required (path : string) (v : option string) : option Error :=
  if JsString.falsy v then Some (ValidatorError path "required") else None.

Definition enum (path : string) (values : list string) (v : option string)
  : option Error :=
  match v with
  | None => None
  | Some s =>
      if JsString.includes values s then None
      else Some (ValidatorError path "enum")
  end.

Definition matchMobile (v : option string) : option Error :=
  match v with
  | None => None
  | Some EmptyString => None
  | Some s =>
      if JsString.digitsRegex 10 s then None
      else Some (ValidatorError "mobileNumber" "regexp")
  end.

Fixpoint firstError (l : list (option Error)) : option Error :=
  match l with
  | [] => None
  | Some e :: _ => Some e
  | None :: r => firstError r
  end.

End Lead.

(** ** Request bodies of the lead routes

    The top-level keys of [req.body] that name a path of the schema
    ([strict] mode drops the others); [None] is a key that is absent.
    Values are of the type the path casts to.  [createdAt] is the path
    that [timestamps: true] adds: the handlers do not remove it from the
    body, and a new document keeps the value it is given.  The keys [_id],
    [updatedAt] and [__v] are left out; update operators are in
    [UpdateBody] below. *)
Module Body.

Record t := mk {
  customerName : option string;
  mobileNumber : option string;
  panCard : option string;
  aadharNumber : option string;
  preferredBank : option string;
  employmentType : option string;
  monthlySalary : option Z;
  status : option string;
  rejectionReason : option string;
  rejectionNotes : option string;
  source : option string;
  createdBy : option string;
  editHistory : option (list Lead.Edit);
  createdAt : option Date
}.

Definition empty : t :=
  mk None None None None None None None None None None None None None None.

(** [req.body.createdBy = c; req.body.source = s] *)
Definition stamp (b : t) (c s : string) : t :=
  mk (customerName b) (mobileNumber b) (panCard b) (aadharNumber b)
     (preferredBank b) (employmentType b) (monthlySalary b) (status b)
     (rejectionReason b) (rejectionNotes b) (Some s) (Some c)
     (editHistory b) (createdAt b).

End Body.

(* ------------------------------------------------------------------ *)
(** ** The lead collection, through Mongoose *)

Module Leads.

Import Lead.

Definition hasId (i : string) (l : Lead.t) : bool := _id (doc l) =? i.

(** [Lead.findById(id)] *)
Definition findById (leads : list Lead.t) (i : string) : option Lead.t :=
  find (hasId i) leads.

(** The stored document with id [i] becomes [l']. *)
Fixpoint replaceById (i : string) (l' : Lead.t) (leads : list Lead.t)
  : list Lead.t :=
  match leads with
  | [] => []
  | l :: r => if hasId i l then l' :: r else l :: replaceById i l' r
  end.

(** [lead.deleteOne()] *)
Fixpoint deleteById (i : string) (leads : list Lead.t) : list Lead.t :=
  match leads with
  | [] => []
  | l :: r => if hasId i l then r else l :: deleteById i r
  end.

Definition orElse {A : Type} (o : option A) (d : A) : A :=
  match o with Some v => v | None => d end.

Definition orKeep {A : Type} (o old : option A) : option A :=
  match o with Some v => Some v | None => old end.

(** Validation of a new document, defaults applied. *)
Definition validateDocument (b : Body.t) : option Error :=
  firstError
    [ required "customerName" (option_map setCustomerName (Body.customerName b));
      required "mobileNumber" (Body.mobileNumber b);
      matchMobile (Body.mobileNumber b);
      required "panCard" (option_map setPanCard (Body.panCard b));
      required "aadharNumber" (option_map setAadharNumber (Body.aadharNumber b));
      enum "employmentType" employmentTypes (Body.employmentType b);
      enum "status" statuses (Body.status b);
      enum "rejectionReason" rejectionReasons (Body.rejectionReason b);
      enum "source" sources (Body.source b);
      required "createdBy" (Body.createdBy b) ].

(** The document [Lead.create(body)] builds: setters and defaults
    applied.  The timestamps are set when the document is saved:
    [createdAt] to the clock unless the body gave it a value, and
    [updatedAt], for a new document, to the value of [createdAt]. *)
Definition newDocument (now : Date) (newId : string) (b : Body.t) : Lead.t :=
  let created := orElse (Body.createdAt b) now in
  mk (mkData newId
        (setCustomerName (orElse (Body.customerName b) ""))
        (orElse (Body.mobileNumber b) "")
        (setPanCard (orElse (Body.panCard b) ""))
        (setAadharNumber (orElse (Body.aadharNumber b) ""))
        (Body.preferredBank b)
        (Body.employmentType b)
        (Body.monthlySalary b)
        (orElse (Body.status b) "New")
        (orElse (Body.rejectionReason b) "")
        (option_map setRejectionNotes (Body.rejectionNotes b))
        (orElse (Body.source b) "Manual")
        (orElse (Body.createdBy b) "")
        created created)
     (orElse (Body.editHistory b) []).

(** [Lead.create(body)]: the new document is validated, then appended. *)
Definition create (now : Date) (newId : string) (leads : list Lead.t)
           (b : Body.t) : Error + (Lead.t * list Lead.t) :=
  match validateDocument b with
  | Some e => inl e
  | None =>
      let l := newDocument now newId b in
      inr (l, leads ++ [l])
  end.

(** Update validators ([runValidators: true]): the validators of the
    paths the update sets, on the cast values. *)
Definition onSet (v : option string) (check : option string -> option Error)
  : option Error :=
  match v with
  | None => None
  | Some _ => check v
  end.

Definition validateUpdate (b : Body.t) : option Error :=
  firstError
    [ onSet (option_map setCustomerName (Body.customerName b))
            (required "customerName");
      onSet (Body.mobileNumber b) (required "mobileNumber");
      matchMobile (Body.mobileNumber b);
      onSet (option_map setPanCard (Body.panCard b)) (required "panCard");
      onSet (option_map setAadharNumber (Body.aadharNumber b))
            (required "aadharNumber");
      enum "employmentType" employmentTypes (Body.employmentType b);
      enum "status" statuses (Body.status b);
      enum "rejectionReason" rejectionReasons (Body.rejectionReason b);
      enum "source" sources (Body.source b);
      onSet (Body.createdBy b) (required "createdBy") ].

(** The [$set] of every key of the body, and of [updatedAt].  A
    [createdAt] in the update is dropped: the path is immutable once the
    document is stored. *)
Definition applyUpdate (now : Date) (b : Body.t) (l : Lead.t) : Lead.t :=
  let d := doc l in
  mk (mkData (_id d)
        (orElse (option_map setCustomerName (Body.customerName b)) (customerName d))
        (orElse (Body.mobileNumber b) (mobileNumber d))
        (orElse (option_map setPanCard (Body.panCard b)) (panCard d))
        (orElse (option_map setAadharNumber (Body.aadharNumber b)) (aadharNumber d))
        (orKeep (Body.preferredBank b) (preferredBank d))
        (orKeep (Body.employmentType b) (employmentType d))
        (orKeep (Body.monthlySalary b) (monthlySalary d))
        (orElse (Body.status b) (status d))
        (orElse (Body.rejectionReason b) (rejectionReason d))
        (orKeep (option_map setRejectionNotes (Body.rejectionNotes b))
                (rejectionNotes d))
        (orElse (Body.source b) (source d))
        (orElse (Body.createdBy b) (createdBy d))
        (createdAt d)
        now)
     (orElse (Body.editHistory b) (editHistory l)).

(** [Lead.findByIdAndUpdate(id, body, { new: true, runValidators: true })]:
    an error when a validator fails, before anything is written;
    otherwise the updated document ([null] when no document has the id)
    and the collection. *)
Definition findByIdAndUpdate (now : Date) (leads : list Lead.t) (i : string)
           (b : Body.t) : Error + (option Lead.t * list Lead.t) :=
  match validateUpdate b with
  | Some e => inl e
  | None =>
      match findById leads i with
      | None => inr (None, leads)
      | Some l =>
          let l' := applyUpdate now b l in
          inr (Some l', replaceById i l' leads)
      end
  end.

Definition touch (now : Date) (l : Lead.t) : Lead.t :=
  mk (withUpdatedAt now (doc l)) (editHistory l).

(** [lead.save()] of a loaded, modified document: it is written back, its
    [updatedAt] set to the time of the save. *)
Definition save (now : Date) (leads : list Lead.t) (l : Lead.t)
  : Lead.t * list Lead.t :=
  let l' := touch now l in
  (l', replaceById (_id (doc l)) l' leads).

(** [populate('createdBy', 'name email')]: the creator, [null] when no
    user has the id. *)
Definition populate (users : list User.t) (l : Lead.t) : option User.t :=
  User.findById users (createdBy (doc l)).

End Leads.

(* ------------------------------------------------------------------ *)
(** ** [controllers/leadController.js] *)

Module LeadController.

Import Lead.

Inductive Payload :=
| OneLead (l : Lead.t)
| ManyLeads (count : nat) (ls : list (Lead.t * option User.t))
| EmptyObject.

Definition startOfMonth (now : Date) : Date :=
  newDate (getFullYear now) (getMonth now) 1 0 0 0.

Definition endOfMonth (now : Date) : Date :=
  newDate (getFullYear now) (getMonth now + 1) 0 23 59 59.

(** The filter of [checkDuplicateLead].  Mongoose casts the values of a
    filter with the schema type of their path, which runs the setters of
    the path on them. *)
Definition duplicateFilter (now : Date) (pan aadhar : string) (l : Lead.t)
  : bool :=
  ((panCard (doc l) =? setPanCard pan)
   || (aadharNumber (doc l) =? setAadharNumber aadhar))
  && JsDate.leb (startOfMonth now) (createdAt (doc l))
  && JsDate.leb (createdAt (doc l)) (endOfMonth now).

(** [checkDuplicateLead(panCard, aadharNumber)]: the first lead of the
    month with that PAN or that Aadhar number, its creator populated. *)
Definition checkDuplicateLead (now : Date) (users : list User.t)
           (leads : list Lead.t) (pan aadhar : string)
  : option (Lead.t * option User.t) :=
  match find (duplicateFilter now pan aadhar) leads with
  | Some l => Some (l, Leads.populate users l)
  | None => None
  end.

Definition duplicateMessage (creator : User.t) : string :=
  append "This lead already exists for this month. It was created by "
    (append (User.name creator)
       (append " ("
          (append (User.email creator)
             "). You can add this lead again next month."))).

(** [createLead]: [now] is the clock, [newId] the id the driver gives the
    new document. *)
Definition createLead (now : Date) (newId : string) (users : list User.t)
           (leads : list Lead.t) (user : ReqUser) (body : Body.t)
  : Response Payload * list Lead.t :=
  if JsString.falsy (Body.panCard body)
     || JsString.falsy (Body.aadharNumber body)
  then (failure 400 (Text "Please provide both a PAN card and an Aadhar card number."), leads)
  else
    let pan := Leads.orElse (Body.panCard body) "" in
    let aadhar := Leads.orElse (Body.aadharNumber body) "" in
    if negb (JsString.panRegex (JsString.toUpperCase pan))
    then (failure 400 (Text "Invalid PAN card format. It should be 5 letters, 4 numbers, and 1 letter."), leads)
    else if negb (JsString.digitsRegex 12 aadhar)
    then (failure 400 (Text "Invalid Aadhar card format. It should be 12 digits."), leads)
    else
      match checkDuplicateLead now users leads pan aadhar with
      | Some (_, Some creator) =>
          (failure 409 (Text (duplicateMessage creator)), leads)
      | Some (_, None) =>
          (* [creator.name] on [null] throws; the handler's catch *)
          (failure 400 (ErrorMessage (TypeError "creator is null")), leads)
      | None =>
          match User.findById users (id user) with
          | None => (failure 404 (Text "User not found"), leads)
          | Some _ =>
              match Leads.create now newId leads
                      (Body.stamp body (id user) "Manual") with
              | inl e => (failure 400 (ErrorMessage e), leads)
              | inr (l, leads') =>
                  (mkResponse 201 true None (Some (OneLead l)), leads')
              end
          end
      end.

(** [createLeadFromLink]: [userId] is [req.params.userId]. *)
Definition createLeadFromLink (now : Date) (newId : string)
           (users : list User.t) (leads : list Lead.t) (userId : string)
           (body : Body.t) : Response Payload * list Lead.t :=
  match User.findById users userId with
  | None => (failure 404 (Text "Invalid referral link."), leads)
  | Some _ =>
      if JsString.falsy (Body.panCard body)
         || JsString.falsy (Body.aadharNumber body)
      then (failure 400 (Text "Please provide both a PAN card and an Aadhar card number."), leads)
      else
        let pan := Leads.orElse (Body.panCard body) "" in
        let aadhar := Leads.orElse (Body.aadharNumber body) "" in
        if negb (JsString.panRegex (JsString.toUpperCase pan))
        then (failure 400 (Text "Invalid PAN card format. It should be 5 letters, 4 numbers, and 1 letter."), leads)
        else if negb (JsString.digitsRegex 16 aadhar)
        then (failure 400 (Text "Invalid Aadhar card format. It should be 16 digits."), leads)
        else
          match checkDuplicateLead now users leads pan aadhar with
          | Some _ =>
              (failure 409 (Text "This lead already exists. Please try again after this month."), leads)
          | None =>
              match Leads.create now newId leads
                      (Body.stamp body userId "Link") with
              | inl e => (failure 400 (ErrorMessage e), leads)
              | inr (l, leads') =>
                  (mkResponse 201 true
                     (Some (Text "Lead submitted successfully!"))
                     (Some (OneLead l)), leads')
              end
          end
  end.

(** [getAllLeads] *)
Definition getAllLeads (users : list User.t) (leads : list Lead.t)
           (user : ReqUser) : Response Payload :=
  let found :=
    if negb (role user =? "SUPER ADMIN")
    then filter (fun l => createdBy (doc l) =? id user) leads
    else leads in
  mkResponse 200 true None
    (Some (ManyLeads (List.length found)
             (map (fun l => (l, Leads.populate users l)) found))).

(** The permission check shared by [updateLead] and [deleteLead]:
    [lead.createdBy.toString() !== req.user.id &&
     req.user.role !== 'SUPER ADMIN'] *)
Definition notAuthorized (user : ReqUser) (l : Lead.t) : bool :=
  negb (createdBy (doc l) =? id user) && negb (role user =? "SUPER ADMIN").

(** The clock of one [updateLead] call: when the update is written, when
    the history entry is built, when the document is saved. *)
Record Clock := mkClock { atUpdate : Date; atPush : Date; atSave : Date }.

(** [updateLead]: [i] is [req.params.id].  The body is one of top-level
    keys; [Operators.updateLead] below is the handler on bodies that have
    update operators too. *)
Definition updateLead (clock : Clock) (leads : list Lead.t) (user : ReqUser)
           (i : string) (body : Body.t) : Response Payload * list Lead.t :=
  match Leads.findById leads i with
  | None => (failure 404 (Text "Lead not found"), leads)
  | Some lead =>
      if notAuthorized user lead
      then (failure 403 (Text "Not authorized to update this lead"), leads)
      else
        let previousData := doc lead in
        match Leads.findByIdAndUpdate (atUpdate clock) leads i body with
        | inl e => (failure 400 (ErrorMessage e), leads)
        | inr (None, leads1) =>
            (* [lead.toObject()] on [null] throws *)
            (failure 400 (ErrorMessage (TypeError "lead is null")), leads1)
        | inr (Some lead1, leads1) =>
            let newData := doc lead1 in
            let lead2 :=
              mk (doc lead1)
                 (editHistory lead1 ++
                  [mkEdit (id user) (atPush clock) previousData newData]) in
            let (lead3, leads2) := Leads.save (atSave clock) leads1 lead2 in
            (mkResponse 200 true None (Some (OneLead lead3)), leads2)
        end
  end.

(** [deleteLead] *)
Definition deleteLead (leads : list Lead.t) (user : ReqUser) (i : string)
  : Response Payload * list Lead.t :=
  match Leads.findById leads i with
  | None => (failure 404 (Text "Lead not found"), leads)
  | Some lead =>
      if notAuthorized user lead
      then (failure 403 (Text "Not authorized to delete this lead"), leads)
      else (mkResponse 200 true None (Some EmptyObject),
            Leads.deleteById i leads)
  end.

End LeadController.

(* ------------------------------------------------------------------ *)
(** ** Numbers *)

Module JsNumber.

(** A count as a JavaScript number. *)
Definition ofNat (n : nat) : float :=
  PrimFloat.of_uint63 (Uint63.of_Z (Z.of_nat n)).

(** [(a / b) * 100] *)
Definition percent (a b : nat) : float :=
  PrimFloat.mul (PrimFloat.div (ofNat a) (ofNat b)) (ofNat 100).

End JsNumber.

(* ------------------------------------------------------------------ *)
(** ** Rows and buffers of the monthly report *)

Module Report.

(** [approvalRate]: [x.toFixed(2)] of a float, the number [0], or the
    text ["0.00"]. *)
Inductive Rate :=
| ToFixed2 (x : float)
| Zero
| ZeroText.

Record Row := mkRow {
  name : string;
  email : string;
  totalCreated : nat;
  approvedCount : nat;
  rejectedCount : nat;
  approvalRate : Rate
}.

(** What the rendering libraries produce, by what they were given: the
    bytes that the document with a title and a table of rows streams out,
    the workbook with one sheet of rows, and [Buffer.concat] of the chunks
    of a document. *)
Inductive Chunk :=
| PdfBytes (title : string) (rows : list Row).

Inductive Buffer :=
| XlsxBuffer (sheet : string) (rows : list Row)
| Concat (chunks : list Chunk).

End Report.

(* ------------------------------------------------------------------ *)
(** ** [utils/emailSender.js] *)

Module EmailSender.

Record Attachment := mkAttachment {
  filename : string;
  content : Report.Buffer;
  contentType : string
}.

(** The [options] object callers pass; [None] is a key left out. *)
Record Options := mkOptions {
  email : string;
  subject : string;
  message : option string;
  html : option string;
  attachments : option (list Attachment)
}.

(** The object handed to [transporter.sendMail]. *)
Record MailOptions := mkMail {
  mailFrom : string;
  mailTo : string;
  mailSubject : string;
  mailText : option string;
  mailHtml : option string;
  mailAttachments : option (list Attachment)
}.

(** [mailOptions]: the literal has the keys [from], [to], [subject] and
    [text] only. *)
Definition mailOptions (options : Options) : MailOptions :=
  mkMail "EBS Cards Admin <admin@ebscards.com>"
         (email options)
         (subject options)
         (message options)
         None
         None.

(** The mail transport: whether [sendMail] resolves for a mail. *)
Definition Transport := MailOptions -> bool.

(** [sendEmail(options)]: the mail handed to the transport is recorded in
    [sent]; a rejected [sendMail] is thrown on. *)
Definition sendEmail (transport : Transport) (options : Options)
           (sent : list MailOptions) : (Error + unit) * list MailOptions :=
  let m := mailOptions options in
  if transport m then (inr tt, sent ++ [m])
  else (inl (TransportError (mailTo m)), sent ++ [m]).

End EmailSender.

(* ------------------------------------------------------------------ *)
(** ** [controllers/reportController.js] *)

Module ReportController.

Import Lead.

(** *** Dashboard *)

(** A JavaScript object used as a map from keys to counts, keys in
    insertion order. *)
Definition Counts := list (string * nat).

Fixpoint getKey (k : string) (o : Counts) : option nat :=
  match o with
  | [] => None
  | (k', v) :: r => if k' =? k then Some v else getKey k r
  end.

(** [o[k] = v] *)
Fixpoint setKey (k : string) (v : nat) (o : Counts) : Counts :=
  match o with
  | [] => [(k, v)]
  | (k', v') :: r => if k' =? k then (k', v) :: r else (k', v') :: setKey k v r
  end.

(** One more document in the group of [k]. *)
Fixpoint bump (k : string) (o : Counts) : Counts :=
  match o with
  | [] => [(k, 1%nat)]
  | (k', v') :: r => if k' =? k then (k', S v') :: r else (k', v') :: bump k r
  end.

(** [{ $group: { _id: '$status', count: { $sum: 1 } } }]: one pair per
    status that occurs, with the number of its documents.  (The order of
    the groups is not specified by the database.) *)
Fixpoint groupByStatus (leads : list Lead.t) : Counts :=
  match leads with
  | [] => []
  | l :: r => bump (status (doc l)) (groupByStatus r)
  end.

Record Stats := mkStats {
  totalLeads : nat;
  leadsLast30Days : nat;
  statusCounts : Counts;
  approvalRatio : float;
  rejectionRatio : float
}.

(** The role-based filter of the dashboard, as [countDocuments] applies
    it: Mongoose casts the filter of a query with the schema, so the
    string [req.user.id] is compared as an ObjectId. *)
Definition scoped (user : ReqUser) (leads : list Lead.t) : list Lead.t :=
  if negb (role user =? "SUPER ADMIN")
  then filter (fun l => createdBy (doc l) =? id user) leads
  else leads.

(** A value as the database compares it: an ObjectId (by its hex string)
    and a string are never equal. *)
Inductive Bson :=
| BObjectId (hex : string)
| BString (s : string).

Definition bsonEqb (a b : Bson) : bool :=
  match a, b with
  | BObjectId x, BObjectId y => x =? y
  | BString x, BString y => x =? y
  | _, _ => false
  end.

(** The same filter as the [$match] stage applies it.  The stages of an
    aggregation are sent to the database as they are written, without a
    cast: [createdBy], an ObjectId in the stored document
    ([leadSchema.createdBy]), is compared with the string [req.user.id]. *)
Definition matchStage (user : ReqUser) (leads : list Lead.t) : list Lead.t :=
  if negb (role user =? "SUPER ADMIN")
  then filter (fun l => bsonEqb (BObjectId (createdBy (doc l)))
                                (BString (id user))) leads
  else leads.

(** [stats.statusCounts.K / totalLeads * 100]; a key that is missing
    reads as [undefined], and the quotient is NaN. *)
Definition ratio (k : string) (counts : Counts) (total : nat) : float :=
  if (0 <? total)%nat then
    match getKey k counts with
    | Some n => JsNumber.percent n total
    | None => PrimFloat.nan
    end
  else JsNumber.ofNat 0.

(** [getDashboardStats] *)
Definition getDashboardStats (now : Date) (leads : list Lead.t)
           (user : ReqUser) : Response Stats :=
  let thirtyDaysAgo := minusDays 30 now in
  let leadStatusCounts := groupByStatus (matchStage user leads) in
  let matched := scoped user leads in
  let total := List.length matched in
  let last30 :=
    List.length
      (filter (fun l => JsDate.leb thirtyDaysAgo (createdAt (doc l)))
              matched) in
  let counts0 : Counts :=
    [("New", 0%nat); ("Follow-up", 0%nat); ("Approved", 0%nat);
     ("Rejected", 0%nat)] in
  let counts :=
    fold_left (fun o g => setKey (fst g) (snd g) o) leadStatusCounts counts0 in
  mkResponse 200 true None
    (Some (mkStats total last30 counts
             (ratio "Approved" counts total)
             (ratio "Rejected" counts total))).

(** *** Custom range export *)

(** The body of the download route: the two dates as [new Date] reads
    them ([None]: absent or empty), [adminId], [format]. *)
Record DownloadBody := mkDownload {
  startDate : option Date;
  endDate : option Date;
  adminId : option string;
  format : option string
}.

(** The creator the filter is restricted to, if any. *)
Definition creatorFilter (user : ReqUser) (adminId : option string)
  : option string :=
  if role user =? "ADMIN" then Some (id user)
  else if (role user =? "SUPER ADMIN") && negb (JsString.falsy adminId)
       then adminId
       else None.

Definition rangeFilter (from to : Date) (creator : option string)
           (l : Lead.t) : bool :=
  JsDate.leb from (createdAt (doc l))
  && JsDate.leb (createdAt (doc l)) (setHours to 23 59 59 999)
  && match creator with
     | Some c => createdBy (doc l) =? c
     | None => true
     end.

Definition countStatus (s : string) (leads : list Lead.t) : nat :=
  List.length (filter (fun l => status (doc l) =? s) leads).

(** What the file is rendered from: the leads found, their creators
    populated, the figures of the summary, and the format. *)
Record Export := mkExport {
  pdf : bool;
  rows : list (Lead.t * option User.t);
  exportTotal : nat;
  exportApproved : nat;
  exportRejected : nat;
  exportRate : Report.Rate
}.

(** [downloadCustomReport], up to the rendering of the file. *)
Definition downloadCustomReport (users : list User.t) (leads : list Lead.t)
           (user : ReqUser) (body : DownloadBody) : Response Export :=
  match startDate body, endDate body with
  | Some from, Some to =>
      let found := filter (rangeFilter from to (creatorFilter user (adminId body))) leads in
      let total := List.length found in
      let approved := countStatus "Approved" found in
      let rejected := countStatus "Rejected" found in
      let rate :=
        if (0 <? total)%nat
        then Report.ToFixed2 (JsNumber.percent approved total)
        else Report.ZeroText in
      mkResponse 200 true None
        (Some (mkExport
                 (JsString.toLowerCase (Leads.orElse (format body) "csv") =? "pdf")
                 (map (fun l => (l, Leads.populate users l)) found)
                 total approved rejected rate))
  | _, _ => failure 400 (Text "Please provide a start and end date.")
  end.

(** *** Monthly report *)

Inductive LogLine :=
| Log (s : string)
| LogError (s : string) (e : Error).

(** What the job leaves behind: the mails handed to the transport, in
    order, and the console. *)
Record World := mkWorld {
  sent : list EmailSender.MailOptions;
  console : list LogLine
}.

Definition monthNames : list string :=
  ["January"; "February"; "March"; "April"; "May"; "June"; "July";
   "August"; "September"; "October"; "November"; "December"].

(** [d.toLocaleString('default', { month: 'long', year: 'numeric' })] *)
Definition monthYearString (d : Date) : string :=
  append (nth (Z.to_nat (month d)) monthNames "")
    (append " " (NilZero.string_of_int (Z.to_int (year d)))).

(** [s.replace(' ', '_')]: the first space only. *)
Fixpoint replaceSpace (s : string) : string :=
  match s with
  | EmptyString => EmptyString
  | String c r =>
      if (nat_of_ascii c =? 32)%nat then String "_" r
      else String c (replaceSpace r)
  end.

Definition reportRow (from to : Date) (leads : list Lead.t) (admin : User.t)
  : Report.Row :=
  let found :=
    filter (fun l => (createdBy (doc l) =? User._id admin)
                     && JsDate.leb from (createdAt (doc l))
                     && JsDate.leb (createdAt (doc l)) to) leads in
  let totalCreated := List.length found in
  let approvedCount := countStatus "Approved" found in
  let rejectedCount := countStatus "Rejected" found in
  Report.mkRow (User.name admin) (User.email admin)
    totalCreated approvedCount rejectedCount
    (if (0 <? totalCreated)%nat
     then Report.ToFixed2 (JsNumber.percent approvedCount totalCreated)
     else Report.Zero).

Definition reportOptions (monthString : string)
           (excelBuffer pdfBuffer : Report.Buffer) (superAdmin : User.t)
  : EmailSender.Options :=
  EmailSender.mkOptions
    (User.email superAdmin)
    (append "EBS Cards - Monthly Report for " monthString)
    None
    (Some (append "<p>Please find the consolidated performance report for "
             (append monthString " attached.</p>")))
    (Some
       [ EmailSender.mkAttachment
           (append "Report_" (append (replaceSpace monthString) ".xlsx"))
           excelBuffer
           "application/vnd.openxmlformats-officedocument.spreadsheetml.sheet";
         EmailSender.mkAttachment
           (append "Report_" (append (replaceSpace monthString) ".pdf"))
           pdfBuffer
           "application/pdf" ]).

(** The [for] loop over the super admins: a send that throws leaves the
    loop. *)
Fixpoint sendToAll (transport : EmailSender.Transport)
         (options : User.t -> EmailSender.Options)
         (superAdmins : list User.t) (w : World) : option Error * World :=
  match superAdmins with
  | [] => (None, w)
  | superAdmin :: rest =>
      match EmailSender.sendEmail transport (options superAdmin) (sent w) with
      | (inl e, sent') => (Some e, mkWorld sent' (console w))
      | (inr _, sent') =>
          sendToAll transport options rest
            (mkWorld sent'
               (console w ++
                [Log (append "Monthly report sent to super admin: "
                        (User.email superAdmin))]))
      end
  end.

(** The window of the month before [now]. *)
Definition startOfLastMonth (now : Date) : Date :=
  let lastMonth := newDate (getFullYear now) (getMonth now - 1) 1 0 0 0 in
  newDate (getFullYear lastMonth) (getMonth lastMonth) 1 0 0 0.

Definition endOfLastMonth (now : Date) : Date :=
  let lastMonth := newDate (getFullYear now) (getMonth now - 1) 1 0 0 0 in
  newDate (getFullYear lastMonth) (getMonth lastMonth + 1) 0 23 59 59.

(** [reportData]: one row per user with the role ADMIN. *)
Definition monthlyReportData (now : Date) (users : list User.t)
           (leads : list Lead.t) : list Report.Row :=
  map (reportRow (startOfLastMonth now) (endOfLastMonth now) leads)
      (User.findByRole users "ADMIN").

(** The array [pdfChunks], which the [Writable] that the document is
    piped into fills.  The document hands its bytes to the stream in later
    turns of the event loop; [flushed] tells whether such a turn has
    passed. *)
Definition pdfChunks (flushed : bool) (title : string)
           (rows : list Report.Row) : list Report.Chunk :=
  if flushed then [Report.PdfBytes title rows] else [].

(** The argument of [sendEmail] for one super admin.  The workbook is
    awaited ([writeBuffer]); [Buffer.concat(pdfChunks)] comes right after
    [pdfDoc.end()], with no [await] since the document was made, so it
    reads the array before anything was pushed. *)
Definition monthlyOptions (now : Date) (users : list User.t)
           (leads : list Lead.t) : User.t -> EmailSender.Options :=
  let reportMonthString := monthYearString (startOfLastMonth now) in
  let reportData := monthlyReportData now users leads in
  let excelBuffer :=
    Report.XlsxBuffer (append "Report for " reportMonthString) reportData in
  let pdfBuffer :=
    Report.Concat
      (pdfChunks false
         (append "Monthly Performance Report for " reportMonthString)
         reportData) in
  reportOptions reportMonthString excelBuffer pdfBuffer.

(** [generateAndSendMonthlyReport], from an empty outbox and console: the
    rows and the two buffers are built, then the mails are sent; an error
    thrown on the way is caught and logged by the one handler of the
    function. *)
Definition generateAndSendMonthlyReport (now : Date)
           (transport : EmailSender.Transport) (users : list User.t)
           (leads : list Lead.t) : World :=
  let w0 := mkWorld [] [Log "Generating monthly performance report..."] in
  let superAdmins := User.findByRole users "SUPER ADMIN" in
  match sendToAll transport (monthlyOptions now users leads) superAdmins w0 with
  | (None, w) => w
  | (Some e, w) =>
      mkWorld (sent w)
        (console w ++
         [LogError "Error generating and sending monthly report:" e])
  end.

(** The mail that reaches the transport for one super admin. *)
Definition monthlyMail (now : Date) (users : list User.t)
           (leads : list Lead.t) (superAdmin : User.t)
  : EmailSender.MailOptions :=
  EmailSender.mailOptions (monthlyOptions now users leads superAdmin).

(** The line logged after a send that succeeded. *)
Definition sentLine (u : User.t) : LogLine :=
  Log (append "Monthly report sent to super admin: " (User.email u)).

Definition isLogError (l : LogLine) : bool :=
  match l with
  | LogError _ _ => true
  | Log _ => false
  end.

End ReportController.

(* ------------------------------------------------------------------ *)
(** ** Sequences of update calls with bodies of top-level keys *)

Module Run.

Import LeadController.

Record Call := mkCall {
  clock : Clock;
  caller : ReqUser;
  target : string;
  body : Body.t
}.

(** The stored lead after an accepted update. *)
Definition updated (clock : Clock) (user : ReqUser) (body : Body.t)
           (lead : Lead.t) : Lead.t :=
  let lead1 := Leads.applyUpdate (atUpdate clock) body lead in
  Leads.touch (atSave clock)
    (Lead.mk (Lead.doc lead1)
       (Lead.editHistory lead1 ++
        [Lead.mkEdit (id user) (atPush clock) (Lead.doc lead) (Lead.doc lead1)])).

(** One call as it happened: the collection before, the call, the
    response and the collection after. *)
Record Step := mkStep {
  before : list Lead.t;
  call : Call;
  response : Response Payload;
  after : list Lead.t
}.

Definition step (leads : list Lead.t) (c : Call) : Step :=
  let (r, leads') := updateLead (clock c) leads (caller c) (target c) (body c) in
  mkStep leads c r leads'.

(** The calls in order, each on the collection the one before left. *)
Fixpoint trace (calls : list Call) (leads : list Lead.t) : list Step :=
  match calls with
  | [] => []
  | c :: rest => let s := step leads c in s :: trace rest (after s)
  end.

Fixpoint final (calls : list Call) (leads : list Lead.t) : list Lead.t :=
  match calls with
  | [] => leads
  | c :: rest => final rest (after (step leads c))
  end.

(** A call on the lead [i] that was answered with 200. *)
Definition succeededOn (i : string) (s : Step) : bool :=
  (target (call s) =? i) && (statusCode (response s) =? 200)%Z.

(** The history entry [e] is the record of the step [s] on the lead [i]:
    its editor is the caller, [previousData] is the stored document
    before the call, and [newData] is the stored document after the call
    as the update wrote it, that is, up to the [updatedAt] that the save
    of the history set afterwards. *)
Definition records (i : string) (e : Lead.Edit) (s : Step) : Prop :=
  Lead.editorId e = id (caller (call s))
  /\ exists lb la,
       Leads.findById (before s) i = Some lb
       /\ Leads.findById (after s) i = Some la
       /\ Lead.previousData e = Lead.doc lb
       /\ Lead.newData e
          = Lead.withUpdatedAt (atUpdate (clock (call s))) (Lead.doc la)
       /\ Lead.doc la
          = Lead.withUpdatedAt (atSave (clock (call s))) (Lead.newData e).

End Run.

(* ------------------------------------------------------------------ *)
(** ** Update bodies with operators

    [updateLead] hands [req.body] to [findByIdAndUpdate] as it came, and
    Mongoose reads update operators in it.  An [UpdateBody.t] is a body
    with top-level keys that name schema paths, a [$set] of such keys and a
    [$pop] on [editHistory]; each of the three parts may be missing.  Other
    operators, and dotted paths, are not modelled. *)

Module UpdateBody.

Record t := mk {
  fields : Body.t;
  setOperator : option Body.t;
  (** [Some true] is [{ editHistory: 1 }], [Some false] is
      [{ editHistory: -1 }]. *)
  popEditHistory : option bool
}.

(** A body of top-level keys only. *)
Definition plain (b : Body.t) : t := mk b None None.

(** The keys of [a], and the keys of [b] that [a] does not have. *)
Definition merge (a b : Body.t) : Body.t :=
  Body.mk
    (Leads.orKeep (Body.customerName a) (Body.customerName b))
    (Leads.orKeep (Body.mobileNumber a) (Body.mobileNumber b))
    (Leads.orKeep (Body.panCard a) (Body.panCard b))
    (Leads.orKeep (Body.aadharNumber a) (Body.aadharNumber b))
    (Leads.orKeep (Body.preferredBank a) (Body.preferredBank b))
    (Leads.orKeep (Body.employmentType a) (Body.employmentType b))
    (Leads.orKeep (Body.monthlySalary a) (Body.monthlySalary b))
    (Leads.orKeep (Body.status a) (Body.status b))
    (Leads.orKeep (Body.rejectionReason a) (Body.rejectionReason b))
    (Leads.orKeep (Body.rejectionNotes a) (Body.rejectionNotes b))
    (Leads.orKeep (Body.source a) (Body.source b))
    (Leads.orKeep (Body.createdBy a) (Body.createdBy b))
    (Leads.orKeep (Body.editHistory a) (Body.editHistory b))
    (Leads.orKeep (Body.createdAt a) (Body.createdAt b)).

(** The [$set] that reaches the server: Mongoose moves the top-level keys
    of the update into its [$set], where they replace the keys of the same
    name. *)
Definition effective (u : t) : Body.t :=
  match setOperator u with
  | Some s => merge (fields u) s
  | None => fields u
  end.

Definition isSome {A : Type} (o : option A) : bool :=
  match o with Some _ => true | None => false end.



End UpdateBody.

(** ** [updateLead] on bodies with operators *)

Module Operators.

Import LeadController UpdateBody.

(** [$pop]: [1] removes the last element of the array and [-1] the
    first; an empty array stays empty. *)
Definition pop (p : option bool) (h : list Lead.Edit) : list Lead.Edit :=
  match p with
  | None => h
  | Some true => removelast h
  | Some false => tl h
  end.

(** The server refuses an update that names a path under two operators. *)
Definition conflicts (u : t) : bool :=
  isSome (popEditHistory u) && isSome (Body.editHistory (effective u)).

Definition conflictError : Error :=
  MongoServerError
    "Updating the path 'editHistory' would create a conflict at 'editHistory'".

(** The [$set] and the [$pop] on one document. *)
Definition applyUpdate (now : Date) (u : t) (l : Lead.t) : Lead.t :=
  let l1 := Leads.applyUpdate now (effective u) l in
  Lead.mk (Lead.doc l1) (pop (popEditHistory u) (Lead.editHistory l1)).

(** [Lead.findByIdAndUpdate(id, body, { new: true, runValidators: true })]:
    the update validators run on the paths of the [$set]; they do not run
    on [$pop]. *)
Definition findByIdAndUpdate (now : Date) (leads : list Lead.t) (i : string)
           (u : t) : Error + (option Lead.t * list Lead.t) :=
  match Leads.validateUpdate (effective u) with
  | Some e => inl e
  | None =>
      if conflicts u then inl conflictError
      else
        match Leads.findById leads i with
        | None => inr (None, leads)
        | Some l =>
            let l' := applyUpdate now u l in
            inr (Some l', Leads.replaceById i l' leads)
        end
  end.

(** [updateLead], the body read as Mongoose reads it. *)
Definition updateLead (clock : Clock) (leads : list Lead.t) (user : ReqUser)
           (i : string) (body : t) : Response Payload * list Lead.t :=
  match Leads.findById leads i with
  | None => (failure 404 (Text "Lead not found"), leads)
  | Some lead =>
      if notAuthorized user lead
      then (failure 403 (Text "Not authorized to update this lead"), leads)
      else
        let previousData := Lead.doc lead in
        match findByIdAndUpdate (atUpdate clock) leads i body with
        | inl e => (failure 400 (ErrorMessage e), leads)
        | inr (None, leads1) =>
            (failure 400 (ErrorMessage (TypeError "lead is null")), leads1)
        | inr (Some lead1, leads1) =>
            let newData := Lead.doc lead1 in
            let lead2 :=
              Lead.mk (Lead.doc lead1)
                (Lead.editHistory lead1 ++
                 [Lead.mkEdit (id user) (atPush clock) previousData newData]) in
            let (lead3, leads2) := Leads.save (atSave clock) leads1 lead2 in
            (mkResponse 200 true None (Some (OneLead lead3)), leads2)
        end
  end.

(** The stored lead after an accepted update. *)
Definition updated (clock : Clock) (user : ReqUser) (body : t)
           (lead : Lead.t) : Lead.t :=
  let lead1 := applyUpdate (atUpdate clock) body lead in
  Leads.touch (atSave clock)
    (Lead.mk (Lead.doc lead1)
       (Lead.editHistory lead1 ++
        [Lead.mkEdit (id user) (atPush clock) (Lead.doc lead) (Lead.doc lead1)])).

Record Call := mkCall {
  clock : Clock;
  caller : ReqUser;
  target : string;
  body : t
}.

(** One call as it happened: the collection before, the call, the
    response and the collection after. *)
Record Step := mkStep {
  before : list Lead.t;
  call : Call;
  response : Response Payload;
  after : list Lead.t
}.

Definition step (leads : list Lead.t) (c : Call) : Step :=
  let (r, leads') := updateLead (clock c) leads (caller c) (target c) (body c) in
  mkStep leads c r leads'.

(** The calls in order, each on the collection the one before left. *)
Fixpoint trace (calls : list Call) (leads : list Lead.t) : list Step :=
  match calls with
  | [] => []
  | c :: rest => let s := step leads c in s :: trace rest (after s)
  end.

Fixpoint final (calls : list Call) (leads : list Lead.t) : list Lead.t :=
  match calls with
  | [] => leads
  | c :: rest => final rest (after (step leads c))
  end.

(** A call on the lead [i] that was answered with 200. *)
Definition succeededOn (i : string) (s : Step) : bool :=
  (target (call s) =? i) && (statusCode (response s) =? 200)%Z.

(** The history entry [e] is the record of the step [s] on the lead [i]:
    its editor is the caller, [previousData] is the stored document
    before the call, and [newData] is the stored document after the call
    as the update wrote it, that is, up to the [updatedAt] that the save
    of the history set afterwards. *)
Definition records (i : string) (e : Lead.Edit) (s : Step) : Prop :=
  Lead.editorId e = id (caller (call s))
  /\ exists lb la,
       Leads.findById (before s) i = Some lb
       /\ Leads.findById (after s) i = Some la
       /\ Lead.previousData e = Lead.doc lb
       /\ Lead.newData e
          = Lead.withUpdatedAt (atUpdate (clock (call s))) (Lead.doc la)
       /\ Lead.doc la
          = Lead.withUpdatedAt (atSave (clock (call s))) (Lead.newData e).

End Operators.

(* ------------------------------------------------------------------ *)
(** ** Sample data *)

Module Sample.

Definition alice := User.mk "a1" "Alice" "alice@example.com" "ADMIN".
Definition bob := User.mk "b2" "Bob" "bob@example.com" "ADMIN".
Definition root := User.mk "r0" "Root" "root@example.com" "SUPER ADMIN".
Definition carol := User.mk "c3" "Carol" "carol@example.com" "SUPER ADMIN".

Definition users := [alice; bob; root].

Definition asAlice := mkReqUser "a1" "ADMIN".
Definition asBob := mkReqUser "b2" "ADMIN".
Definition asRoot := mkReqUser "r0" "SUPER ADMIN".

(** 15 June 2025, 10:00 *)
Definition now := mkDate 2025 5 15 (msOfDay 10 0 0 0).
(** 3 June 2025, 09:30 *)
Definition earlier := mkDate 2025 5 3 (msOfDay 9 30 0 0).

Definition leadOf (i creator pan aadhar st : string) (at_ : Date) : Lead.t :=
  Lead.mk
    (Lead.mkData i "Asha Rao" "9876543210" pan aadhar None None None
       st "" None "Manual" creator at_ at_)
    [].

(** A lead of Alice, created on 3 June 2025. *)
Definition lead1 := leadOf "l1" "a1" "ABCDE1234F" "123456789012" "New" earlier.

Definition clock1 :=
  LeadController.mkClock
    (mkDate 2025 5 15 (msOfDay 10 0 0 0))
    (mkDate 2025 5 15 (msOfDay 10 0 0 1))
    (mkDate 2025 5 15 (msOfDay 10 0 0 2)).

Definition clock2 :=
  LeadController.mkClock
    (mkDate 2025 5 16 (msOfDay 11 0 0 0))
    (mkDate 2025 5 16 (msOfDay 11 0 0 0))
    (mkDate 2025 5 16 (msOfDay 11 0 0 0)).

Definition setStatus (s : string) : Body.t :=
  Body.mk None None None None None None None (Some s) None None None None None None.

(** A body that sets [createdBy] to Bob. *)
Definition giveToBob : Body.t :=
  Body.mk None None None None None None None None None None None (Some "b2") None None.


Definition twoCalls : list Run.Call :=
  [ Run.mkCall clock1 asAlice "l1" (setStatus "Follow-up");
    Run.mkCall clock2 asRoot "l1" (setStatus "Approved") ].

(** 30 June 2025, 23:59:59.500 and 23:59:59.800 *)
Definition lateJune := mkDate 2025 5 30 (msOfDay 23 59 59 500).
Definition laterJune := mkDate 2025 5 30 (msOfDay 23 59 59 800).

(** A lead of Alice, created in the last second of June 2025. *)
Definition lateLead :=
  leadOf "l9" "a1" "ABCDE1234F" "123456789012" "New" lateJune.

Definition sameAgain : Body.t :=
  Body.mk (Some "Asha Rao") (Some "9876543210") (Some "ABCDE1234F")
    (Some "123456789012") None None None None None None None None None None.

(** A transport that rejects the mails to Root and accepts the others. *)
Definition rootBounces : EmailSender.Transport :=
  fun m => negb (EmailSender.mailTo m =? "root@example.com").

Definition alwaysDelivers : EmailSender.Transport := fun _ => true.

(** Ten leads: three approved, two rejected, five open; eight of Alice and
    two of Bob. *)
Definition tenLeads : list Lead.t :=
  [ leadOf "t0" "a1" "AAAAA0000A" "100000000000" "Approved" earlier;
    leadOf "t1" "a1" "AAAAA0001A" "100000000001" "New" earlier;
    leadOf "t2" "b2" "AAAAA0002A" "100000000002" "Rejected" earlier;
    leadOf "t3" "a1" "AAAAA0003A" "100000000003" "Approved" earlier;
    leadOf "t4" "a1" "AAAAA0004A" "100000000004" "Follow-up" earlier;
    leadOf "t5" "a1" "AAAAA0005A" "100000000005" "Rejected" earlier;
    leadOf "t6" "b2" "AAAAA0006A" "100000000006" "Approved" earlier;
    leadOf "t7" "a1" "AAAAA0007A" "100000000007" "New" earlier;
    leadOf "t8" "a1" "AAAAA0008A" "100000000008" "New" earlier;
    leadOf "t9" "a1" "AAAAA0009A" "100000000009" "Follow-up" earlier ].

Definition june1 := mkDate 2025 5 1 0.
Definition june30 := mkDate 2025 5 30 0.


(** [{ "$set": { "createdBy": "b2" } }] *)
Definition setGiveToBob : UpdateBody.t :=
  UpdateBody.mk Body.empty (Some giveToBob) None.

(** [{ "$pop": { "editHistory": -1 } }] *)
Definition popFirst : UpdateBody.t :=
  UpdateBody.mk Body.empty None (Some false).

(** [{ "status": "Rejected", "$set": { "rejectionReason": "Low Income" } }] *)
Definition rejectLowIncome : UpdateBody.t :=
  UpdateBody.mk (setStatus "Rejected")
    (Some (Body.mk None None None None None None None None
             (Some "Low Income") None None None None None))
    None.

(** Three calls on the lead of Alice: a top-level key, a top-level key
    with a [$set], and a body that Bob may not send. *)
Definition threeCalls : list Operators.Call :=
  [ Operators.mkCall clock1 asAlice "l1" (UpdateBody.plain (setStatus "Follow-up"));
    Operators.mkCall clock2 asRoot "l1" rejectLowIncome;
    Operators.mkCall clock2 asBob "l1" (UpdateBody.plain (setStatus "Approved")) ].

(** A call that writes a field, then one that pops the history. *)
Definition poppingCalls : list Operators.Call :=
  [ Operators.mkCall clock1 asAlice "l1" (UpdateBody.plain (setStatus "Follow-up"));
    Operators.mkCall clock2 asAlice "l1" popFirst ].

(** 10 January 2024, 12:00 *)
Definition lastYear := mkDate 2024 0 10 (msOfDay 12 0 0 0).
(** 16 June 2025, 11:00 *)
Definition nextDay := mkDate 2025 5 16 (msOfDay 11 0 0 0).

(** The body of [sameAgain] with a [createdAt] of its own. *)
Definition backdated : Body.t :=
  Body.mk (Some "Asha Rao") (Some "9876543210") (Some "ABCDE1234F")
    (Some "123456789012") None None None None None None None None None
    (Some lastYear).

End Sample.

(* ------------------------------------------------------------------ *)
(** ** More of [controllers/reportController.js] *)

Module UserPerformance.

Import Lead.

(** The object [leadsByCreator]: creator ids to the leads pushed under
    them, keys in insertion order.  (Ids are hex strings, so no key meets a
    property that every object inherits.) *)
Definition ByCreator := list (string * list Lead.t).

Fixpoint lookup (k : string) (acc : ByCreator) : option (list Lead.t) :=
  match acc with
  | [] => None
  | (k', v) :: r => if k' =? k then Some v else lookup k r
  end.

(** [if (!acc[k]) acc[k] = []; acc[k].push(lead)] *)
Fixpoint push (k : string) (lead : Lead.t) (acc : ByCreator) : ByCreator :=
  match acc with
  | [] => [(k, [lead])]
  | (k', v) :: r =>
      if k' =? k then (k', v ++ [lead]) :: r else (k', v) :: push k lead r
  end.

(** [leads.reduce((acc, lead) => ..., {})] *)
Definition leadsByCreator (leads : list Lead.t) : ByCreator :=
  fold_left (fun acc lead => push (createdBy (doc lead)) lead acc) leads [].

Record Row := mkRow {
  name : string;
  leads : nat;
  approved : nat;
  rejected : nat;
  pending : nat
}.

(** The body of [users.map(user => ...)] *)
Definition performanceRow (byCreator : ByCreator) (user : User.t) : Row :=
  let userLeads := Leads.orElse (lookup (User._id user) byCreator) [] in
  mkRow (User.name user)
    (List.length userLeads)
    (List.length (filter (fun l => status (doc l) =? "Approved") userLeads))
    (List.length (filter (fun l => status (doc l) =? "Rejected") userLeads))
    (List.length
       (filter (fun l => JsString.includes ["New"; "Follow-up"] (status (doc l)))
               userLeads)).

(** [getUserPerformanceStats] *)
Definition getUserPerformanceStats (users : list User.t)
           (leads : list Lead.t) : Response (list Row) :=
  let found :=
    filter (fun u => JsString.includes ["ADMIN"; "SUPER ADMIN"] (User.role u))
           users in
  let byCreator := leadsByCreator leads in
  mkResponse 200 true None (Some (map (performanceRow byCreator) found)).

End UserPerformance.

Module Csv.

(** The double quote character. *)
Definition quote : ascii := "034"%char.

(** [String(val).replace] of the export: every double quote becomes two. *)
Fixpoint doubleQuotes (s : string) : string :=
  match s with
  | EmptyString => EmptyString
  | String c r =>
      if Ascii.eqb c quote then String quote (String quote (doubleQuotes r))
      else String c (doubleQuotes r)
  end.

(** [escapeCsv(val)], for a value that is a string. *)
Definition escapeCsv (val : string) : string :=
  String quote (append (doubleQuotes val) (String quote EmptyString)).

(** The number of double quotes of a string. *)
Fixpoint quotes (s : string) : nat :=
  match s with
  | EmptyString => O
  | String c r => if Ascii.eqb c quote then S (quotes r) else quotes r
  end.

End Csv.

(* ------------------------------------------------------------------ *)
(** ** [controllers/userController.js] *)

Module UserController.

(** [req.query] of the list route: [role], and [page] and [limit] as
    [parseInt(_, 10)] reads them ([None]: absent, or not a number). *)
Record Query := mkQuery {
  role : option string;
  page : option Z;
  limit : option Z
}.

(** [n || d] for the result of [parseInt]: NaN and 0 are falsy. *)
Definition orDefault (n : option Z) (d : Z) : Z :=
  match n with
  | Some v => if (v =? 0)%Z then d else v
  | None => d
  end.

Record Page := mkPage { pageNumber : Z; pageLimit : Z }.

Record Pagination := mkPagination { next : option Page; prev : option Page }.

Record Listing := mkListing {
  count : nat;
  pagination : Pagination;
  users : list User.t
}.

Inductive Payload :=
| UserList (l : Listing)
| EmptyObject.

(** [User.find(query)] *)
Definition matching (query : Query) (all : list User.t) : list User.t :=
  if JsString.falsy (role query) then all
  else filter (fun u => User.role u =? Leads.orElse (role query) "") all.

(** [getAllUsers].  The database refuses a negative [skip], which the
    handler's catch answers with 500; a negative [limit] is taken as its
    absolute value. *)
Definition getAllUsers (all : list User.t) (query : Query) : Response Payload :=
  let page := orDefault (page query) 1 in
  let limit := orDefault (limit query) 10 in
  let startIndex := ((page - 1) * limit)%Z in
  let endIndex := (page * limit)%Z in
  let found := matching query all in
  let total := Z.of_nat (List.length found) in
  if (startIndex <? 0)%Z then failure 500 (Text "Server Error")
  else
    let users :=
      firstn (Z.to_nat (Z.abs limit)) (skipn (Z.to_nat startIndex) found) in
    mkResponse 200 true None
      (Some (UserList
               (mkListing (List.length users)
                  (mkPagination
                     (if (endIndex <? total)%Z
                      then Some (mkPage (page + 1) limit) else None)
                     (if (0 <? startIndex)%Z
                      then Some (mkPage (page - 1) limit) else None))
                  users))).

Fixpoint removeById (i : string) (all : list User.t) : list User.t :=
  match all with
  | [] => []
  | u :: r => if User._id u =? i then r else u :: removeById i r
  end.

(** [deleteUser]: [i] is [req.params.id]. *)
Definition deleteUser (all : list User.t) (i : string)
  : Response Payload * list User.t :=
  match User.findById all i with
  | None => (failure 404 (Text "User not found"), all)
  | Some _ => (mkResponse 200 true None (Some EmptyObject), removeById i all)
  end.

End UserController.

(* ------------------------------------------------------------------ *)
(** ** What the schema asks of a stored lead *)

Module Schema.

Import Lead.

(** The validators of [leadSchema] on a stored document: the required
    strings are not empty, the mobile number is ten digits, and the enum
    paths hold one of their values. *)
Definition conforms (l : Lead.t) : bool :=
  let d := doc l in
  negb (customerName d =? "")
  && JsString.digitsRegex 10 (mobileNumber d)
  && negb (panCard d =? "")
  && negb (aadharNumber d =? "")
  && match employmentType d with
     | Some e => JsString.includes employmentTypes e
     | None => true
     end
  && JsString.includes statuses (status d)
  && JsString.includes rejectionReasons (rejectionReason d)
  && JsString.includes sources (source d)
  && negb (createdBy d =? "").

End Schema.

(* ------------------------------------------------------------------ *)
(** ** Calendar months *)

Module Calendar.

Local Open Scope Z_scope.

(** The month before the month of [d], as a year and a month. *)
Definition monthBefore (d : Date) : Z * Z :=
  if month d =? 0 then (year d - 1, 11) else (year d, month d - 1).

(** [t] lies in the month [(y, m)], not later than 23:59:59.000 of its
    last day. *)
Definition inMonthUpToLastSecond (y m : Z) (t : Date) : Prop :=
  year t = y /\ month t = m
  /\ (day t < daysInMonth y m \/ ms t <= 86399000).

(** The day of [t] is the day of [d] or an earlier one. *)
Definition onOrBeforeDay (t d : Date) : Prop :=
  year t < year d
  \/ (year t = year d
      /\ (month t < month d \/ (month t = month d /\ day t <= day d))).

(** [inMonthUpToLastSecond], as a test. *)
Definition inMonthUpToLastSecondb (ym : Z * Z) (t : Date) : bool :=
  (year t =? fst ym) && (month t =? snd ym)
  && ((day t <? daysInMonth (fst ym) (snd ym)) || (ms t <=? 86399000)).

End Calendar.

(** The window of [checkDuplicateLead], as a test on the creation time of
    a lead: the two date conditions of its filter. *)
Definition inWindow (now : Date) (l : Lead.t) : bool :=
  JsDate.leb (LeadController.startOfMonth now) (Lead.createdAt (Lead.doc l))
  && JsDate.leb (Lead.createdAt (Lead.doc l)) (LeadController.endOfMonth now).


(* ------------------------------------------------------------------ *)
(** ** More sample data *)

Module Sample2.

Import Sample.

(** A lead of Alice, created on 20 May 2025. *)
Definition mayLead :=
  leadOf "l0" "a1" "ABCDE1234F" "123456789012" "Approved"
    (mkDate 2025 4 20 (msOfDay 12 0 0 0)).

Definition raviBody : Body.t :=
  Body.mk (Some "Ravi Kumar") (Some "9123456780") (Some "abcde1234f")
    (Some "123456789012") None None None None None None
    (Some "Link") (Some "b2") None None.

Definition linkBody : Body.t :=
  Body.mk (Some "Ravi Kumar") (Some "9123456780") (Some "abcde1234f")
    (Some "1234567890123456") None None None None None None None None None None.

Definition setPan (p : string) : Body.t :=
  Body.mk None None (Some p) None None None None None None None None None None None.

(** A lead of Bob, created on 5 June 2025. *)
Definition bobLead :=
  leadOf "l5" "b2" "PQRST5678U" "999988887777" "New"
    (mkDate 2025 5 5 (msOfDay 8 0 0 0)).

Definition fiveUsers : list User.t :=
  [alice; bob; root; carol;
   User.mk "d4" "Dev" "dev@example.com" "ADMIN"].

End Sample2.

(* ------------------------------------------------------------------ *)
(** * Properties *)

Import LeadController.

(** ** The collection *)

Lemma neq_eqb_false (a b : string) : a <> b -> (a =? b) = false.
Proof. intro H. apply String.eqb_neq. exact H. Qed.

Lemma findById_hasId (leads : list Lead.t) (i : string) (l : Lead.t) :
  Leads.findById leads i = Some l -> Leads.hasId i l = true.
Proof.
  unfold Leads.findById. intro H. apply find_some in H. tauto.
Qed.


Lemma hasId_trans (i j : string) (l : Lead.t) :
  Leads.hasId i l = true -> Leads.hasId j l = true -> i = j.
Proof.
  unfold Leads.hasId. intros Hi Hj.
  apply String.eqb_eq in Hi. apply String.eqb_eq in Hj. congruence.
Qed.

(** The document put in place of the one with id [i] is the one found
    under [i] afterwards. *)
Lemma findById_replaceById_same (leads : list Lead.t) (i : string)
      (l l' : Lead.t) :
  Leads.findById leads i = Some l ->
  Leads.hasId i l' = true ->
  Leads.findById (Leads.replaceById i l' leads) i = Some l'.
Proof.
  unfold Leads.findById. intros Hf Hid.
  induction leads as [|x r IH]; simpl in *; [discriminate|].
  destruct (Leads.hasId i x) eqn:Hx.
  - simpl. rewrite Hid. reflexivity.
  - simpl. rewrite Hx. apply IH. exact Hf.
Qed.

(** Documents with another id are found as before. *)
Lemma findById_replaceById_other (leads : list Lead.t) (i j : string)
      (l' : Lead.t) :
  i <> j ->
  Leads.hasId i l' = true ->
  Leads.findById (Leads.replaceById i l' leads) j = Leads.findById leads j.
Proof.
  unfold Leads.findById. intros Hij Hid.
  assert (Hj' : Leads.hasId j l' = false).
  { destruct (Leads.hasId j l') eqn:E; [|reflexivity].
    exfalso. apply Hij. eapply hasId_trans; eassumption. }
  induction leads as [|x r IH]; simpl; [reflexivity|].
  destruct (Leads.hasId i x) eqn:Hx.
  - simpl. rewrite Hj'.
    destruct (Leads.hasId j x) eqn:Hjx; [|reflexivity].
    exfalso. apply Hij. eapply hasId_trans; eassumption.
  - simpl. destruct (Leads.hasId j x); [reflexivity|exact IH].
Qed.

Lemma hasId_applyUpdate (now : Date) (b : Body.t) (i : string) (l : Lead.t) :
  Leads.hasId i (Leads.applyUpdate now b l) = Leads.hasId i l.
Proof. reflexivity. Qed.

(** ** The permission check *)

Lemma notAuthorized_stranger (user : ReqUser) (l : Lead.t) :
  role user <> "SUPER ADMIN" ->
  id user <> Lead.createdBy (Lead.doc l) ->
  notAuthorized user l = true.
Proof.
  intros Hr Hi. unfold notAuthorized.
  rewrite (neq_eqb_false _ _ Hr).
  rewrite (neq_eqb_false (Lead.createdBy (Lead.doc l)) (id user)); [reflexivity|].
  congruence.
Qed.

Lemma notAuthorized_superAdmin (user : ReqUser) (l : Lead.t) :
  role user = "SUPER ADMIN" -> notAuthorized user l = false.
Proof.
  intro Hr. unfold notAuthorized. rewrite Hr.
  rewrite String.eqb_refl. simpl. apply andb_false_r.
Qed.

(** What [updateLead] does once the lead is found and the caller may edit
    it: either a validator fails, and the answer is 400 on the collection as
    it was, or the update and the history entry are written. *)
Lemma updateLead_authorized (clock : Clock) (leads : list Lead.t)
      (user : ReqUser) (i : string) (body : Body.t) (lead : Lead.t) :
  Leads.findById leads i = Some lead ->
  notAuthorized user lead = false ->
  updateLead clock leads user i body =
  match Leads.validateUpdate body with
  | Some e => (failure 400 (ErrorMessage e), leads)
  | None =>
      let lead1 := Leads.applyUpdate (atUpdate clock) body lead in
      let lead3 :=
        Leads.touch (atSave clock)
          (Lead.mk (Lead.doc lead1)
             (Lead.editHistory lead1 ++
              [Lead.mkEdit (id user) (atPush clock) (Lead.doc lead)
                 (Lead.doc lead1)])) in
      (mkResponse 200 true None (Some (OneLead lead3)),
       Leads.replaceById i lead3 (Leads.replaceById i lead1 leads))
  end.
Proof.
  intros Hf Ha. unfold updateLead, Leads.findByIdAndUpdate.
  rewrite Hf, Ha.
  destruct (Leads.validateUpdate body); [reflexivity|].
  unfold Leads.save. simpl.
  pose proof (findById_hasId _ _ _ Hf) as Hid.
  unfold Leads.hasId in Hid. apply String.eqb_eq in Hid.
  rewrite Hid. reflexivity.
Qed.

(** C4: a caller who is neither a SUPER ADMIN nor the creator of the lead
    gets 403 from [updateLead] and from [deleteLead], and the collection is
    left as it was; a SUPER ADMIN passes the permission check on any lead:
    the update is answered with 200 or, when a validator fails, 400, and the
    delete removes the lead. *)
Theorem ownership_enforced :
  forall (clock : Clock) (leads : list Lead.t) (i : string) (body : Body.t)
         (lead : Lead.t) (stranger admin : ReqUser),
    Leads.findById leads i = Some lead ->
    role stranger <> "SUPER ADMIN" ->
    id stranger <> Lead.createdBy (Lead.doc lead) ->
    role admin = "SUPER ADMIN" ->
    (statusCode (fst (updateLead clock leads stranger i body)) = 403%Z
     /\ snd (updateLead clock leads stranger i body) = leads)
    /\ (statusCode (fst (deleteLead leads stranger i)) = 403%Z
        /\ snd (deleteLead leads stranger i) = leads)
    /\ notAuthorized admin lead = false
    /\ (statusCode (fst (updateLead clock leads admin i body)) = 200%Z
        \/ statusCode (fst (updateLead clock leads admin i body)) = 400%Z)
    /\ deleteLead leads admin i
       = (mkResponse 200 true None (Some EmptyObject), Leads.deleteById i leads).
Proof.
  intros clock leads i body lead stranger admin Hf Hr Hi Ha.
  pose proof (notAuthorized_stranger _ _ Hr Hi) as Hs.
  pose proof (notAuthorized_superAdmin admin lead Ha) as Hn.
  repeat split.
  - unfold updateLead. rewrite Hf, Hs. reflexivity.
  - unfold updateLead. rewrite Hf, Hs. reflexivity.
  - unfold deleteLead. rewrite Hf, Hs. reflexivity.
  - unfold deleteLead. rewrite Hf, Hs. reflexivity.
  - exact Hn.
  - rewrite (updateLead_authorized _ _ _ _ _ _ Hf Hn).
    destruct (Leads.validateUpdate body); [right|left]; reflexivity.
  - unfold deleteLead. rewrite Hf, Hn. reflexivity.
Qed.

Lemma ownership_enforced_witness :
  Leads.findById [Sample.lead1] "l1" = Some Sample.lead1
  /\ role Sample.asBob <> "SUPER ADMIN"
  /\ id Sample.asBob <> Lead.createdBy (Lead.doc Sample.lead1)
  /\ role Sample.asRoot = "SUPER ADMIN"
  /\ statusCode (fst (updateLead Sample.clock1 [Sample.lead1] Sample.asBob "l1"
                        (Sample.setStatus "Approved"))) = 403%Z
  /\ statusCode (fst (updateLead Sample.clock1 [Sample.lead1] Sample.asRoot "l1"
                        (Sample.setStatus "Approved"))) = 200%Z.
Proof.
  assert (H1 : Leads.findById [Sample.lead1] "l1" = Some Sample.lead1)
    by reflexivity.
  assert (H2 : role Sample.asBob <> "SUPER ADMIN") by (simpl; discriminate).
  assert (H3 : id Sample.asBob <> Lead.createdBy (Lead.doc Sample.lead1))
    by (simpl; discriminate).
  assert (H4 : role Sample.asRoot = "SUPER ADMIN") by reflexivity.
  pose proof (ownership_enforced Sample.clock1 [Sample.lead1] "l1"
                (Sample.setStatus "Approved") Sample.lead1
                Sample.asBob Sample.asRoot H1 H2 H3 H4) as H.
  destruct H as [[Hu _] [_ [_ [Hs _]]]].
  refine (conj H1 (conj H2 (conj H3 (conj H4 (conj Hu _))))).
  destruct Hs as [Hs|Hs]; [exact Hs|discriminate Hs].
Defined.

(** ** Updates that the validators reject *)






(** ** What one update call does to the collection *)

(** Either the call is not answered with 200 and writes nothing, or the
    lead was found, the caller may edit it and the body is valid. *)
Lemma updateLead_cases (clock : Clock) (leads : list Lead.t) (user : ReqUser)
      (i : string) (body : Body.t) :
  (statusCode (fst (updateLead clock leads user i body)) <> 200%Z
   /\ snd (updateLead clock leads user i body) = leads)
  \/ (exists lead,
        Leads.findById leads i = Some lead
        /\ notAuthorized user lead = false
        /\ Leads.validateUpdate body = None
        /\ statusCode (fst (updateLead clock leads user i body)) = 200%Z).
Proof.
  destruct (Leads.findById leads i) as [lead|] eqn:Hf.
  - destruct (notAuthorized user lead) eqn:Ha.
    + left. unfold updateLead. rewrite Hf, Ha. simpl. split; [discriminate|reflexivity].
    + rewrite (updateLead_authorized _ _ _ _ _ _ Hf Ha).
      destruct (Leads.validateUpdate body) as [e|] eqn:Hv.
      * left. simpl. split; [discriminate|reflexivity].
      * right. exists lead. simpl. tauto.
  - left. unfold updateLead. rewrite Hf. simpl. split; [discriminate|reflexivity].
Qed.

Lemma updateLead_accepted (clock : Clock) (leads : list Lead.t)
      (user : ReqUser) (i : string) (body : Body.t) (lead : Lead.t) :
  Leads.findById leads i = Some lead ->
  notAuthorized user lead = false ->
  Leads.validateUpdate body = None ->
  Leads.findById (snd (updateLead clock leads user i body)) i
  = Some (Run.updated clock user body lead)
  /\ forall j, i <> j ->
       Leads.findById (snd (updateLead clock leads user i body)) j
       = Leads.findById leads j.
Proof.
  intros Hf Ha Hv.
  rewrite (updateLead_authorized _ _ _ _ _ _ Hf Ha), Hv. simpl.
  pose proof (findById_hasId _ _ _ Hf) as Hid.
  assert (H1 : Leads.hasId i (Leads.applyUpdate (atUpdate clock) body lead) = true)
    by exact Hid.
  assert (H3 : Leads.hasId i (Run.updated clock user body lead) = true)
    by exact Hid.
  split.
  - apply findById_replaceById_same
      with (l := Leads.applyUpdate (atUpdate clock) body lead); [|exact H3].
    apply findById_replaceById_same with (l := lead); assumption.
  - intros j Hij.
    rewrite (findById_replaceById_other _ i j _ Hij H3).
    apply (findById_replaceById_other _ i j _ Hij H1).
Qed.

(** ** Updates with operators *)

(** On a body of top-level keys, [Operators.updateLead] is [updateLead]. *)
Lemma updateLead_plain (clock : Clock) (leads : list Lead.t)
      (user : ReqUser) (i : string) (body : Body.t) :
  Operators.updateLead clock leads user i (UpdateBody.plain body)
  = updateLead clock leads user i body.
Proof.
  unfold Operators.updateLead, updateLead, Operators.findByIdAndUpdate,
    Leads.findByIdAndUpdate.
  destruct (Leads.findById leads i) as [lead|]; [|reflexivity].
  destruct (notAuthorized user lead); reflexivity.
Qed.

(** Either the call is not answered with 200 and writes nothing, or the
    lead was found, the caller may edit it, and the lead is stored as
    [Operators.updated] gives it while the other leads stay as they
    were. *)
Lemma operators_updateLead_cases (clock : Clock) (leads : list Lead.t)
      (user : ReqUser) (i : string) (u : UpdateBody.t) :
  (statusCode (fst (Operators.updateLead clock leads user i u)) <> 200%Z
   /\ snd (Operators.updateLead clock leads user i u) = leads)
  \/ (exists lead,
        Leads.findById leads i = Some lead
        /\ notAuthorized user lead = false
        /\ Leads.validateUpdate (UpdateBody.effective u) = None
        /\ statusCode (fst (Operators.updateLead clock leads user i u)) = 200%Z
        /\ Leads.findById (snd (Operators.updateLead clock leads user i u)) i
           = Some (Operators.updated clock user u lead)
        /\ forall j, i <> j ->
             Leads.findById (snd (Operators.updateLead clock leads user i u)) j
             = Leads.findById leads j).
Proof.
  unfold Operators.updateLead, Operators.findByIdAndUpdate.
  destruct (Leads.findById leads i) as [lead|] eqn:Hf;
    [|left; simpl; split; [discriminate|reflexivity]].
  destruct (notAuthorized user lead) eqn:Ha;
    [left; simpl; split; [discriminate|reflexivity]|].
  destruct (Leads.validateUpdate (UpdateBody.effective u)) as [e|] eqn:Hv;
    [left; simpl; split; [discriminate|reflexivity]|].
  destruct (Operators.conflicts u);
    [left; simpl; split; [discriminate|reflexivity]|].
  right. exists lead.
  pose proof (findById_hasId _ _ _ Hf) as Hid.
  assert (H1 : Leads.hasId i (Operators.applyUpdate (atUpdate clock) u lead)
               = true) by exact Hid.
  assert (H3 : Leads.hasId i (Operators.updated clock user u lead) = true)
    by exact Hid.
  assert (E : Lead._id (Lead.doc lead) = i).
  { unfold Leads.hasId in Hid. apply String.eqb_eq in Hid. exact Hid. }
  unfold Leads.save. cbv beta iota zeta.
  change (Lead._id (Lead.doc
            (Lead.mk (Lead.doc (Operators.applyUpdate (atUpdate clock) u lead))
               (Lead.editHistory (Operators.applyUpdate (atUpdate clock) u lead)
                ++ [Lead.mkEdit (id user) (atPush clock) (Lead.doc lead)
                      (Lead.doc (Operators.applyUpdate (atUpdate clock) u
                                   lead))]))))
    with (Lead._id (Lead.doc lead)).
  rewrite E. simpl fst. simpl snd.
  split; [reflexivity|]. split; [exact Ha|]. split; [reflexivity|].
  split; [reflexivity|]. split.
  - apply findById_replaceById_same
      with (l := Operators.applyUpdate (atUpdate clock) u lead); [|exact H3].
    apply findById_replaceById_same with (l := lead); assumption.
  - intros j Hij.
    etransitivity.
    + apply (findById_replaceById_other _ i j _ Hij H3).
    + apply (findById_replaceById_other _ i j _ Hij H1).
Qed.




(** ** The creator of a lead *)


(** An accepted update whose body has [createdBy] under [$set], or at top
    level, stores that value. *)
Lemma operators_updateLead_sets_createdBy (clock : Clock)
      (leads : list Lead.t) (user : ReqUser) (i : string) (u : UpdateBody.t)
      (c : string) :
  statusCode (fst (Operators.updateLead clock leads user i u)) = 200%Z ->
  Body.createdBy (UpdateBody.effective u) = Some c ->
  exists l',
    Leads.findById (snd (Operators.updateLead clock leads user i u)) i = Some l'
    /\ Lead.createdBy (Lead.doc l') = c.
Proof.
  intros H Hc.
  destruct (operators_updateLead_cases clock leads user i u)
    as [[Hn _]|[lead [Hf [Ha [Hv [_ [Hi _]]]]]]]; [contradiction|].
  exists (Operators.updated clock user u lead). split; [exact Hi|].
  simpl. rewrite Hc. reflexivity.
Qed.




(** ** The edit history *)





Lemma Forall2_same_length {A B : Type} (R : A -> B -> Prop)
      (l : list A) (l' : list B) :
  Forall2 R l l' -> List.length l = List.length l'.
Proof. induction 1; simpl; congruence. Qed.







(** Of the three calls of [threeCalls], the two that Alice and Root send
    are answered with 200 and the one that Bob sends with 403; the history
    has two entries afterwards, and the lead is rejected for low income. *)
Example threeCalls_history :
  map (fun s => statusCode (Operators.response s))
      (Operators.trace Sample.threeCalls [Sample.lead1])
  = [200%Z; 200%Z; 403%Z]
  /\ map (fun l => (List.length (Lead.editHistory l),
                    Lead.status (Lead.doc l),
                    Lead.rejectionReason (Lead.doc l)))
         (Operators.final Sample.threeCalls [Sample.lead1])
     = [(2%nat, "Rejected", "Low Income")].
Proof. split; reflexivity. Qed.

(** A [$pop] removes an entry that an earlier call stored: after two calls
    that are answered with 200 the history has one entry, that of the
    second call. *)
Example history_shortened_by_pop :
  map (fun s => statusCode (Operators.response s))
      (Operators.trace Sample.poppingCalls [Sample.lead1]) = [200%Z; 200%Z]
  /\ map (fun l => map Lead.timestamp (Lead.editHistory l))
         (Operators.final Sample.poppingCalls [Sample.lead1])
     = [[atPush Sample.clock2]].
Proof. split; reflexivity. Qed.

(** A [createdBy] under [$set] is written like a top-level one: Alice's
    lead is Bob's after the call. *)
Example createdBy_overwritten_by_set :
  let r := Operators.updateLead Sample.clock1 [Sample.lead1] Sample.asAlice
             "l1" Sample.setGiveToBob in
  UpdateBody.fields Sample.setGiveToBob = Body.empty
  /\ statusCode (fst r) = 200%Z
  /\ map (fun l => Lead.createdBy (Lead.doc l)) (snd r) = ["b2"].
Proof. repeat split. Qed.

(** Both calls of [twoCalls] are answered with 200, and the history has
    two entries afterwards. *)
Example twoCalls_history :
  map (fun s => statusCode (Run.response s))
      (Run.trace Sample.twoCalls [Sample.lead1]) = [200%Z; 200%Z]
  /\ map (fun l => List.length (Lead.editHistory l))
         (Run.final Sample.twoCalls [Sample.lead1]) = [2%nat].
Proof. split; reflexivity. Qed.


(** The stored [updatedAt] after a call is the time of the save, while the
    [newData] of the entry has the time of the update. *)
Example newData_updatedAt :
  map (fun l => (Lead.updatedAt (Lead.doc l),
                 map (fun e => Lead.updatedAt (Lead.newData e))
                     (Lead.editHistory l)))
      (snd (updateLead Sample.clock1 [Sample.lead1] Sample.asAlice "l1"
              (Sample.setStatus "Approved")))
  = [(atSave Sample.clock1, [atUpdate Sample.clock1])].
Proof. reflexivity. Qed.

(** ** Strings that pass the format checks *)

Lemma isUpper_not_space (c : ascii) :
  JsString.isUpper c = true -> JsString.isSpace c = false.
Proof.
  unfold JsString.isUpper, JsString.isSpace.
  generalize (nat_of_ascii c). intros n H.
  apply andb_true_iff in H. destruct H as [H1 H2].
  apply Nat.leb_le in H1. apply Nat.leb_le in H2.
  apply orb_false_iff. split.
  - apply Nat.eqb_neq. lia.
  - apply andb_false_iff. right. apply Nat.leb_gt. lia.
Qed.

Lemma isDigit_not_space (c : ascii) :
  JsString.isDigit c = true -> JsString.isSpace c = false.
Proof.
  unfold JsString.isDigit, JsString.isSpace.
  generalize (nat_of_ascii c). intros n H.
  apply andb_true_iff in H. destruct H as [H1 H2].
  apply Nat.leb_le in H1. apply Nat.leb_le in H2.
  apply orb_false_iff. split.
  - apply Nat.eqb_neq. lia.
  - apply andb_false_iff. right. apply Nat.leb_gt. lia.
Qed.

Lemma take_noSpace (p : ascii -> bool) (n : nat) :
  (forall c, p c = true -> JsString.isSpace c = false) ->
  forall s r, JsString.take p n s = Some r ->
              JsString.noSpace r = true -> JsString.noSpace s = true.
Proof.
  intro Hp. induction n as [|k IH]; intros s r Ht Hr; simpl in Ht.
  - inversion Ht; subst. exact Hr.
  - destruct s as [|c s']; [discriminate|].
    destruct (p c) eqn:Hc; [|discriminate].
    unfold JsString.noSpace. simpl. rewrite (Hp c Hc). simpl.
    exact (IH _ _ Ht Hr).
Qed.

Lemma atEnd_Some (o : option string) :
  JsString.atEnd o = true -> o = Some EmptyString.
Proof.
  destruct o as [[|c s]|]; simpl; intro H; try discriminate. reflexivity.
Qed.

Lemma panRegex_noSpace (s : string) :
  JsString.panRegex s = true -> JsString.noSpace s = true.
Proof.
  unfold JsString.panRegex. intro H. apply atEnd_Some in H.
  unfold JsString.bind in H.
  destruct (JsString.take JsString.isUpper 5 s) as [r1|] eqn:H1;
    [|discriminate H].
  destruct (JsString.take JsString.isDigit 4 r1) as [r2|] eqn:H2;
    [|discriminate H].
  eapply take_noSpace; [exact isUpper_not_space|exact H1|].
  eapply take_noSpace; [exact isDigit_not_space|exact H2|].
  eapply take_noSpace; [exact isUpper_not_space|exact H|].
  reflexivity.
Qed.

Lemma digitsRegex_noSpace (n : nat) (s : string) :
  JsString.digitsRegex n s = true -> JsString.noSpace s = true.
Proof.
  unfold JsString.digitsRegex. intro H. apply atEnd_Some in H.
  eapply take_noSpace; [exact isDigit_not_space|exact H|reflexivity].
Qed.

Lemma trimStartL_noSpace (l : list ascii) :
  forallb (fun c => negb (JsString.isSpace c)) l = true ->
  JsString.trimStartL l = l.
Proof.
  destruct l as [|c r]; simpl; [reflexivity|].
  intro H. apply andb_true_iff in H. destruct H as [H _].
  destruct (JsString.isSpace c); [discriminate|reflexivity].
Qed.

Lemma forallb_rev {A : Type} (f : A -> bool) (l : list A) :
  forallb f l = true -> forallb f (rev l) = true.
Proof.
  intro H. apply forallb_forall. intros x Hx.
  apply in_rev in Hx. revert x Hx. apply forallb_forall. exact H.
Qed.

(** [trim] leaves a string without white space as it is. *)
Lemma trim_noSpace (s : string) : JsString.noSpace s = true -> JsString.trim s = s.
Proof.
  unfold JsString.noSpace, JsString.trim. intro H.
  rewrite (trimStartL_noSpace _ H).
  rewrite (trimStartL_noSpace _ (forallb_rev _ _ H)).
  rewrite rev_involutive. apply string_of_list_ascii_of_string.
Qed.

Lemma panRegex_nonempty (s : string) :
  JsString.panRegex (JsString.toUpperCase s) = true ->
  JsString.falsy (Some s) = false.
Proof. destruct s; [discriminate|reflexivity]. Qed.

Lemma digitsRegex_nonempty (n : nat) (s : string) :
  JsString.digitsRegex (S n) s = true -> JsString.falsy (Some s) = false.
Proof. destruct s; [discriminate|reflexivity]. Qed.

(** ** The window of the current month *)

Lemma startOfMonth_eq (now : Date) :
  (0 <= month now <= 11)%Z ->
  startOfMonth now = mkDate (year now) (month now) 1 0.
Proof.
  intro H. unfold startOfMonth, newDate, getFullYear, getMonth. simpl.
  rewrite Z.div_small, Z.mod_small by lia.
  rewrite Z.add_0_r. reflexivity.
Qed.

Lemma endOfMonth_eq (now : Date) :
  (0 <= month now <= 11)%Z ->
  endOfMonth now
  = mkDate (year now) (month now) (daysInMonth (year now) (month now)) 86399000.
Proof.
  intro H. unfold endOfMonth, newDate, getFullYear, getMonth. simpl.
  destruct (Z.eq_dec (month now) 11) as [E|N].
  - rewrite E. simpl.
    replace (year now + 12 / 12 - 1)%Z with (year now)
      by (change (12 / 12)%Z with 1%Z; lia).
    reflexivity.
  - rewrite Z.div_small, Z.mod_small by lia.
    destruct (Z.eqb_spec (month now + 1) 0); [lia|].
    rewrite Z.add_0_r.
    replace (month now + 1 - 1)%Z with (month now) by lia.
    reflexivity.
Qed.

(** A lead created in the month of [now], not later than 23:59:59.000 of
    its last day, is inside the window that [checkDuplicateLead] searches. *)
Lemma window_covers (now t : Date) :
  (0 <= month now <= 11)%Z ->
  sameMonth t now ->
  (1 <= day t)%Z -> (0 <= ms t)%Z ->
  (day t < daysInMonth (year now) (month now) \/ ms t <= 86399000)%Z ->
  (day t <= daysInMonth (year now) (month now))%Z ->
  JsDate.leb (startOfMonth now) t = true
  /\ JsDate.leb t (endOfMonth now) = true.
Proof.
  intros Hm [Hy Hmo] Hd Hms Hlast Hdim.
  rewrite startOfMonth_eq, endOfMonth_eq by exact Hm.
  unfold JsDate.leb, JsDate.compare. cbn [year month day ms].
  rewrite Hy, Hmo, !Z.compare_refl.
  split.
  - destruct (Z.compare_spec 1 (day t)) as [E|L|G]; try lia; try reflexivity.
    destruct (Z.compare_spec 0 (ms t)); try lia; reflexivity.
  - destruct (Z.compare_spec (day t) (daysInMonth (year now) (month now)))
      as [E|L|G]; try lia; try reflexivity.
    destruct (Z.compare_spec (ms t) 86399000); try lia; reflexivity.
Qed.

(** ** Duplicate leads *)

Lemma find_first {A : Type} (f : A -> bool) (l : list A) (x : A) :
  In x l -> f x = true -> exists y, find f l = Some y.
Proof.
  intros Hin Hf. destruct (find f l) as [y|] eqn:E.
  - exists y. reflexivity.
  - exfalso. pose proof (find_none f l E x Hin) as H. congruence.
Qed.

(** The filter of [checkDuplicateLead] on values that passed the format
    checks: the setters leave the Aadhar number as it is and upper-case the
    PAN. *)
Lemma duplicateFilter_checked (now : Date) (pan aadhar : string) (l : Lead.t) :
  JsString.panRegex (JsString.toUpperCase pan) = true ->
  JsString.digitsRegex 12 aadhar = true ->
  duplicateFilter now pan aadhar l
  = ((Lead.panCard (Lead.doc l) =? JsString.toUpperCase pan)
     || (Lead.aadharNumber (Lead.doc l) =? aadhar))
    && JsDate.leb (startOfMonth now) (Lead.createdAt (Lead.doc l))
    && JsDate.leb (Lead.createdAt (Lead.doc l)) (endOfMonth now).
Proof.
  intros Hp Ha. unfold duplicateFilter, Lead.setPanCard, Lead.setAadharNumber.
  rewrite (trim_noSpace _ (panRegex_noSpace _ Hp)).
  rewrite (trim_noSpace _ (digitsRegex_noSpace _ _ Ha)).
  reflexivity.
Qed.

(** C1, as the code has it.  A [createLead] call whose PAN and Aadhar
    number pass the format checks, made while the collection holds a lead
    with that PAN (upper-cased) or that Aadhar number whose stored
    [createdAt] is in the month of the call, not later than 23:59:59.000 of
    its last day, is answered with 409 and nothing is stored, whoever
    created that lead and whoever calls.  The message names the creator of
    the first such lead of the collection, which is that lead when no other
    one conflicts.  The one user the handler reads, the creator of that
    first lead, is taken to exist still. *)
Theorem duplicate_in_month_rejected :
  forall (now : Date) (newId : string) (users : list User.t)
         (leads : list Lead.t) (user : ReqUser) (body : Body.t)
         (pan aadhar : string) (L1 : Lead.t),
    Body.panCard body = Some pan ->
    Body.aadharNumber body = Some aadhar ->
    JsString.panRegex (JsString.toUpperCase pan) = true ->
    JsString.digitsRegex 12 aadhar = true ->
    In L1 leads ->
    (Lead.panCard (Lead.doc L1) = JsString.toUpperCase pan
     \/ Lead.aadharNumber (Lead.doc L1) = aadhar) ->
    wf (Lead.createdAt (Lead.doc L1)) ->
    sameMonth (Lead.createdAt (Lead.doc L1)) now ->
    (day (Lead.createdAt (Lead.doc L1)) < daysInMonth (year now) (month now)
     \/ ms (Lead.createdAt (Lead.doc L1)) <= 86399000)%Z ->
    (forall L0, find (duplicateFilter now pan aadhar) leads = Some L0 ->
                Leads.populate users L0 <> None) ->
    exists L0 creator,
      In L0 leads
      /\ find (duplicateFilter now pan aadhar) leads = Some L0
      /\ User.findById users (Lead.createdBy (Lead.doc L0)) = Some creator
      /\ createLead now newId users leads user body
         = (failure 409 (Text (duplicateMessage creator)), leads)
      /\ ((forall l, In l leads -> duplicateFilter now pan aadhar l = true ->
                     l = L1) -> L0 = L1).
Proof.
  intros now newId users leads user body pan aadhar L1
         Hpan Haad Hp Ha Hin Hsame Hwf Hmonth Hlast Hpop.
  destruct Hwf as [Hm [Hd Hms]]. destruct Hmonth as [Hy Hmo].
  assert (Hw : JsDate.leb (startOfMonth now) (Lead.createdAt (Lead.doc L1)) = true
               /\ JsDate.leb (Lead.createdAt (Lead.doc L1)) (endOfMonth now) = true).
  { apply window_covers; try lia.
    - split; assumption.
    - rewrite <- Hy, <- Hmo. lia. }
  assert (Hf1 : duplicateFilter now pan aadhar L1 = true).
  { rewrite (duplicateFilter_checked _ _ _ _ Hp Ha).
    destruct Hw as [Hs He]. rewrite Hs, He, !andb_true_r.
    destruct Hsame as [E|E]; rewrite E, String.eqb_refl;
      [reflexivity|apply orb_true_r]. }
  destruct (find_first _ _ _ Hin Hf1) as [L0 Hfind].
  destruct (find_some _ _ Hfind) as [Hin0 Hf0].
  destruct (Leads.populate users L0) as [creator|] eqn:Hc;
    [|exfalso; exact (Hpop L0 Hfind Hc)].
  exists L0, creator.
  split; [exact Hin0|]. split; [exact Hfind|]. split; [exact Hc|]. split.
  - unfold createLead, checkDuplicateLead.
    rewrite Hpan, Haad.
    rewrite (panRegex_nonempty _ Hp), (digitsRegex_nonempty _ _ Ha).
    simpl. rewrite Hp, Ha. simpl. rewrite Hfind, Hc. reflexivity.
  - intro Huniq. apply Huniq; assumption.
Qed.

Lemma duplicate_in_month_rejected_witness :
  let body :=
    Body.mk (Some "Ravi Kumar") (Some "9123456780") (Some "abcde1234f")
      (Some "555566667777") None None None None None None None None None None in
  exists L0 creator,
    In L0 [Sample.lead1]
    /\ find (duplicateFilter Sample.now "abcde1234f" "555566667777")
            [Sample.lead1] = Some L0
    /\ User.findById Sample.users (Lead.createdBy (Lead.doc L0)) = Some creator
    /\ createLead Sample.now "l2" Sample.users [Sample.lead1] Sample.asBob body
       = (failure 409 (Text (duplicateMessage creator)), [Sample.lead1])
    /\ ((forall l, In l [Sample.lead1] ->
                   duplicateFilter Sample.now "abcde1234f" "555566667777" l = true ->
                   l = Sample.lead1) -> L0 = Sample.lead1).
Proof.
  intro body.
  apply (duplicate_in_month_rejected Sample.now "l2" Sample.users
           [Sample.lead1] Sample.asBob body "abcde1234f" "555566667777"
           Sample.lead1).
  - reflexivity.
  - reflexivity.
  - reflexivity.
  - reflexivity.
  - left. reflexivity.
  - left. reflexivity.
  - unfold wf. simpl. vm_compute. intuition discriminate.
  - split; reflexivity.
  - left. vm_compute. reflexivity.
  - intros L0 E. vm_compute in E. inversion E. discriminate.
Defined.

(** C1 as stated fails: two attempts are made in June 2025 with the same
    PAN and the same Aadhar number, by Alice on the 15th and by Bob on the
    16th.  The body of the first one has a [createdAt] of January 2024,
    which [Lead.create] stores; the search of the second attempt, by
    [createdAt], does not find that lead, and the second attempt is
    answered with 201 and stored too. *)
Lemma backdated_duplicate_accepted :
  let r1 := createLead Sample.now "l1" Sample.users [] Sample.asAlice
              Sample.backdated in
  let r2 := createLead Sample.nextDay "l2" Sample.users (snd r1) Sample.asBob
              Sample.sameAgain in
  sameMonth Sample.now Sample.nextDay
  /\ statusCode (fst r1) = 201%Z
  /\ map (fun l => Lead.createdAt (Lead.doc l)) (snd r1) = [Sample.lastYear]
  /\ Body.panCard Sample.sameAgain
     = option_map (fun l => Lead.panCard (Lead.doc l)) (head (snd r1))
  /\ statusCode (fst r2) = 201%Z
  /\ statusCode (fst r2) <> 409%Z
  /\ map (fun l => (Lead.panCard (Lead.doc l), Lead.createdBy (Lead.doc l)))
         (snd r2)
     = [("ABCDE1234F", "a1"); ("ABCDE1234F", "b2")].
Proof.
  simpl. repeat split. intro X. discriminate X.
Qed.

(** The format checks come before the search: an attempt with the PAN of
    Alice's lead of the same month and an Aadhar number of eleven digits is
    answered with 400, not 409. *)
Example duplicate_pan_bad_aadhar_is_400 :
  let body :=
    Body.mk (Some "Ravi Kumar") (Some "9123456780") (Some "ABCDE1234F")
      (Some "55556666777") None None None None None None None None None None in
  In Sample.lead1 [Sample.lead1]
  /\ sameMonth (Lead.createdAt (Lead.doc Sample.lead1)) Sample.now
  /\ Body.panCard body = Some (Lead.panCard (Lead.doc Sample.lead1))
  /\ statusCode (fst (createLead Sample.now "l2" Sample.users [Sample.lead1]
                        Sample.asBob body)) = 400%Z
  /\ statusCode (fst (createLead Sample.now "l2" Sample.users [Sample.lead1]
                        Sample.asBob body)) <> 409%Z.
Proof.
  simpl. repeat split; try discriminate. left. reflexivity.
Qed.

(** The window ends at 23:59:59.000 of the last day: a lead created in the
    last second of June is not found by a call later in that second, and
    the same PAN and Aadhar number are stored a second time. *)
Example last_second_duplicate :
  endOfMonth Sample.laterJune = mkDate 2025 5 30 86399000
  /\ sameMonth (Lead.createdAt (Lead.doc Sample.lateLead)) Sample.laterJune
  /\ statusCode (fst (createLead Sample.laterJune "l10" Sample.users
                        [Sample.lateLead] Sample.asBob Sample.sameAgain))
     = 201%Z
  /\ map (fun l => Lead.panCard (Lead.doc l))
         (snd (createLead Sample.laterJune "l10" Sample.users
                 [Sample.lateLead] Sample.asBob Sample.sameAgain))
     = ["ABCDE1234F"; "ABCDE1234F"].
Proof. repeat split. Qed.

(** ** The monthly report *)

Import ReportController.

Section SendLoop.

Variable transport : EmailSender.Transport.
Variable options : User.t -> EmailSender.Options.

Let mail (u : User.t) : EmailSender.MailOptions :=
  EmailSender.mailOptions (options u).

(** When every send succeeds the loop reaches every recipient. *)
Lemma sendToAll_all (l : list User.t) :
  forall w,
    Forall (fun u => transport (mail u) = true) l ->
    sendToAll transport options l w
    = (None, mkWorld (sent w ++ map mail l) (console w ++ map sentLine l)).
Proof.
  induction l as [|u r IH]; intros w H; simpl.
  - rewrite !app_nil_r. destruct w; reflexivity.
  - inversion H as [|? ? Hu Hr]; subst.
    unfold EmailSender.sendEmail. fold (mail u). rewrite Hu.
    rewrite (IH _ Hr). simpl.
    rewrite <- !app_assoc. reflexivity.
Qed.

(** The first send that fails ends the loop: the recipients after it are
    not reached. *)
Lemma sendToAll_stops (before : list User.t) (failing : User.t)
      (rest : list User.t) :
  forall w,
    Forall (fun u => transport (mail u) = true) before ->
    transport (mail failing) = false ->
    sendToAll transport options (before ++ failing :: rest) w
    = (Some (TransportError (EmailSender.email (options failing))),
       mkWorld (sent w ++ map mail (before ++ [failing]))
               (console w ++ map sentLine before)).
Proof.
  induction before as [|u r IH]; intros w H Hf; simpl.
  - unfold EmailSender.sendEmail. fold (mail failing). rewrite Hf.
    rewrite app_nil_r. reflexivity.
  - inversion H as [|? ? Hu Hr]; subst.
    unfold EmailSender.sendEmail. fold (mail u). rewrite Hu.
    rewrite (IH _ Hr Hf). simpl.
    rewrite <- !app_assoc. reflexivity.
Qed.

(** Every mail of the loop is built by [sendEmail]. *)
Lemma sendToAll_sent (P : EmailSender.MailOptions -> Prop) (l : list User.t) :
  (forall o, P (EmailSender.mailOptions o)) ->
  forall w, Forall P (sent w) ->
            Forall P (sent (snd (sendToAll transport options l w))).
Proof.
  intro HP. induction l as [|u r IH]; intros w Hw; simpl; [exact Hw|].
  unfold EmailSender.sendEmail.
  assert (H' : Forall P (sent w ++ [EmailSender.mailOptions (options u)])).
  { apply Forall_app. split; [exact Hw|]. constructor; [apply HP|constructor]. }
  destruct (transport (EmailSender.mailOptions (options u))); simpl.
  - apply IH. exact H'.
  - exact H'.
Qed.

End SendLoop.

Lemma reportOptions_email (s : string) (x p : Report.Buffer) (u : User.t) :
  EmailSender.email (reportOptions s x p u) = User.email u.
Proof. reflexivity. Qed.

(** C5, as the code has it: when the send to one SUPER ADMIN fails (the
    sends before it having succeeded), the failure is caught and logged as
    the last line of the console, and the job ends there: the mails handed
    to the transport are those of the recipients up to the failing one, and
    no recipient after it is tried. *)
Theorem failed_send_ends_the_job :
  forall (now : Date) (transport : EmailSender.Transport)
         (users : list User.t) (leads : list Lead.t)
         (before : list User.t) (failing : User.t) (rest : list User.t),
    User.findByRole users "SUPER ADMIN" = before ++ failing :: rest ->
    Forall (fun u => transport (monthlyMail now users leads u) = true) before ->
    transport (monthlyMail now users leads failing) = false ->
    let w := generateAndSendMonthlyReport now transport users leads in
    sent w = map (monthlyMail now users leads) (before ++ [failing])
    /\ map EmailSender.mailTo (sent w) = map User.email (before ++ [failing])
    /\ console w
       = Log "Generating monthly performance report..."
         :: map sentLine before
         ++ [LogError "Error generating and sending monthly report:"
               (TransportError (User.email failing))].
Proof.
  intros now transport users leads before failing rest Hsa Hb Hf w.
  subst w. unfold generateAndSendMonthlyReport. rewrite Hsa.
  rewrite (sendToAll_stops transport (monthlyOptions now users leads)
             before failing rest _ Hb Hf).
  simpl. split; [reflexivity|]. split; [|reflexivity].
  rewrite map_map. apply map_ext. intro u. reflexivity.
Qed.

Lemma failed_send_ends_the_job_witness :
  let users := [Sample.alice; Sample.root; Sample.carol] in
  let w := generateAndSendMonthlyReport Sample.now Sample.rootBounces users
             [Sample.lead1] in
  User.findByRole users "SUPER ADMIN" = [] ++ Sample.root :: [Sample.carol]
  /\ map EmailSender.mailTo (sent w) = map User.email ([] ++ [Sample.root]).
Proof.
  intros users w.
  assert (H1 : User.findByRole users "SUPER ADMIN"
               = [] ++ Sample.root :: [Sample.carol]) by reflexivity.
  split; [exact H1|].
  exact (proj1 (proj2
    (failed_send_ends_the_job Sample.now Sample.rootBounces users
       [Sample.lead1] [] Sample.root [Sample.carol] H1 (Forall_nil _)
       eq_refl))).
Defined.

(** C5 as stated fails: Root and Carol are the SUPER ADMIN users and the
    send to Root fails; the error is logged and no mail for Carol is handed
    to the transport. *)
Lemma remaining_recipient_not_tried :
  let users := [Sample.alice; Sample.root; Sample.carol] in
  let w := generateAndSendMonthlyReport Sample.now Sample.rootBounces users
             [Sample.lead1] in
  map User.email (User.findByRole users "SUPER ADMIN")
  = ["root@example.com"; "carol@example.com"]
  /\ Sample.rootBounces (monthlyMail Sample.now users [Sample.lead1] Sample.carol)
     = true
  /\ map EmailSender.mailTo (sent w) = ["root@example.com"]
  /\ ~ In "carol@example.com" (map EmailSender.mailTo (sent w))
  /\ existsb isLogError (console w) = true.
Proof.
  simpl. repeat split.
  intros [H|[]]. discriminate H.
Qed.

(** In every run, the options passed to [sendEmail] carry two attachments,
    the workbook and a buffer for the document that is still empty, and no
    mail that reaches the transport has an [attachments] key or an [html]
    key. *)
Lemma monthly_mails_carry_nothing (now : Date)
      (transport : EmailSender.Transport) (users : list User.t)
      (leads : list Lead.t) :
  (forall u, exists x p,
        EmailSender.attachments (monthlyOptions now users leads u)
        = Some [x; p]
        /\ EmailSender.content x
           = Report.XlsxBuffer
               (append "Report for " (monthYearString (startOfLastMonth now)))
               (monthlyReportData now users leads)
        /\ EmailSender.content p = Report.Concat [])
  /\ Forall (fun m => EmailSender.mailAttachments m = None
                      /\ EmailSender.mailHtml m = None)
            (sent (generateAndSendMonthlyReport now transport users leads)).
Proof.
  split.
  - intro u. eexists. eexists. split; [reflexivity|]. split; reflexivity.
  - unfold generateAndSendMonthlyReport.
    pose proof (sendToAll_sent transport (monthlyOptions now users leads)
      (fun m => EmailSender.mailAttachments m = None
                /\ EmailSender.mailHtml m = None)
      (User.findByRole users "SUPER ADMIN")
      (fun o => conj eq_refl eq_refl)
      (mkWorld [] [Log "Generating monthly performance report..."])
      (Forall_nil _)) as H.
    destruct (sendToAll transport (monthlyOptions now users leads)
                (User.findByRole users "SUPER ADMIN")
                (mkWorld [] [Log "Generating monthly performance report..."]))
      as [[e|] w]; exact H.
Qed.

(** C6 fails on the code: Alice is the ADMIN, Root the SUPER ADMIN and every
    send succeeds.  The job passes both buffers to [sendEmail], and the one
    mail that [sendEmail] hands to the transport, addressed to Root, has no
    attachments. *)
Theorem monthly_report_attachments_dropped :
  let users := [Sample.alice; Sample.root] in
  let w := generateAndSendMonthlyReport Sample.now Sample.alwaysDelivers users
             [Sample.lead1] in
  option_map (map EmailSender.filename)
    (EmailSender.attachments
       (monthlyOptions Sample.now users [Sample.lead1] Sample.root))
  = Some ["Report_May_2025.xlsx"; "Report_May_2025.pdf"]
  /\ map EmailSender.mailTo (sent w) = ["root@example.com"]
  /\ map EmailSender.mailAttachments (sent w) = [None]
  /\ existsb isLogError (console w) = false.
Proof. repeat split. Qed.

Lemma no_error_logged (l : list User.t) :
  existsb isLogError (map sentLine l) = false.
Proof. induction l as [|u r IH]; simpl; [reflexivity|exact IH]. Qed.

(** C7, as the code has it: with no user of role ADMIN the report has no
    rows, and the job still sends it: when every send succeeds, one mail is
    handed to the transport for each SUPER ADMIN, in order, and no error is
    logged; no mail is sent only when there is no SUPER ADMIN. *)
Theorem no_admins_report_still_sent :
  forall (now : Date) (transport : EmailSender.Transport)
         (users : list User.t) (leads : list Lead.t),
    User.findByRole users "ADMIN" = [] ->
    (forall m, transport m = true) ->
    let w := generateAndSendMonthlyReport now transport users leads in
    monthlyReportData now users leads = []
    /\ map EmailSender.mailTo (sent w)
       = map User.email (User.findByRole users "SUPER ADMIN")
    /\ existsb isLogError (console w) = false
    /\ (sent w = [] <-> User.findByRole users "SUPER ADMIN" = []).
Proof.
  intros now transport users leads Hno Hok w. subst w.
  unfold generateAndSendMonthlyReport.
  rewrite (sendToAll_all transport (monthlyOptions now users leads)
             (User.findByRole users "SUPER ADMIN") _
             (proj2 (Forall_forall _ _) (fun u _ => Hok _))).
  simpl. split; [|split; [|split]].
  - unfold monthlyReportData. rewrite Hno. reflexivity.
  - rewrite map_map. apply map_ext. intro u. reflexivity.
  - apply no_error_logged.
  - destruct (User.findByRole users "SUPER ADMIN"); simpl;
      split; intro H; try reflexivity; discriminate H.
Qed.

Lemma no_admins_report_still_sent_witness :
  let w := generateAndSendMonthlyReport Sample.now Sample.alwaysDelivers
             [Sample.root] [Sample.lead1] in
  User.findByRole [Sample.root] "ADMIN" = []
  /\ map EmailSender.mailTo (sent w) = ["root@example.com"].
Proof.
  intro w.
  assert (H1 : User.findByRole [Sample.root] "ADMIN" = []) by reflexivity.
  split; [exact H1|].
  exact (proj1 (proj2
    (no_admins_report_still_sent Sample.now Sample.alwaysDelivers
       [Sample.root] [Sample.lead1] H1 (fun _ => eq_refl)))).
Defined.

(** C7 as stated fails: no user has the role ADMIN, Root and Carol are
    SUPER ADMIN users; the job ends without an error and has sent two
    mails. *)
Lemma report_sent_without_admins :
  let users := [Sample.root; Sample.carol] in
  let w := generateAndSendMonthlyReport Sample.now Sample.alwaysDelivers users
             [Sample.lead1] in
  User.findByRole users "ADMIN" = []
  /\ existsb isLogError (console w) = false
  /\ map EmailSender.mailTo (sent w) = ["root@example.com"; "carol@example.com"]
  /\ sent w <> [].
Proof. simpl. repeat split. discriminate. Qed.

(** ** The custom range export *)

Lemma creatorFilter_admin (user : ReqUser) (a : option string) :
  role user = "ADMIN" -> creatorFilter user a = Some (id user).
Proof. intro H. unfold creatorFilter. rewrite H. reflexivity. Qed.

Lemma creatorFilter_superAdmin (user : ReqUser) (a : option string) :
  role user = "SUPER ADMIN" ->
  creatorFilter user a = if JsString.falsy a then None else a.
Proof.
  intro H. unfold creatorFilter. rewrite H. simpl.
  destruct (JsString.falsy a); reflexivity.
Qed.

Lemma rows_found (users : list User.t) (found : list Lead.t) :
  map fst (map (fun l => (l, Leads.populate users l)) found) = found.
Proof. rewrite map_map. simpl. apply map_id. Qed.

(** C8: for a caller of role ADMIN the export holds only leads whose
    [createdBy] is the caller's id, and two requests of that caller that
    differ only in [adminId] get the same answer; a SUPER ADMIN who names an
    [adminId] gets the leads of the range created by that id, and one who
    names none gets all the leads of the range. *)
Theorem export_scoped_by_role :
  forall (users : list User.t) (leads : list Lead.t) (admin super : ReqUser)
         (from to : Date) (fmt : option string) (a1 a2 : option string)
         (target : string),
    role admin = "ADMIN" ->
    role super = "SUPER ADMIN" ->
    target <> "" ->
    (exists e,
        data (downloadCustomReport users leads admin
                (mkDownload (Some from) (Some to) a1 fmt)) = Some e
        /\ forall l, In l (map fst (rows e)) ->
                     Lead.createdBy (Lead.doc l) = id admin)
    /\ (forall sd ed,
           downloadCustomReport users leads admin (mkDownload sd ed a1 fmt)
           = downloadCustomReport users leads admin (mkDownload sd ed a2 fmt))
    /\ (exists e,
           data (downloadCustomReport users leads super
                   (mkDownload (Some from) (Some to) (Some target) fmt)) = Some e
           /\ map fst (rows e)
              = filter (fun l =>
                          JsDate.leb from (Lead.createdAt (Lead.doc l))
                          && JsDate.leb (Lead.createdAt (Lead.doc l))
                               (setHours to 23 59 59 999)
                          && (Lead.createdBy (Lead.doc l) =? target)) leads)
    /\ (exists e,
           data (downloadCustomReport users leads super
                   (mkDownload (Some from) (Some to) None fmt)) = Some e
           /\ map fst (rows e)
              = filter (fun l =>
                          JsDate.leb from (Lead.createdAt (Lead.doc l))
                          && JsDate.leb (Lead.createdAt (Lead.doc l))
                               (setHours to 23 59 59 999)) leads).
Proof.
  intros users leads admin super from to fmt a1 a2 target Ha Hs Ht.
  split; [|split; [|split]].
  - eexists. split; [reflexivity|]. simpl. rewrite rows_found.
    intros l Hin. apply filter_In in Hin. destruct Hin as [_ Hf].
    rewrite (creatorFilter_admin _ _ Ha) in Hf. unfold rangeFilter in Hf.
    apply andb_true_iff in Hf. destruct Hf as [_ Hf].
    apply String.eqb_eq. exact Hf.
  - intros sd ed. unfold downloadCustomReport. simpl.
    rewrite !(creatorFilter_admin _ _ Ha). reflexivity.
  - eexists. split; [reflexivity|]. simpl. rewrite rows_found.
    rewrite (creatorFilter_superAdmin _ _ Hs).
    destruct target as [|c r]; [congruence|]. reflexivity.
  - eexists. split; [reflexivity|]. simpl. rewrite rows_found.
    rewrite (creatorFilter_superAdmin _ _ Hs). simpl.
    apply filter_ext. intro l. unfold rangeFilter. apply andb_true_r.
Qed.

Lemma export_scoped_by_role_witness :
  role Sample.asAlice = "ADMIN"
  /\ role Sample.asRoot = "SUPER ADMIN"
  /\ "b2" <> ""
  /\ downloadCustomReport Sample.users Sample.tenLeads Sample.asAlice
       (mkDownload (Some Sample.june1) (Some Sample.june30) (Some "b2") None)
     = downloadCustomReport Sample.users Sample.tenLeads Sample.asAlice
         (mkDownload (Some Sample.june1) (Some Sample.june30) None None).
Proof.
  assert (H1 : role Sample.asAlice = "ADMIN") by reflexivity.
  assert (H2 : role Sample.asRoot = "SUPER ADMIN") by reflexivity.
  assert (H3 : "b2" <> "") by discriminate.
  refine (conj H1 (conj H2 (conj H3 _))).
  exact (proj1 (proj2
    (export_scoped_by_role Sample.users Sample.tenLeads Sample.asAlice
       Sample.asRoot Sample.june1 Sample.june30 None (Some "b2") None "b2"
       H1 H2 H3)) (Some Sample.june1) (Some Sample.june30)).
Defined.

(** Alice's export has her eight leads whatever [adminId] she sends; Root's
    export for Bob's id has Bob's two. *)
Example export_sample :
  (forall a,
      option_map (fun e => map (fun r => Lead._id (Lead.doc (fst r))) (rows e))
        (data (downloadCustomReport Sample.users Sample.tenLeads Sample.asAlice
                 (mkDownload (Some Sample.june1) (Some Sample.june30) a None)))
      = Some ["t0"; "t1"; "t3"; "t4"; "t5"; "t7"; "t8"; "t9"])
  /\ option_map (fun e => map (fun r => Lead._id (Lead.doc (fst r))) (rows e))
       (data (downloadCustomReport Sample.users Sample.tenLeads Sample.asRoot
                (mkDownload (Some Sample.june1) (Some Sample.june30)
                   (Some "b2") None)))
     = Some ["t2"; "t6"].
Proof. split; [intro a|]; reflexivity. Qed.

(** ** The dashboard *)

Lemma countStatus_cons (k : string) (l : Lead.t) (r : list Lead.t) :
  countStatus k (l :: r)
  = if Lead.status (Lead.doc l) =? k then S (countStatus k r)
    else countStatus k r.
Proof.
  unfold countStatus. simpl.
  destruct (Lead.status (Lead.doc l) =? k); reflexivity.
Qed.

Lemma getKey_bump (k s : string) (o : Counts) :
  getKey k (bump s o)
  = if s =? k
    then Some (S (match getKey k o with Some n => n | None => O end))
    else getKey k o.
Proof.
  induction o as [|[k' v] r IH]; simpl.
  - destruct (s =? k); reflexivity.
  - destruct (String.eqb_spec k' s) as [E|N]; simpl.
    + subst k'. destruct (s =? k); reflexivity.
    + rewrite IH. destruct (String.eqb_spec k' k) as [E'|N'].
      * subst k'. rewrite (neq_eqb_false s k) by congruence. reflexivity.
      * reflexivity.
Qed.

(** The group of a status has the number of its leads; a status without
    leads has no group. *)
Lemma getKey_groupByStatus (k : string) (leads : list Lead.t) :
  getKey k (groupByStatus leads)
  = match countStatus k leads with
    | O => None
    | n => Some n
    end.
Proof.
  induction leads as [|l r IH]; [reflexivity|].
  simpl groupByStatus. rewrite getKey_bump, countStatus_cons, IH.
  destruct (Lead.status (Lead.doc l) =? k); [|reflexivity].
  destruct (countStatus k r); reflexivity.
Qed.

Lemma keys_bump (s : string) (o : Counts) (x : string) :
  In x (map fst (bump s o)) <-> x = s \/ In x (map fst o).
Proof.
  induction o as [|[k' v] r IH]; simpl.
  - intuition congruence.
  - destruct (String.eqb_spec k' s) as [E|N]; simpl.
    + subst k'. intuition congruence.
    + rewrite IH. intuition congruence.
Qed.

Lemma NoDup_bump (s : string) (o : Counts) :
  NoDup (map fst o) -> NoDup (map fst (bump s o)).
Proof.
  induction o as [|[k' v] r IH]; simpl; intro H.
  - constructor; [tauto|constructor].
  - inversion H as [|? ? Hn Hr]; subst.
    destruct (String.eqb_spec k' s) as [E|N]; simpl.
    + constructor; assumption.
    + constructor; [|apply IH; exact Hr].
      rewrite keys_bump. intros [E|Hin]; [congruence|contradiction].
Qed.

Lemma NoDup_groupByStatus (leads : list Lead.t) :
  NoDup (map fst (groupByStatus leads)).
Proof.
  induction leads as [|l r IH]; simpl; [constructor|].
  apply NoDup_bump. exact IH.
Qed.

Lemma getKey_absent (k : string) (o : Counts) :
  ~ In k (map fst o) -> getKey k o = None.
Proof.
  induction o as [|[k' v] r IH]; simpl; intro H; [reflexivity|].
  destruct (String.eqb_spec k' k) as [E|N]; [tauto|].
  apply IH. tauto.
Qed.

Lemma getKey_setKey (k k' : string) (v : nat) (o : Counts) :
  getKey k (setKey k' v o) = if k' =? k then Some v else getKey k o.
Proof.
  induction o as [|[k0 v0] r IH]; simpl.
  - destruct (k' =? k); reflexivity.
  - destruct (String.eqb_spec k0 k') as [E|N]; simpl.
    + subst k0. destruct (k' =? k); reflexivity.
    + rewrite IH. destruct (String.eqb_spec k0 k) as [E'|N'].
      * subst k0. rewrite (neq_eqb_false k' k) by congruence. reflexivity.
      * reflexivity.
Qed.

(** The [forEach] over the groups: a key with a group reads as its count,
    the others as they were. *)
Lemma getKey_forEach (k : string) (groups : Counts) :
  NoDup (map fst groups) ->
  forall init,
    getKey k (fold_left (fun o g => setKey (fst g) (snd g) o) groups init)
    = match getKey k groups with
      | Some v => Some v
      | None => getKey k init
      end.
Proof.
  induction groups as [|[k' v] g IH]; simpl; intros Hnd init; [reflexivity|].
  inversion Hnd as [|? ? Hn Hr]; subst.
  rewrite (IH Hr), getKey_setKey.
  destruct (String.eqb_spec k' k) as [E|N]; [|reflexivity].
  subst k'. rewrite (getKey_absent _ _ Hn). reflexivity.
Qed.

(** After the [forEach], each of the four statuses reads as the number of
    matched leads with that status. *)
Lemma statusCounts_read (k : string) (matched : list Lead.t) :
  In k Lead.statuses ->
  getKey k
    (fold_left (fun o g => setKey (fst g) (snd g) o) (groupByStatus matched)
       [("New", 0%nat); ("Follow-up", 0%nat); ("Approved", 0%nat);
        ("Rejected", 0%nat)])
  = Some (countStatus k matched).
Proof.
  intro Hk.
  rewrite (getKey_forEach k _ (NoDup_groupByStatus matched)).
  rewrite getKey_groupByStatus.
  destruct (countStatus k matched) as [|n]; [|reflexivity].
  simpl in Hk. destruct Hk as [E|[E|[E|[E|[]]]]]; subst k; reflexivity.
Qed.

Lemma matchStage_superAdmin (user : ReqUser) (leads : list Lead.t) :
  role user = "SUPER ADMIN" ->
  matchStage user leads = leads /\ scoped user leads = leads.
Proof.
  intro H. unfold matchStage, scoped. rewrite H. split; reflexivity.
Qed.

(** For a caller who is not a SUPER ADMIN the [$match] stage lets no lead
    through. *)
Lemma matchStage_other (user : ReqUser) (leads : list Lead.t) :
  role user <> "SUPER ADMIN" -> matchStage user leads = [].
Proof.
  intro H. unfold matchStage. rewrite (neq_eqb_false _ _ H). simpl.
  induction leads as [|l r IH]; [reflexivity|exact IH].
Qed.

(** For a SUPER ADMIN the ratios are those of all the leads: the number of
    Approved, respectively Rejected, leads divided by the total, times 100,
    in floating point, and 0 when there is no lead. *)
Lemma dashboard_ratios_superAdmin (now : Date) (leads : list Lead.t)
      (user : ReqUser) :
  role user = "SUPER ADMIN" ->
  exists s,
    getDashboardStats now leads user = mkResponse 200 true None (Some s)
    /\ totalLeads s = List.length leads
    /\ getKey "Approved" (statusCounts s) = Some (countStatus "Approved" leads)
    /\ getKey "Rejected" (statusCounts s) = Some (countStatus "Rejected" leads)
    /\ approvalRatio s
       = (if (0 <? List.length leads)%nat
          then PrimFloat.mul
                 (PrimFloat.div (JsNumber.ofNat (countStatus "Approved" leads))
                                (JsNumber.ofNat (List.length leads)))
                 100%float
          else 0%float)
    /\ rejectionRatio s
       = (if (0 <? List.length leads)%nat
          then PrimFloat.mul
                 (PrimFloat.div (JsNumber.ofNat (countStatus "Rejected" leads))
                                (JsNumber.ofNat (List.length leads)))
                 100%float
          else 0%float).
Proof.
  intro Hr. destruct (matchStage_superAdmin user leads Hr) as [Hm Hs].
  eexists. split; [reflexivity|]. simpl. rewrite Hm, Hs.
  assert (HA : In "Approved" Lead.statuses) by (simpl; tauto).
  assert (HR : In "Rejected" Lead.statuses) by (simpl; tauto).
  pose proof (statusCounts_read "Approved" leads HA) as EA.
  pose proof (statusCounts_read "Rejected" leads HR) as ER.
  split; [reflexivity|]. split; [exact EA|]. split; [exact ER|].
  unfold ratio. rewrite EA, ER.
  split; destruct (0 <? List.length leads)%nat; reflexivity.
Qed.

(** For any other caller the status counts stay 0 and both ratios are
    [0 / total * 100], whatever the leads of the caller are. *)
Lemma dashboard_ratios_other (now : Date) (leads : list Lead.t)
      (user : ReqUser) :
  role user <> "SUPER ADMIN" ->
  exists s,
    getDashboardStats now leads user = mkResponse 200 true None (Some s)
    /\ totalLeads s = List.length (scoped user leads)
    /\ statusCounts s
       = [("New", 0%nat); ("Follow-up", 0%nat); ("Approved", 0%nat);
          ("Rejected", 0%nat)]
    /\ approvalRatio s
       = (if (0 <? List.length (scoped user leads))%nat
          then JsNumber.percent 0 (List.length (scoped user leads))
          else 0%float)
    /\ rejectionRatio s = approvalRatio s.
Proof.
  intro Hr. eexists. split; [reflexivity|]. simpl.
  rewrite (matchStage_other user leads Hr). simpl.
  split; [reflexivity|]. split; [reflexivity|].
  unfold ratio. simpl.
  split; destruct (0 <? List.length (scoped user leads))%nat; reflexivity.
Qed.

(** Three Approved and two Rejected leads out of ten, asked by a SUPER
    ADMIN: 30 and 20; no lead at all: 0 and 0. *)
Example dashboard_sample_superAdmin :
  option_map (fun s => (totalLeads s, statusCounts s, approvalRatio s,
                        rejectionRatio s))
    (data (getDashboardStats Sample.now Sample.tenLeads Sample.asRoot))
  = Some (10%nat,
          [("New", 3%nat); ("Follow-up", 2%nat); ("Approved", 3%nat);
           ("Rejected", 2%nat)],
          30%float, 20%float)
  /\ option_map (fun s => (totalLeads s, approvalRatio s, rejectionRatio s))
       (data (getDashboardStats Sample.now [] Sample.asRoot))
     = Some (0%nat, 0%float, 0%float).
Proof. split; reflexivity. Qed.

(** C9 fails on the code for a caller of role ADMIN.  Alice has eight of
    the ten sample leads, two of them Approved and one Rejected.  Her
    dashboard counts the eight leads, but the aggregation matches none of
    them: every status count is 0 and both ratios are 0, where the claim
    has 2 / 8 * 100 = 25 and 1 / 8 * 100 = 12.5. *)
Theorem dashboard_admin_counts_nothing :
  List.length (scoped Sample.asAlice Sample.tenLeads) = 8%nat
  /\ countStatus "Approved" (scoped Sample.asAlice Sample.tenLeads) = 2%nat
  /\ countStatus "Rejected" (scoped Sample.asAlice Sample.tenLeads) = 1%nat
  /\ JsNumber.percent 2 8 = 25%float
  /\ JsNumber.percent 1 8 = 12.5%float
  /\ option_map (fun s => (totalLeads s, statusCounts s, approvalRatio s,
                           rejectionRatio s))
       (data (getDashboardStats Sample.now Sample.tenLeads Sample.asAlice))
     = Some (8%nat,
             [("New", 0%nat); ("Follow-up", 0%nat); ("Approved", 0%nat);
              ("Rejected", 0%nat)],
             0%float, 0%float).
Proof. repeat split. Qed.

(* ------------------------------------------------------------------ *)
(** * Further properties of the controllers *)

(** ** Creating leads *)

Lemma take_length (p : ascii -> bool) (n : nat) :
  forall s r, JsString.take p n s = Some r ->
              String.length s = (n + String.length r)%nat.
Proof.
  induction n as [|k IH]; intros s r H; simpl in H.
  - inversion H; subst. reflexivity.
  - destruct s as [|c s']; [discriminate|].
    destruct (p c); [|discriminate].
    simpl. rewrite (IH _ _ H). reflexivity.
Qed.

Lemma digitsRegex_length (n : nat) (s : string) :
  JsString.digitsRegex n s = true -> String.length s = n.
Proof.
  unfold JsString.digitsRegex. intro H. apply atEnd_Some in H.
  rewrite (take_length _ _ _ _ H). simpl. lia.
Qed.

Lemma falsy_false (o : option string) :
  JsString.falsy o = false -> exists s, o = Some s /\ s <> "".
Proof.
  destruct o as [[|c r]|]; simpl; intro H; try discriminate.
  exists (String c r). split; [reflexivity|discriminate].
Qed.

(** What an answer 201 of [createLead] tells. *)
Lemma createLead_created (now : Date) (newId : string) (users : list User.t)
      (leads : list Lead.t) (user : ReqUser) (body : Body.t) :
  statusCode (fst (createLead now newId users leads user body)) = 201%Z ->
  exists pan aadhar,
    Body.panCard body = Some pan
    /\ Body.aadharNumber body = Some aadhar
    /\ JsString.panRegex (JsString.toUpperCase pan) = true
    /\ JsString.digitsRegex 12 aadhar = true
    /\ find (duplicateFilter now pan aadhar) leads = None
    /\ User.findById users (id user) <> None
    /\ Leads.validateDocument (Body.stamp body (id user) "Manual") = None
    /\ createLead now newId users leads user body
       = (mkResponse 201 true None
            (Some (OneLead (Leads.newDocument now newId
                              (Body.stamp body (id user) "Manual")))),
          leads ++ [Leads.newDocument now newId
                      (Body.stamp body (id user) "Manual")]).
Proof.
  unfold createLead, checkDuplicateLead, Leads.create.
  destruct (JsString.falsy (Body.panCard body)) eqn:Fp;
    [simpl; intro X; discriminate X|].
  destruct (JsString.falsy (Body.aadharNumber body)) eqn:Fa;
    [simpl; intro X; discriminate X|].
  destruct (falsy_false _ Fp) as [pan [Hp _]].
  destruct (falsy_false _ Fa) as [aadhar [Ha _]].
  rewrite Hp, Ha. simpl.
  destruct (JsString.panRegex (JsString.toUpperCase pan)) eqn:Rp;
    [|simpl; intro X; discriminate X].
  destruct (JsString.digitsRegex 12 aadhar) eqn:Ra; [|simpl; intro X; discriminate X].
  simpl.
  destruct (find (duplicateFilter now pan aadhar) leads) as [d|] eqn:Hd.
  { destruct (Leads.populate users d); simpl; intro X; discriminate X. }
  destruct (User.findById users (id user)) as [u|] eqn:Hu;
    [|simpl; intro X; discriminate X].
  destruct (Leads.validateDocument (Body.stamp body (id user) "Manual"))
    as [e|] eqn:Hv; [simpl; intro X; discriminate X|].
  intros _. exists pan, aadhar.
  repeat split; try reflexivity; try assumption. intro X; discriminate X.
Qed.

(** What an answer 201 of [createLeadFromLink] tells. *)
Lemma createLeadFromLink_created (now : Date) (newId : string)
      (users : list User.t) (leads : list Lead.t) (userId : string)
      (body : Body.t) :
  statusCode (fst (createLeadFromLink now newId users leads userId body))
  = 201%Z ->
  exists pan aadhar,
    Body.panCard body = Some pan
    /\ Body.aadharNumber body = Some aadhar
    /\ JsString.panRegex (JsString.toUpperCase pan) = true
    /\ JsString.digitsRegex 16 aadhar = true
    /\ find (duplicateFilter now pan aadhar) leads = None
    /\ User.findById users userId <> None
    /\ Leads.validateDocument (Body.stamp body userId "Link") = None
    /\ createLeadFromLink now newId users leads userId body
       = (mkResponse 201 true (Some (Text "Lead submitted successfully!"))
            (Some (OneLead (Leads.newDocument now newId
                              (Body.stamp body userId "Link")))),
          leads ++ [Leads.newDocument now newId
                      (Body.stamp body userId "Link")]).
Proof.
  unfold createLeadFromLink, checkDuplicateLead, Leads.create.
  destruct (User.findById users userId) as [u|] eqn:Hu;
    [|simpl; intro X; discriminate X].
  destruct (JsString.falsy (Body.panCard body)) eqn:Fp;
    [simpl; intro X; discriminate X|].
  destruct (JsString.falsy (Body.aadharNumber body)) eqn:Fa;
    [simpl; intro X; discriminate X|].
  destruct (falsy_false _ Fp) as [pan [Hp _]].
  destruct (falsy_false _ Fa) as [aadhar [Ha _]].
  rewrite Hp, Ha. simpl.
  destruct (JsString.panRegex (JsString.toUpperCase pan)) eqn:Rp;
    [|simpl; intro X; discriminate X].
  destruct (JsString.digitsRegex 16 aadhar) eqn:Ra; [|simpl; intro X; discriminate X].
  simpl.
  destruct (find (duplicateFilter now pan aadhar) leads) as [d|] eqn:Hd;
    [simpl; intro X; discriminate X|].
  destruct (Leads.validateDocument (Body.stamp body userId "Link"))
    as [e|] eqn:Hv; [simpl; intro X; discriminate X|].
  intros _. exists pan, aadhar.
  repeat split; try reflexivity; try assumption. intro X; discriminate X.
Qed.

(** X1: no request body is accepted by both creation routes: [createLead]
    asks for an Aadhar number of 12 digits and [createLeadFromLink] for one
    of 16, so whatever the collections, the clock, the caller and the link,
    the two handlers never both answer 201 to the same body. *)
Theorem creation_routes_exclude_each_other :
  forall (now now' : Date) (newId newId' : string)
         (users users' : list User.t) (leads leads' : list Lead.t)
         (user : ReqUser) (userId : string) (body : Body.t),
    ~ (statusCode (fst (createLead now newId users leads user body)) = 201%Z
       /\ statusCode (fst (createLeadFromLink now' newId' users' leads'
                             userId body)) = 201%Z).
Proof.
  intros now now' newId newId' users users' leads leads' user userId body
         [H1 H2].
  destruct (createLead_created _ _ _ _ _ _ H1)
    as [p1 [a1 [_ [Ha1 [_ [R1 _]]]]]].
  destruct (createLeadFromLink_created _ _ _ _ _ _ H2)
    as [p2 [a2 [_ [Ha2 [_ [R2 _]]]]]].
  rewrite Ha1 in Ha2. inversion Ha2; subst a2.
  apply digitsRegex_length in R1. apply digitsRegex_length in R2.
  rewrite R1 in R2. discriminate R2.
Qed.

(** ** Documents that pass the validators *)

Lemma firstError_None (l : list (option Error)) :
  Lead.firstError l = None -> Forall (fun x => x = None) l.
Proof.
  induction l as [|x r IH]; simpl; intro H; [constructor|].
  destruct x; [discriminate|]. constructor; [reflexivity|exact (IH H)].
Qed.

Lemma required_None (path : string) (v : option string) :
  Lead.required path v = None -> exists s, v = Some s /\ (s =? "") = false.
Proof.
  unfold Lead.required. destruct v as [[|c r]|]; simpl; intro H;
    try discriminate.
  exists (String c r). split; reflexivity.
Qed.

Lemma enum_None (path : string) (values : list string) (v : option string) :
  Lead.enum path values v = None ->
  match v with
  | Some s => JsString.includes values s = true
  | None => True
  end.
Proof.
  unfold Lead.enum. destruct v as [s|]; [|tauto].
  destruct (JsString.includes values s); [reflexivity|discriminate].
Qed.

Lemma matchMobile_None (m : string) :
  (m =? "") = false -> Lead.matchMobile (Some m) = None ->
  JsString.digitsRegex 10 m = true.
Proof.
  destruct m as [|c r]; [discriminate|]. intros _. unfold Lead.matchMobile.
  destruct (JsString.digitsRegex 10 (String c r)); [reflexivity|discriminate].
Qed.

Lemma option_map_Some {A B : Type} (f : A -> B) (o : option A) (y : B) :
  option_map f o = Some y -> exists x, o = Some x /\ f x = y.
Proof.
  destruct o as [x|]; simpl; intro H; [|discriminate].
  inversion H. exists x. split; reflexivity.
Qed.

Arguments JsString.includes : simpl never.
Arguments JsString.digitsRegex : simpl never.

(** A new document that passed the validators conforms to the schema. *)
Lemma newDocument_conforms (now : Date) (newId : string) (b : Body.t) :
  Leads.validateDocument b = None ->
  Schema.conforms (Leads.newDocument now newId b) = true.
Proof.
  intro H. apply firstError_None in H.
  repeat match goal with
         | H : Forall _ (_ :: _) |- _ =>
             let H1 := fresh "V" in
             let H2 := fresh "R" in
             inversion H as [|? ? H1 H2]; subst; clear H; rename H2 into H
         end.
  clear H.
  apply required_None in V. destruct V as [n' [En Hn]].
  apply option_map_Some in En. destruct En as [n [En En']].
  apply required_None in V0. destruct V0 as [m [Em Hm]].
  rewrite Em in V1. apply (matchMobile_None _ Hm) in V1.
  apply required_None in V2. destruct V2 as [p' [Ep Hp]].
  apply option_map_Some in Ep. destruct Ep as [p [Ep Ep']].
  apply required_None in V3. destruct V3 as [a' [Ea Ha]].
  apply option_map_Some in Ea. destruct Ea as [a [Ea Ea']].
  apply enum_None in V4. apply enum_None in V5.
  apply enum_None in V6. apply enum_None in V7.
  apply required_None in V8. destruct V8 as [c [Ec Hc]].
  unfold Schema.conforms, Leads.newDocument. simpl.
  rewrite En, Em, Ep, Ea, Ec. simpl.
  rewrite En', Ep', Ea', Hn, Hp, Ha, Hc, V1. simpl.
  destruct (Body.employmentType b); destruct (Body.status b);
    destruct (Body.rejectionReason b); destruct (Body.source b);
    simpl in *; rewrite ?V4, ?V5, ?V6, ?V7; reflexivity.
Qed.


Lemma setPanCard_checked (pan : string) :
  JsString.panRegex (JsString.toUpperCase pan) = true ->
  Lead.setPanCard pan = JsString.toUpperCase pan.
Proof.
  intro H. unfold Lead.setPanCard.
  apply trim_noSpace. apply panRegex_noSpace. exact H.
Qed.

Lemma setAadharNumber_checked (n : nat) (aadhar : string) :
  JsString.digitsRegex n aadhar = true -> Lead.setAadharNumber aadhar = aadhar.
Proof.
  intro H. unfold Lead.setAadharNumber.
  apply trim_noSpace. eapply digitsRegex_noSpace. exact H.
Qed.

Lemma duplicateFilter_inWindow (now : Date) (pan aadhar : string) (l : Lead.t) :
  duplicateFilter now pan aadhar l
  = ((Lead.panCard (Lead.doc l) =? Lead.setPanCard pan)
     || (Lead.aadharNumber (Lead.doc l) =? Lead.setAadharNumber aadhar))
    && inWindow now l.
Proof.
  unfold duplicateFilter, inWindow. rewrite andb_assoc. reflexivity.
Qed.

(** X2: when [createLead] answers 201, exactly one lead has been appended
    to the collection and it is the one returned.  Its creator is the caller
    and its source is Manual whatever [createdBy] and [source] the body
    carried, while its [createdAt] is the one the body carried, and the
    clock only when the body carried none; its PAN is stored in upper case
    and has the PAN format, its Aadhar number has 12 digits, it conforms to
    the schema, and no lead that was already stored with a [createdAt]
    inside the window of the month has its PAN or its Aadhar number. *)
Theorem createLead_stores_one_lead :
  forall (now : Date) (newId : string) (users : list User.t)
         (leads : list Lead.t) (user : ReqUser) (body : Body.t),
    statusCode (fst (createLead now newId users leads user body)) = 201%Z ->
    exists l,
      snd (createLead now newId users leads user body) = leads ++ [l]
      /\ data (fst (createLead now newId users leads user body))
         = Some (OneLead l)
      /\ Lead._id (Lead.doc l) = newId
      /\ Lead.createdBy (Lead.doc l) = id user
      /\ Lead.source (Lead.doc l) = "Manual"
      /\ Lead.createdAt (Lead.doc l) = Leads.orElse (Body.createdAt body) now
      /\ option_map JsString.toUpperCase (Body.panCard body)
         = Some (Lead.panCard (Lead.doc l))
      /\ JsString.panRegex (Lead.panCard (Lead.doc l)) = true
      /\ JsString.digitsRegex 12 (Lead.aadharNumber (Lead.doc l)) = true
      /\ Schema.conforms l = true
      /\ forall l0, In l0 leads -> inWindow now l0 = true ->
                    Lead.panCard (Lead.doc l0) <> Lead.panCard (Lead.doc l)
                    /\ Lead.aadharNumber (Lead.doc l0)
                       <> Lead.aadharNumber (Lead.doc l).
Proof.
  intros now newId users leads user body H.
  destruct (createLead_created _ _ _ _ _ _ H)
    as [pan [aadhar [Hp [Ha [Rp [Ra [Hd [Hu [Hv E]]]]]]]]].
  rewrite E. simpl fst. simpl snd.
  eexists. split; [reflexivity|]. split; [reflexivity|].
  assert (Epan : Lead.panCard (Lead.doc (Leads.newDocument now newId
                   (Body.stamp body (id user) "Manual")))
                 = JsString.toUpperCase pan).
  { simpl. rewrite Hp. simpl. apply setPanCard_checked. exact Rp. }
  assert (Eaad : Lead.aadharNumber (Lead.doc (Leads.newDocument now newId
                   (Body.stamp body (id user) "Manual")))
                 = aadhar).
  { simpl. rewrite Ha. simpl. eapply setAadharNumber_checked. exact Ra. }
  rewrite Epan, Eaad.
  repeat split; try reflexivity; try assumption.
  - rewrite Hp. reflexivity.
  - apply newDocument_conforms. exact Hv.
  - pose proof (find_none _ _ Hd l0 H0) as Hf.
    rewrite duplicateFilter_inWindow, H1, andb_true_r in Hf.
    apply orb_false_iff in Hf. destruct Hf as [Hf _].
    rewrite (setPanCard_checked _ Rp) in Hf.
    apply String.eqb_neq. exact Hf.
  - pose proof (find_none _ _ Hd l0 H0) as Hf.
    rewrite duplicateFilter_inWindow, H1, andb_true_r in Hf.
    apply orb_false_iff in Hf. destruct Hf as [_ Hf].
    rewrite (setAadharNumber_checked _ _ Ra) in Hf.
    apply String.eqb_neq. exact Hf.
Qed.

Lemma createLead_stores_one_lead_witness :
  statusCode (fst (createLead Sample.now "l2" Sample.users [Sample2.mayLead]
                     Sample.asAlice Sample2.raviBody)) = 201%Z
  /\ exists l,
       snd (createLead Sample.now "l2" Sample.users [Sample2.mayLead]
              Sample.asAlice Sample2.raviBody) = [Sample2.mayLead] ++ [l]
       /\ Lead.createdBy (Lead.doc l) = "a1"
       /\ Lead.source (Lead.doc l) = "Manual".
Proof.
  assert (H : statusCode (fst (createLead Sample.now "l2" Sample.users
                                 [Sample2.mayLead] Sample.asAlice
                                 Sample2.raviBody)) = 201%Z) by reflexivity.
  split; [exact H|].
  destruct (createLead_stores_one_lead Sample.now "l2" Sample.users
              [Sample2.mayLead] Sample.asAlice Sample2.raviBody H)
    as [l [E [_ [_ [C [S _]]]]]].
  exists l. exact (conj E (conj C S)).
Defined.

(** X3: when [createLeadFromLink] answers 201, the user of the link exists,
    exactly one lead has been appended and returned, its creator is the user
    of the link and its source is Link whatever the body carried, its PAN
    has the PAN format in upper case, its Aadhar number has 16 digits, and
    it conforms to the schema. *)
Theorem createLeadFromLink_stores_one_lead :
  forall (now : Date) (newId : string) (users : list User.t)
         (leads : list Lead.t) (userId : string) (body : Body.t),
    statusCode (fst (createLeadFromLink now newId users leads userId body))
    = 201%Z ->
    User.findById users userId <> None
    /\ exists l,
         snd (createLeadFromLink now newId users leads userId body)
         = leads ++ [l]
         /\ data (fst (createLeadFromLink now newId users leads userId body))
            = Some (OneLead l)
         /\ Lead._id (Lead.doc l) = newId
         /\ Lead.createdBy (Lead.doc l) = userId
         /\ Lead.source (Lead.doc l) = "Link"
         /\ JsString.panRegex (Lead.panCard (Lead.doc l)) = true
         /\ JsString.digitsRegex 16 (Lead.aadharNumber (Lead.doc l)) = true
         /\ Schema.conforms l = true.
Proof.
  intros now newId users leads userId body H.
  destruct (createLeadFromLink_created _ _ _ _ _ _ H)
    as [pan [aadhar [Hp [Ha [Rp [Ra [Hd [Hu [Hv E]]]]]]]]].
  split; [exact Hu|].
  rewrite E. simpl fst. simpl snd.
  eexists. split; [reflexivity|]. split; [reflexivity|].
  assert (Epan : Lead.panCard (Lead.doc (Leads.newDocument now newId
                   (Body.stamp body userId "Link")))
                 = JsString.toUpperCase pan).
  { simpl. rewrite Hp. simpl. apply setPanCard_checked. exact Rp. }
  assert (Eaad : Lead.aadharNumber (Lead.doc (Leads.newDocument now newId
                   (Body.stamp body userId "Link")))
                 = aadhar).
  { simpl. rewrite Ha. simpl. eapply setAadharNumber_checked. exact Ra. }
  rewrite Epan, Eaad.
  repeat split; try reflexivity; try assumption.
  apply newDocument_conforms. exact Hv.
Qed.

Lemma createLeadFromLink_stores_one_lead_witness :
  statusCode (fst (createLeadFromLink Sample.now "l2" Sample.users
                     [Sample2.mayLead] "b2" Sample2.linkBody)) = 201%Z
  /\ User.findById Sample.users "b2" <> None.
Proof.
  assert (H : statusCode (fst (createLeadFromLink Sample.now "l2" Sample.users
                                 [Sample2.mayLead] "b2" Sample2.linkBody))
              = 201%Z) by reflexivity.
  exact (conj H (proj1 (createLeadFromLink_stores_one_lead Sample.now "l2"
                          Sample.users [Sample2.mayLead] "b2"
                          Sample2.linkBody H))).
Defined.

(** ** Windows of a month *)

(** The order on instants, spelled out. *)
Lemma leb_spec (a b : Date) :
  JsDate.leb a b = true <->
  (year a < year b
   \/ (year a = year b
       /\ (month a < month b
           \/ (month a = month b
               /\ (day a < day b
                   \/ (day a = day b /\ ms a <= ms b))))))%Z.
Proof.
  unfold JsDate.leb, JsDate.compare.
  destruct (Z.compare_spec (year a) (year b));
    destruct (Z.compare_spec (month a) (month b));
    destruct (Z.compare_spec (day a) (day b));
    destruct (Z.compare_spec (ms a) (ms b));
    split; intro G; try reflexivity; try discriminate G; lia.
Qed.

(** Between the first instant of a month and 23:59:59.000 of its last day
    lie the instants of that month up to that second. *)
Lemma month_window (y m : Z) (t : Date) :
  wf t ->
  (JsDate.leb (mkDate y m 1 0) t
   && JsDate.leb t (mkDate y m (daysInMonth y m) 86399000) = true
   <-> Calendar.inMonthUpToLastSecond y m t).
Proof.
  intros [Hm [Hd Hms]]. unfold Calendar.inMonthUpToLastSecond.
  rewrite andb_true_iff, !leb_spec. cbn [year month day ms].
  split.
  - intros [H1 H2]. lia.
  - intros [Hy [Hmo Hl]]. subst y m. lia.
Qed.

(** X4: the window in which [checkDuplicateLead] looks for a conflicting
    lead is the calendar month of the call short of its last 999
    milliseconds: a creation time passes the two date conditions exactly
    when it has the year and the month of the call and is not later than
    23:59:59.000 of the last day of that month. *)
Theorem duplicate_window_is_the_month :
  forall (now : Date) (l : Lead.t),
    (0 <= month now <= 11)%Z ->
    wf (Lead.createdAt (Lead.doc l)) ->
    (inWindow now l = true
     <-> Calendar.inMonthUpToLastSecond (year now) (month now)
           (Lead.createdAt (Lead.doc l))).
Proof.
  intros now l Hm Hwf. unfold inWindow.
  rewrite startOfMonth_eq, endOfMonth_eq by exact Hm.
  apply month_window. exact Hwf.
Qed.

Lemma duplicate_window_is_the_month_witness :
  (0 <= month Sample.laterJune <= 11)%Z
  /\ wf (Lead.createdAt (Lead.doc Sample.lateLead))
  /\ inWindow Sample.laterJune Sample.lateLead = false
  /\ ~ Calendar.inMonthUpToLastSecond (year Sample.laterJune)
         (month Sample.laterJune)
         (Lead.createdAt (Lead.doc Sample.lateLead)).
Proof.
  assert (H1 : (0 <= month Sample.laterJune <= 11)%Z) by (simpl; lia).
  assert (H2 : wf (Lead.createdAt (Lead.doc Sample.lateLead))).
  { unfold wf. vm_compute. intuition discriminate. }
  assert (H3 : inWindow Sample.laterJune Sample.lateLead = false)
    by reflexivity.
  refine (conj H1 (conj H2 (conj H3 _))).
  intro H.
  apply (proj2 (duplicate_window_is_the_month Sample.laterJune
                  Sample.lateLead H1 H2)) in H.
  rewrite H3 in H. discriminate H.
Defined.




(** ** Listing and deleting leads *)

(** X6: [getAllLeads] always answers 200 with a count equal to the number
    of rows and every row's creator populated from the users.  A SUPER ADMIN
    gets all the leads, in order; any other caller gets exactly the leads
    whose [createdBy] is the caller's id. *)
Theorem getAllLeads_scoped :
  forall (users : list User.t) (leads : list Lead.t) (super other : ReqUser),
    role super = "SUPER ADMIN" ->
    role other <> "SUPER ADMIN" ->
    (exists rows,
        getAllLeads users leads super
        = mkResponse 200 true None (Some (ManyLeads (List.length rows) rows))
        /\ map fst rows = leads
        /\ map snd rows = map (Leads.populate users) leads)
    /\ (exists rows,
           getAllLeads users leads other
           = mkResponse 200 true None (Some (ManyLeads (List.length rows) rows))
           /\ (forall l, In l (map fst rows)
                         <-> In l leads
                             /\ Lead.createdBy (Lead.doc l) = id other)
           /\ forall l u, In (l, u) rows -> u = Leads.populate users l).
Proof.
  intros users leads super other Hs Ho. split.
  - exists (map (fun l => (l, Leads.populate users l)) leads).
    unfold getAllLeads. rewrite Hs. simpl.
    rewrite length_map, !map_map. simpl. rewrite map_id.
    repeat split.
  - exists (map (fun l => (l, Leads.populate users l))
                (filter (fun l => Lead.createdBy (Lead.doc l) =? id other)
                        leads)).
    unfold getAllLeads. rewrite (neq_eqb_false _ _ Ho). simpl.
    rewrite length_map. split; [reflexivity|]. split.
    + intro l. rewrite map_map. simpl. rewrite map_id, filter_In.
      rewrite String.eqb_eq. tauto.
    + intros l u Hin. apply in_map_iff in Hin.
      destruct Hin as [x [E _]]. inversion E; subst. reflexivity.
Qed.

Lemma getAllLeads_scoped_witness :
  role Sample.asRoot = "SUPER ADMIN"
  /\ role Sample.asBob <> "SUPER ADMIN"
  /\ exists rows,
       getAllLeads Sample.users Sample.tenLeads Sample.asBob
       = mkResponse 200 true None (Some (ManyLeads (List.length rows) rows))
       /\ forall l, In l (map fst rows)
                    <-> In l Sample.tenLeads
                        /\ Lead.createdBy (Lead.doc l) = id Sample.asBob.
Proof.
  assert (H1 : role Sample.asRoot = "SUPER ADMIN") by reflexivity.
  assert (H2 : role Sample.asBob <> "SUPER ADMIN")
    by (simpl; intro X; discriminate X).
  refine (conj H1 (conj H2 _)).
  destruct (proj2 (getAllLeads_scoped Sample.users Sample.tenLeads
                     Sample.asRoot Sample.asBob H1 H2)) as [rows [E [I _]]].
  exists rows. exact (conj E I).
Defined.

Lemma deleteById_length (i : string) (leads : list Lead.t) (l : Lead.t) :
  Leads.findById leads i = Some l ->
  List.length leads = S (List.length (Leads.deleteById i leads)).
Proof.
  unfold Leads.findById.
  induction leads as [|x r IH]; simpl; intro H; [discriminate|].
  destruct (Leads.hasId i x); [reflexivity|].
  simpl. rewrite (IH H). reflexivity.
Qed.

Lemma deleteById_In (i : string) (leads : list Lead.t) (l : Lead.t) :
  In l (Leads.deleteById i leads) -> In l leads.
Proof.
  induction leads as [|x r IH]; simpl; [tauto|].
  destruct (Leads.hasId i x); simpl; intuition.
Qed.

Lemma findById_deleteById_other (i j : string) (leads : list Lead.t) :
  i <> j ->
  Leads.findById (Leads.deleteById i leads) j = Leads.findById leads j.
Proof.
  intro Hij. unfold Leads.findById.
  induction leads as [|x r IH]; simpl; [reflexivity|].
  destruct (Leads.hasId i x) eqn:Hx; simpl.
  - destruct (Leads.hasId j x) eqn:Hj; [|reflexivity].
    exfalso. apply Hij. eapply hasId_trans; eassumption.
  - destruct (Leads.hasId j x); [reflexivity|exact IH].
Qed.

Lemma findById_deleteById_same (i : string) (leads : list Lead.t) :
  NoDup (map (fun l => Lead._id (Lead.doc l)) leads) ->
  Leads.findById (Leads.deleteById i leads) i = None.
Proof.
  unfold Leads.findById.
  induction leads as [|x r IH]; simpl; intro H; [reflexivity|].
  inversion H as [|? ? Hn Hr]; subst.
  destruct (Leads.hasId i x) eqn:Hx; simpl.
  - destruct (find (Leads.hasId i) r) as [y|] eqn:E; [|reflexivity].
    exfalso. apply Hn. destruct (find_some _ _ E) as [Hin Hy].
    unfold Leads.hasId in Hx, Hy.
    apply String.eqb_eq in Hx. apply String.eqb_eq in Hy.
    rewrite Hx, <- Hy.
    exact (in_map (fun l => Lead._id (Lead.doc l)) r y Hin).
  - rewrite Hx. exact (IH Hr).
Qed.

(** X7: the creator of a lead, whatever the creator's role, and every
    SUPER ADMIN can delete it.  The call is answered with 200, the lead is
    gone (ids being unique), one document less is stored, nothing is added,
    and every other lead is found as before. *)
Theorem deleteLead_removes_the_lead :
  forall (leads : list Lead.t) (user : ReqUser) (i : string) (lead : Lead.t),
    NoDup (map (fun l => Lead._id (Lead.doc l)) leads) ->
    Leads.findById leads i = Some lead ->
    id user = Lead.createdBy (Lead.doc lead) \/ role user = "SUPER ADMIN" ->
    statusCode (fst (deleteLead leads user i)) = 200%Z
    /\ Leads.findById (snd (deleteLead leads user i)) i = None
    /\ List.length leads = S (List.length (snd (deleteLead leads user i)))
    /\ (forall l, In l (snd (deleteLead leads user i)) -> In l leads)
    /\ forall j, i <> j ->
         Leads.findById (snd (deleteLead leads user i)) j
         = Leads.findById leads j.
Proof.
  intros leads user i lead Hnd Hf Hmay.
  assert (Ha : notAuthorized user lead = false).
  { unfold notAuthorized. destruct Hmay as [E|E].
    - rewrite <- E, String.eqb_refl. reflexivity.
    - rewrite E. simpl. apply andb_false_r. }
  unfold deleteLead. rewrite Hf, Ha. simpl.
  split; [reflexivity|]. split; [exact (findById_deleteById_same i _ Hnd)|].
  split; [exact (deleteById_length _ _ _ Hf)|].
  split; [intro l; apply deleteById_In|].
  intros j Hij. apply findById_deleteById_other. exact Hij.
Qed.

Lemma deleteLead_removes_the_lead_witness :
  NoDup (map (fun l => Lead._id (Lead.doc l)) [Sample.lead1; Sample2.mayLead])
  /\ Leads.findById [Sample.lead1; Sample2.mayLead] "l1" = Some Sample.lead1
  /\ Leads.findById
       (snd (deleteLead [Sample.lead1; Sample2.mayLead] Sample.asAlice "l1"))
       "l1" = None.
Proof.
  assert (H1 : NoDup (map (fun l => Lead._id (Lead.doc l))
                          [Sample.lead1; Sample2.mayLead])).
  { simpl. constructor.
    - intros [E|[]]. discriminate E.
    - constructor; [intros []|constructor]. }
  assert (H2 : Leads.findById [Sample.lead1; Sample2.mayLead] "l1"
               = Some Sample.lead1) by reflexivity.
  refine (conj H1 (conj H2 _)).
  exact (proj1 (proj2
    (deleteLead_removes_the_lead [Sample.lead1; Sample2.mayLead]
       Sample.asAlice "l1" Sample.lead1 H1 H2 (or_introl eq_refl)))).
Defined.

(** ** What the handlers keep *)










(** ** Updates and the rules of creation *)

(** X10: [updateLead] applies neither the PAN format check nor the
    duplicate check of the creation routes.  Whoever may edit a lead can
    set its PAN to any string that is not blank: the call is answered with
    200 and the stored PAN is that string, trimmed and in upper case,
    whether or not it has the PAN format and whether or not another lead of
    the month has it already. *)
Theorem updateLead_sets_any_pan :
  forall (clock : Clock) (leads : list Lead.t) (user : ReqUser) (i : string)
         (lead : Lead.t) (p : string),
    Leads.findById leads i = Some lead ->
    id user = Lead.createdBy (Lead.doc lead) \/ role user = "SUPER ADMIN" ->
    Lead.setPanCard p <> "" ->
    let body :=
      Body.mk None None (Some p) None None None None None None None None None
        None None in
    statusCode (fst (updateLead clock leads user i body)) = 200%Z
    /\ exists l',
         Leads.findById (snd (updateLead clock leads user i body)) i = Some l'
         /\ Lead.panCard (Lead.doc l') = Lead.setPanCard p.
Proof.
  intros clock leads user i lead p Hf Hmay Hp body.
  assert (Ha : notAuthorized user lead = false).
  { unfold notAuthorized. destruct Hmay as [E|E].
    - rewrite <- E, String.eqb_refl. reflexivity.
    - rewrite E. simpl. apply andb_false_r. }
  assert (Hv : Leads.validateUpdate body = None).
  { unfold Leads.validateUpdate, body. simpl. unfold Lead.required.
    destruct (Lead.setPanCard p) as [|c r]; [congruence|reflexivity]. }
  split.
  - rewrite (updateLead_authorized _ _ _ _ _ _ Hf Ha), Hv. reflexivity.
  - destruct (updateLead_accepted clock _ _ _ _ _ Hf Ha Hv) as [Hi _].
    exists (Run.updated clock user body lead). split; [exact Hi|reflexivity].
Qed.

Lemma updateLead_sets_any_pan_witness :
  let leads := [Sample.lead1; Sample2.bobLead] in
  let body :=
    Body.mk None None (Some "abcde1234f") None None None None None None None
      None None None None in
  Leads.findById leads "l5" = Some Sample2.bobLead
  /\ statusCode (fst (updateLead Sample.clock1 leads Sample.asBob "l5" body))
     = 200%Z
  /\ map (fun l => Lead.panCard (Lead.doc l))
         (snd (updateLead Sample.clock1 leads Sample.asBob "l5" body))
     = ["ABCDE1234F"; "ABCDE1234F"].
Proof.
  intros leads body.
  assert (H1 : Leads.findById leads "l5" = Some Sample2.bobLead)
    by reflexivity.
  refine (conj H1 (conj _ eq_refl)).
  refine (proj1 (updateLead_sets_any_pan Sample.clock1 leads Sample.asBob
                   "l5" Sample2.bobLead "abcde1234f" H1 (or_introl eq_refl) _)).
  vm_compute. intro X. discriminate X.
Defined.

(** ** Deleted users *)

Lemma findById_removeById (i : string) (all : list User.t) :
  NoDup (map User._id all) ->
  User.findById (UserController.removeById i all) i = None.
Proof.
  unfold User.findById.
  induction all as [|x r IH]; simpl; intro H; [reflexivity|].
  inversion H as [|? ? Hn Hr]; subst.
  destruct (User._id x =? i) eqn:Hx; simpl.
  - destruct (find (fun u => User._id u =? i) r) as [y|] eqn:E;
      [|reflexivity].
    exfalso. apply Hn. destruct (find_some _ _ E) as [Hin Hy].
    apply String.eqb_eq in Hx. apply String.eqb_eq in Hy.
    rewrite Hx, <- Hy. exact (in_map User._id r y Hin).
  - rewrite Hx. exact (IH Hr).
Qed.

Lemma deleteUser_gone (all : list User.t) (i : string) :
  NoDup (map User._id all) ->
  User.findById (snd (UserController.deleteUser all i)) i = None.
Proof.
  intro H. unfold UserController.deleteUser.
  destruct (User.findById all i) eqn:E; simpl.
  - apply findById_removeById. exact H.
  - exact E.
Qed.

(** X11: once the creator of a lead has been deleted with [deleteUser], a
    [createLead] call that conflicts with that lead is no longer answered
    with 409: reading the name of the missing creator throws, the handler's
    catch answers 400, and nothing is stored. *)
Theorem conflict_with_deleted_creator_is_400 :
  forall (now : Date) (newId : string) (users : list User.t)
         (leads : list Lead.t) (user : ReqUser) (body : Body.t)
         (pan aadhar : string) (L0 : Lead.t),
    NoDup (map User._id users) ->
    Body.panCard body = Some pan ->
    Body.aadharNumber body = Some aadhar ->
    JsString.panRegex (JsString.toUpperCase pan) = true ->
    JsString.digitsRegex 12 aadhar = true ->
    find (duplicateFilter now pan aadhar) leads = Some L0 ->
    let users' :=
      snd (UserController.deleteUser users (Lead.createdBy (Lead.doc L0))) in
    createLead now newId users' leads user body
    = (failure 400 (ErrorMessage (TypeError "creator is null")), leads).
Proof.
  intros now newId users leads user body pan aadhar L0
         Hnd Hp Ha Rp Ra Hd users'.
  unfold createLead, checkDuplicateLead.
  rewrite Hp, Ha.
  rewrite (panRegex_nonempty _ Rp), (digitsRegex_nonempty _ _ Ra).
  simpl. rewrite Rp, Ra. simpl. rewrite Hd.
  unfold Leads.populate, users'. rewrite (deleteUser_gone _ _ Hnd).
  reflexivity.
Qed.

Lemma conflict_with_deleted_creator_is_400_witness :
  statusCode (fst (createLead Sample.now "l2" Sample.users [Sample.lead1]
                     Sample.asBob Sample.sameAgain)) = 409%Z
  /\ createLead Sample.now "l2"
       (snd (UserController.deleteUser Sample.users "a1")) [Sample.lead1]
       Sample.asBob Sample.sameAgain
     = (failure 400 (ErrorMessage (TypeError "creator is null")),
        [Sample.lead1]).
Proof.
  split; [reflexivity|].
  apply (conflict_with_deleted_creator_is_400 Sample.now "l2" Sample.users
           [Sample.lead1] Sample.asBob Sample.sameAgain
           "ABCDE1234F" "123456789012" Sample.lead1).
  - simpl. repeat constructor; simpl; intuition discriminate.
  - reflexivity.
  - reflexivity.
  - reflexivity.
  - reflexivity.
  - reflexivity.
Defined.

(** ** Pages of users *)

Lemma skipn_nil_iff {A : Type} (k : nat) (l : list A) :
  skipn k l = [] <-> (List.length l <= k)%nat.
Proof.
  revert l. induction k as [|k IH]; intros [|x r]; simpl.
  - split; [lia|reflexivity].
  - split; [discriminate|lia].
  - split; [lia|reflexivity].
  - rewrite IH. lia.
Qed.

(** X12: for a page number and a limit that are at least 1 (after the
    defaults 1 and 10 for values that are missing, not numbers, or 0),
    [getAllUsers] answers 200 with the users of that page: the matching
    users split into the pages before, this page of at most [limit] users,
    and the rest; [count] is the size of the page; [next] is present exactly
    when users remain after the page, [prev] exactly when the page is not
    the first. *)
Theorem getAllUsers_pages :
  forall (all : list User.t) (query : UserController.Query) (p lim : Z),
    UserController.orDefault (UserController.page query) 1 = p ->
    UserController.orDefault (UserController.limit query) 10 = lim ->
    (1 <= p)%Z -> (1 <= lim)%Z ->
    let found := UserController.matching query all in
    let before := Z.to_nat ((p - 1) * lim) in
    exists listing,
      UserController.getAllUsers all query
      = mkResponse 200 true None (Some (UserController.UserList listing))
      /\ found
         = firstn before found ++ UserController.users listing
           ++ skipn (before + Z.to_nat lim) found
      /\ UserController.count listing
         = List.length (UserController.users listing)
      /\ (List.length (UserController.users listing) <= Z.to_nat lim)%nat
      /\ (UserController.next (UserController.pagination listing) = None
          <-> skipn (before + Z.to_nat lim) found = [])
      /\ (UserController.next (UserController.pagination listing) = None
          \/ UserController.next (UserController.pagination listing)
             = Some (UserController.mkPage (p + 1) lim))
      /\ (UserController.prev (UserController.pagination listing) = None
          <-> p = 1%Z)
      /\ (UserController.prev (UserController.pagination listing) = None
          \/ UserController.prev (UserController.pagination listing)
             = Some (UserController.mkPage (p - 1) lim)).
Proof.
  intros all query p lim Hp Hl Hp1 Hl1 found before.
  unfold UserController.getAllUsers. rewrite Hp, Hl. fold found.
  assert (Hs : ((p - 1) * lim <? 0)%Z = false) by (apply Z.ltb_ge; nia).
  rewrite Hs. rewrite (Z.abs_eq lim) by lia. fold before.
  eexists. split; [reflexivity|]. simpl.
  split; [|split; [reflexivity|split; [apply firstn_le_length|]]].
  - rewrite Nat.add_comm, <- skipn_skipn, firstn_skipn, firstn_skipn.
    reflexivity.
  - assert (He : Z.to_nat (p * lim) = (before + Z.to_nat lim)%nat).
    { unfold before. rewrite <- Z2Nat.inj_add by nia. f_equal. lia. }
    split; [|split; [|split]].
    + rewrite skipn_nil_iff, <- He.
      destruct (Z.ltb_spec (p * lim) (Z.of_nat (List.length found)));
        split; intro G; try discriminate G; try reflexivity; lia.
    + destruct (p * lim <? Z.of_nat (List.length found))%Z; auto.
    + destruct (Z.ltb_spec 0 ((p - 1) * lim));
        split; intro G; try discriminate G; try reflexivity; nia.
    + destruct (0 <? (p - 1) * lim)%Z; auto.
Qed.

Lemma getAllUsers_pages_witness :
  let query := UserController.mkQuery None (Some 2%Z) (Some 2%Z) in
  exists listing,
    UserController.getAllUsers Sample2.fiveUsers query
    = mkResponse 200 true None (Some (UserController.UserList listing))
    /\ UserController.matching query Sample2.fiveUsers
       = firstn 2 (UserController.matching query Sample2.fiveUsers)
         ++ UserController.users listing
         ++ skipn (2 + 2) (UserController.matching query Sample2.fiveUsers).
Proof.
  intro query.
  destruct (getAllUsers_pages Sample2.fiveUsers query 2 2 eq_refl eq_refl
              ltac:(lia) ltac:(lia)) as [listing [E [S _]]].
  exists listing. exact (conj E S).
Defined.

(** ** Performance of the users *)

Lemma lookup_push (k k' : string) (l : Lead.t) (acc : UserPerformance.ByCreator) :
  UserPerformance.lookup k (UserPerformance.push k' l acc)
  = if k' =? k
    then Some (Leads.orElse (UserPerformance.lookup k acc) [] ++ [l])
    else UserPerformance.lookup k acc.
Proof.
  induction acc as [|[k0 v] r IH]; simpl.
  - destruct (k' =? k); reflexivity.
  - destruct (String.eqb_spec k0 k') as [E|N]; simpl.
    + subst k0. destruct (k' =? k); reflexivity.
    + rewrite IH. destruct (String.eqb_spec k0 k) as [E'|N'].
      * subst k0. rewrite (neq_eqb_false k' k) by congruence. reflexivity.
      * reflexivity.
Qed.

(** Under each creator the reduction has collected the leads of that
    creator, in order. *)
Lemma lookup_fold (k : string) (leads : list Lead.t) :
  forall acc,
    Leads.orElse
      (UserPerformance.lookup k
         (fold_left (fun acc lead =>
                       UserPerformance.push (Lead.createdBy (Lead.doc lead))
                         lead acc) leads acc)) []
    = Leads.orElse (UserPerformance.lookup k acc) []
      ++ filter (fun l => Lead.createdBy (Lead.doc l) =? k) leads.
Proof.
  induction leads as [|l r IH]; intro acc; simpl.
  - rewrite app_nil_r. reflexivity.
  - rewrite IH, lookup_push.
    destruct (Lead.createdBy (Lead.doc l) =? k); simpl.
    + rewrite <- app_assoc. reflexivity.
    + reflexivity.
Qed.

Lemma includes_statuses (s : string) :
  JsString.includes Lead.statuses s = true ->
  s = "New" \/ s = "Follow-up" \/ s = "Approved" \/ s = "Rejected".
Proof.
  unfold JsString.includes, Lead.statuses. simpl.
  rewrite !orb_true_iff, !String.eqb_eq. intuition discriminate.
Qed.

(** Leads with a status of the enum are approved, rejected or pending, and
    only one of these. *)
Lemma status_partition (leads : list Lead.t) :
  Forall (fun l => JsString.includes Lead.statuses (Lead.status (Lead.doc l))
                   = true) leads ->
  List.length leads
  = (List.length (filter (fun l => (Lead.status (Lead.doc l) =? "Approved")%string) leads)
     + List.length (filter (fun l => (Lead.status (Lead.doc l) =? "Rejected")%string) leads)
     + List.length
         (filter (fun l => JsString.includes ["New"; "Follow-up"]%string
                             (Lead.status (Lead.doc l))) leads))%nat.
Proof.
  induction 1 as [|l r Hl Hr IH]; [reflexivity|].
  apply includes_statuses in Hl.
  cbn [filter]. destruct Hl as [E|[E|[E|E]]]; rewrite E; simpl; lia.
Qed.

(** X13: [getUserPerformanceStats] answers 200 with one row per user of
    role ADMIN or SUPER ADMIN, in order.  The row of a user counts the leads
    whose [createdBy] is that user's id, and, when every stored status is
    one of the enum, its approved, rejected and pending figures add up to
    its number of leads. *)
Theorem performance_rows :
  forall (users : list User.t) (leads : list Lead.t),
    Forall (fun l => JsString.includes Lead.statuses (Lead.status (Lead.doc l))
                     = true) leads ->
    exists rows,
      UserPerformance.getUserPerformanceStats users leads
      = mkResponse 200 true None (Some rows)
      /\ Forall2
           (fun u r =>
              let own :=
                filter (fun l => Lead.createdBy (Lead.doc l) =? User._id u)
                       leads in
              UserPerformance.name r = User.name u
              /\ UserPerformance.leads r = List.length own
              /\ UserPerformance.approved r = countStatus "Approved" own
              /\ UserPerformance.rejected r = countStatus "Rejected" own
              /\ UserPerformance.leads r
                 = (UserPerformance.approved r + UserPerformance.rejected r
                    + UserPerformance.pending r)%nat)
           (filter (fun u => JsString.includes ["ADMIN"; "SUPER ADMIN"]
                               (User.role u)) users)
           rows.
Proof.
  intros users leads Hst.
  eexists. split; [reflexivity|].
  induction (filter (fun u => JsString.includes ["ADMIN"; "SUPER ADMIN"]
                                (User.role u)) users) as [|u r IH];
    simpl; constructor; [|exact IH].
  unfold UserPerformance.performanceRow, UserPerformance.leadsByCreator.
  rewrite lookup_fold. simpl.
  repeat split.
  apply status_partition.
  apply Forall_forall. intros l Hin. apply filter_In in Hin.
  exact (proj1 (Forall_forall _ _) Hst l (proj1 Hin)).
Qed.

Lemma performance_rows_witness :
  Forall (fun l => JsString.includes Lead.statuses (Lead.status (Lead.doc l))
                   = true) Sample.tenLeads
  /\ exists rows,
       UserPerformance.getUserPerformanceStats Sample.users Sample.tenLeads
       = mkResponse 200 true None (Some rows)
       /\ List.length rows = 3%nat.
Proof.
  assert (H : Forall (fun l => JsString.includes Lead.statuses
                                 (Lead.status (Lead.doc l)) = true)
                     Sample.tenLeads) by (repeat constructor).
  split; [exact H|].
  destruct (performance_rows Sample.users Sample.tenLeads H) as [rows [E F]].
  exists rows. split; [exact E|].
  symmetry. exact (Forall2_same_length _ _ _ F).
Defined.

(** The rows of the three sample users over the ten sample leads. *)
Example performance_sample :
  option_map (map (fun r => (UserPerformance.name r,
                             UserPerformance.leads r,
                             UserPerformance.approved r,
                             UserPerformance.rejected r,
                             UserPerformance.pending r)))
    (data (UserPerformance.getUserPerformanceStats Sample.users
             Sample.tenLeads))
  = Some [("Alice", 8%nat, 2%nat, 1%nat, 5%nat);
          ("Bob", 2%nat, 1%nat, 1%nat, 0%nat);
          ("Root", 0%nat, 0%nat, 0%nat, 0%nat)].
Proof. reflexivity. Qed.

(** ** Fields of the CSV export *)

Lemma length_append (a b : string) :
  String.length (append a b) = (String.length a + String.length b)%nat.
Proof. induction a as [|c r IH]; simpl; [reflexivity|rewrite IH; reflexivity]. Qed.

Lemma append_inj_l (a b x : string) : append a x = append b x -> a = b.
Proof.
  revert b. induction a as [|c r IH]; intros [|c' r'] H; simpl in H.
  - reflexivity.
  - exfalso. apply (f_equal String.length) in H. simpl in H.
    rewrite length_append in H. lia.
  - exfalso. apply (f_equal String.length) in H. simpl in H.
    rewrite length_append in H. lia.
  - inversion H. f_equal. apply IH. assumption.
Qed.

Lemma doubleQuotes_inj (s s' : string) :
  Csv.doubleQuotes s = Csv.doubleQuotes s' -> s = s'.
Proof.
  revert s'. induction s as [|c r IH]; intros [|c' r'] H; simpl in H.
  - reflexivity.
  - destruct (Ascii.eqb c' Csv.quote); discriminate H.
  - destruct (Ascii.eqb c Csv.quote); discriminate H.
  - destruct (Ascii.eqb c Csv.quote) eqn:Ec;
      destruct (Ascii.eqb c' Csv.quote) eqn:Ec'.
    + apply Ascii.eqb_eq in Ec. apply Ascii.eqb_eq in Ec'.
      inversion H. subst. f_equal. apply IH. assumption.
    + inversion H. subst c'. rewrite Ascii.eqb_refl in Ec'. discriminate.
    + inversion H. subst c. rewrite Ascii.eqb_refl in Ec. discriminate.
    + inversion H. f_equal. apply IH. assumption.
Qed.

Lemma quotes_append (a b : string) :
  Csv.quotes (append a b) = (Csv.quotes a + Csv.quotes b)%nat.
Proof.
  induction a as [|c r IH]; simpl; [reflexivity|].
  destruct (Ascii.eqb c Csv.quote); rewrite IH; reflexivity.
Qed.

Lemma quotes_doubleQuotes (s : string) :
  Csv.quotes (Csv.doubleQuotes s) = (2 * Csv.quotes s)%nat.
Proof.
  induction s as [|c r IH]; simpl; [reflexivity|].
  destruct (Ascii.eqb c Csv.quote) eqn:E; simpl.
  - rewrite IH. lia.
  - rewrite E. exact IH.
Qed.

(** X14: [escapeCsv] loses nothing: two values with the same escaped field
    are the same value.  The field holds the two enclosing quotes and two
    quotes for each quote of the value, so every quote inside the enclosing
    pair is doubled. *)
Theorem escapeCsv_injective :
  forall (s s' : string),
    Csv.escapeCsv s = Csv.escapeCsv s' ->
    s = s'
    /\ Csv.quotes (Csv.escapeCsv s) = (2 + 2 * Csv.quotes s)%nat
    /\ String.length (Csv.escapeCsv s)
       = (2 + String.length s + Csv.quotes s)%nat.
Proof.
  intros s s' H. unfold Csv.escapeCsv in *.
  split; [|split].
  - inversion H as [H'].
    apply doubleQuotes_inj. eapply append_inj_l. exact H'.
  - simpl. rewrite quotes_append, quotes_doubleQuotes. simpl. lia.
  - simpl. rewrite length_append. simpl.
    assert (L : forall t, String.length (Csv.doubleQuotes t)
                          = (String.length t + Csv.quotes t)%nat).
    { induction t as [|c r IH]; simpl; [reflexivity|].
      destruct (Ascii.eqb c Csv.quote); simpl; rewrite IH; lia. }
    rewrite L. lia.
Qed.

Lemma escapeCsv_injective_witness :
  Csv.escapeCsv "Doe, John" = Csv.escapeCsv "Doe, John"
  /\ String.length (Csv.escapeCsv "Doe, John") = 11%nat.
Proof.
  assert (H : Csv.escapeCsv "Doe, John" = Csv.escapeCsv "Doe, John")
    by reflexivity.
  split; [exact H|].
  exact (proj2 (proj2 (escapeCsv_injective "Doe, John" "Doe, John" H))).
Defined.

(** ** The custom range export, continued *)

Lemma endOfDay_spec (t d : Date) :
  (0 <= ms t < 86400000)%Z ->
  (JsDate.leb t (setHours d 23 59 59 999) = true
   <-> Calendar.onOrBeforeDay t d).
Proof.
  intro Hms. rewrite leb_spec. unfold setHours, Calendar.onOrBeforeDay.
  cbn [year month day ms].
  change (msOfDay 23 59 59 999) with 86399999%Z. lia.
Qed.

(** X15: the end date of the export is inclusive for the whole day and the
    start date is taken as the instant it names.  With both dates given,
    the export is answered with 200 and holds exactly the stored leads
    created at or after the start instant, on the day of the end date or
    before whatever time of day the end date carries, and, when the role
    rule restricts the creator, created by that creator. *)
Theorem export_covers_the_end_day :
  forall (users : list User.t) (leads : list Lead.t) (user : ReqUser)
         (from to : Date) (adminId fmt : option string),
    Forall (fun l => wf (Lead.createdAt (Lead.doc l))) leads ->
    exists e,
      downloadCustomReport users leads user
        (mkDownload (Some from) (Some to) adminId fmt)
      = mkResponse 200 true None (Some e)
      /\ exportTotal e = List.length (rows e)
      /\ forall l,
           In l (map fst (rows e))
           <-> In l leads
               /\ JsDate.leb from (Lead.createdAt (Lead.doc l)) = true
               /\ Calendar.onOrBeforeDay (Lead.createdAt (Lead.doc l)) to
               /\ match creatorFilter user adminId with
                  | Some c => Lead.createdBy (Lead.doc l) = c
                  | None => True
                  end.
Proof.
  intros users leads user from to adminId fmt Hwf.
  eexists. split; [reflexivity|]. simpl.
  split; [rewrite length_map; reflexivity|].
  intro l. rewrite rows_found, filter_In. unfold rangeFilter.
  rewrite !andb_true_iff.
  split; intros [Hin H]; (split; [exact Hin|]);
    pose proof (proj1 (Forall_forall _ _) Hwf l Hin) as [_ [_ Hms]].
  - destruct H as [[H1 H2] H3]. split; [exact H1|].
    split; [apply (endOfDay_spec _ _ Hms); exact H2|].
    destruct (creatorFilter user adminId); [|exact I].
    apply String.eqb_eq. exact H3.
  - destruct H as [H1 [H2 H3]]. split; [split; [exact H1|]|].
    + apply (endOfDay_spec _ _ Hms). exact H2.
    + destruct (creatorFilter user adminId); [|reflexivity].
      apply String.eqb_eq. exact H3.
Qed.

Lemma export_covers_the_end_day_witness :
  Forall (fun l => wf (Lead.createdAt (Lead.doc l))) [Sample.lateLead]
  /\ exists e,
       downloadCustomReport Sample.users [Sample.lateLead] Sample.asRoot
         (mkDownload (Some Sample.june1) (Some Sample.june30) None None)
       = mkResponse 200 true None (Some e)
       /\ exportTotal e = List.length (rows e).
Proof.
  assert (H : Forall (fun l => wf (Lead.createdAt (Lead.doc l)))
                     [Sample.lateLead]).
  { constructor; [|constructor]. unfold wf. vm_compute. intuition discriminate. }
  split; [exact H|].
  destruct (export_covers_the_end_day Sample.users [Sample.lateLead]
              Sample.asRoot Sample.june1 Sample.june30 None None H)
    as [e [E [T _]]].
  exists e. exact (conj E T).
Defined.

(** The lead created at 23:59:59.500 of 30 June is in the export that ends
    on 30 June. *)
Example export_has_the_last_second :
  option_map (fun e => map (fun r => Lead._id (Lead.doc (fst r))) (rows e))
    (data (downloadCustomReport Sample.users [Sample.lateLead] Sample.asRoot
             (mkDownload (Some Sample.june1) (Some Sample.june30) None None)))
  = Some ["l9"].
Proof. reflexivity. Qed.

(** X16: for a caller of role ADMIN or SUPER ADMIN, the export never holds
    a lead that the caller's own listing does not show: every lead of
    [downloadCustomReport] is among the leads of [getAllLeads] for the same
    caller, whatever dates, [adminId] and format are sent. *)
Theorem export_within_listing :
  forall (users : list User.t) (leads : list Lead.t) (user : ReqUser)
         (body : DownloadBody) (e : Export) (l : Lead.t),
    role user = "ADMIN" \/ role user = "SUPER ADMIN" ->
    data (downloadCustomReport users leads user body) = Some e ->
    In l (map fst (rows e)) ->
    exists n listed,
      data (getAllLeads users leads user) = Some (ManyLeads n listed)
      /\ In l (map fst listed).
Proof.
  intros users leads user body e l Hrole He Hin.
  unfold downloadCustomReport in He.
  destruct (startDate body) as [from|]; [|discriminate He].
  destruct (endDate body) as [to|]; [|discriminate He].
  simpl in He. inversion He; subst e. clear He. simpl in Hin.
  rewrite rows_found in Hin. apply filter_In in Hin.
  destruct Hin as [Hin Hf].
  unfold getAllLeads. eexists. eexists. split; [reflexivity|].
  rewrite rows_found.
  destruct Hrole as [Hr|Hr].
  - rewrite (creatorFilter_admin _ _ Hr) in Hf. rewrite Hr. simpl.
    apply filter_In. split; [exact Hin|].
    unfold rangeFilter in Hf. apply andb_true_iff in Hf. tauto.
  - rewrite Hr. simpl. exact Hin.
Qed.

Lemma export_within_listing_witness :
  (role Sample.asAlice = "ADMIN" \/ role Sample.asAlice = "SUPER ADMIN")
  /\ exists n listed,
       data (getAllLeads Sample.users Sample.tenLeads Sample.asAlice)
       = Some (ManyLeads n listed)
       /\ In (Sample.leadOf "t0" "a1" "AAAAA0000A" "100000000000" "Approved"
                Sample.earlier)
             (map fst listed).
Proof.
  assert (H : role Sample.asAlice = "ADMIN"
              \/ role Sample.asAlice = "SUPER ADMIN") by (left; reflexivity).
  split; [exact H|].
  refine (export_within_listing Sample.users Sample.tenLeads Sample.asAlice
            (mkDownload (Some Sample.june1) (Some Sample.june30) (Some "b2")
               None)
            _ _ H eq_refl _).
  left. reflexivity.
Defined.

(** ** The monthly report, continued *)

(** The mails of the loop are those of a first part of the recipients. *)
Lemma sendToAll_prefix (transport : EmailSender.Transport)
      (options : User.t -> EmailSender.Options) (l : list User.t) :
  forall w, exists k,
    (k <= List.length l)%nat
    /\ sent (snd (sendToAll transport options l w))
       = sent w ++ map (fun u => EmailSender.mailOptions (options u))
                       (firstn k l).
Proof.
  induction l as [|u r IH]; intro w; simpl.
  - exists 0%nat. rewrite app_nil_r. split; [lia|reflexivity].
  - unfold EmailSender.sendEmail.
    destruct (transport (EmailSender.mailOptions (options u))); simpl.
    + destruct (IH (mkWorld (sent w ++ [EmailSender.mailOptions (options u)])
                      (console w ++
                       [Log (append "Monthly report sent to super admin: "
                               (User.email u))]))) as [k [Hk E]].
      exists (S k). split; [lia|]. simpl in E. rewrite E. simpl.
      rewrite <- app_assoc. reflexivity.
    + exists 1%nat. split; [lia|]. reflexivity.
Qed.

Lemma In_firstn_full {A : Type} (k : nat) (l : list A) (x : A) :
  In x (firstn k l) -> In x l.
Proof.
  revert l. induction k as [|k IH]; intros [|y r]; simpl; try tauto.
  intros [E|H]; [left; exact E|right; exact (IH _ H)].
Qed.

(** X17: whatever the mail transport does, the monthly job hands mails to
    it for a first part of the SUPER ADMIN users only, in their order and
    at most one each: every mail is addressed to the email of a user of
    role SUPER ADMIN, comes from the fixed sender and has the subject of the
    month before the run; no mail goes to anyone else. *)
Theorem monthly_mails_go_to_super_admins :
  forall (now : Date) (transport : EmailSender.Transport)
         (users : list User.t) (leads : list Lead.t),
    let w := generateAndSendMonthlyReport now transport users leads in
    (exists k,
        (k <= List.length (User.findByRole users "SUPER ADMIN"))%nat
        /\ sent w
           = map (monthlyMail now users leads)
                 (firstn k (User.findByRole users "SUPER ADMIN")))
    /\ Forall (fun m =>
                 exists u,
                   In u users
                   /\ User.role u = "SUPER ADMIN"
                   /\ EmailSender.mailTo m = User.email u
                   /\ EmailSender.mailFrom m
                      = "EBS Cards Admin <admin@ebscards.com>"
                   /\ EmailSender.mailSubject m
                      = append "EBS Cards - Monthly Report for "
                          (monthYearString (startOfLastMonth now)))
              (sent w).
Proof.
  intros now transport users leads w.
  assert (Hk : exists k,
             (k <= List.length (User.findByRole users "SUPER ADMIN"))%nat
             /\ sent w
                = map (monthlyMail now users leads)
                      (firstn k (User.findByRole users "SUPER ADMIN"))).
  { subst w. unfold generateAndSendMonthlyReport.
    destruct (sendToAll_prefix transport (monthlyOptions now users leads)
                (User.findByRole users "SUPER ADMIN")
                (mkWorld [] [Log "Generating monthly performance report..."]))
      as [k [Hk E]].
    exists k. split; [exact Hk|].
    destruct (sendToAll transport (monthlyOptions now users leads)
                (User.findByRole users "SUPER ADMIN")
                (mkWorld [] [Log "Generating monthly performance report..."]))
      as [[e|] w']; simpl in *; exact E. }
  split; [exact Hk|].
  destruct Hk as [k [_ E]]. rewrite E.
  apply Forall_forall. intros m Hm. apply in_map_iff in Hm.
  destruct Hm as [u [Em Hu]]. subst m.
  exists u. apply In_firstn_full in Hu. unfold User.findByRole in Hu.
  apply filter_In in Hu. destruct Hu as [Hin Hr].
  apply String.eqb_eq in Hr. repeat split; assumption.
Qed.

Lemma lastMonth_eq (now : Date) :
  (0 <= month now <= 11)%Z ->
  newDate (getFullYear now) (getMonth now - 1) 1 0 0 0
  = mkDate (fst (Calendar.monthBefore now)) (snd (Calendar.monthBefore now))
           1 0.
Proof.
  intro H. unfold newDate, getFullYear, getMonth, Calendar.monthBefore.
  simpl.
  destruct (Z.eqb_spec (month now) 0) as [E|N].
  - rewrite E. simpl.
    change (-1 / 12)%Z with (-1)%Z. change (-1 mod 12)%Z with 11%Z.
    replace (year now + -1)%Z with (year now - 1)%Z by lia. reflexivity.
  - rewrite Z.div_small, Z.mod_small by lia. simpl.
    rewrite Z.add_0_r. reflexivity.
Qed.

Lemma monthBefore_range (now : Date) :
  (0 <= month now <= 11)%Z ->
  (0 <= snd (Calendar.monthBefore now) <= 11)%Z.
Proof.
  intro H. unfold Calendar.monthBefore.
  destruct (Z.eqb_spec (month now) 0); simpl; lia.
Qed.

Lemma inMonthb_spec (ym : Z * Z) (t : Date) :
  Calendar.inMonthUpToLastSecondb ym t = true
  <-> Calendar.inMonthUpToLastSecond (fst ym) (snd ym) t.
Proof.
  unfold Calendar.inMonthUpToLastSecondb, Calendar.inMonthUpToLastSecond.
  rewrite !andb_true_iff, orb_true_iff, !Z.eqb_eq, Z.ltb_lt, Z.leb_le.
  tauto.
Qed.

(** The window of the monthly report is the month before the run, short of
    its last 999 milliseconds. *)
Lemma lastMonth_window (now t : Date) :
  (0 <= month now <= 11)%Z ->
  wf t ->
  JsDate.leb (startOfLastMonth now) t && JsDate.leb t (endOfLastMonth now)
  = Calendar.inMonthUpToLastSecondb (Calendar.monthBefore now) t.
Proof.
  intros Hm Hwf. apply Bool.eq_iff_eq_true.
  rewrite inMonthb_spec, <- (month_window _ _ t Hwf).
  unfold startOfLastMonth, endOfLastMonth.
  rewrite (lastMonth_eq now Hm).
  pose proof (monthBefore_range now Hm) as Hr.
  change (newDate (getFullYear ?d) (getMonth ?d) 1 0 0 0)
    with (startOfMonth d).
  change (newDate (getFullYear ?d) (getMonth ?d + 1) 0 23 59 59)
    with (endOfMonth d).
  rewrite startOfMonth_eq, endOfMonth_eq by (simpl; exact Hr).
  reflexivity.
Qed.

Lemma counts_within (leads : list Lead.t) :
  (countStatus "Approved" leads + countStatus "Rejected" leads
   <= List.length leads)%nat.
Proof.
  induction leads as [|l r IH]; [unfold countStatus; simpl; lia|].
  rewrite !countStatus_cons. simpl.
  destruct (String.eqb_spec (Lead.status (Lead.doc l)) "Approved") as [E|N].
  - rewrite E. simpl. lia.
  - destruct (Lead.status (Lead.doc l) =? "Rejected"); lia.
Qed.

(** X18: the row of a user in the monthly report counts the leads created
    by that user in the calendar month before the run, up to 23:59:59.000
    of its last day (for a run in January, the December of the year
    before): [totalCreated] is their number, [approvedCount] and
    [rejectedCount] the numbers of Approved and Rejected ones among them,
    which together never exceed the total, and the rate is the number 0
    when there is none. *)
Theorem monthly_row_counts_last_month :
  forall (now : Date) (leads : list Lead.t) (admin : User.t),
    (0 <= month now <= 11)%Z ->
    Forall (fun l => wf (Lead.createdAt (Lead.doc l))) leads ->
    let r := reportRow (startOfLastMonth now) (endOfLastMonth now) leads
               admin in
    let counted :=
      filter (fun l =>
                (Lead.createdBy (Lead.doc l) =? User._id admin)
                && Calendar.inMonthUpToLastSecondb (Calendar.monthBefore now)
                     (Lead.createdAt (Lead.doc l))) leads in
    Report.totalCreated r = List.length counted
    /\ Report.approvedCount r = countStatus "Approved" counted
    /\ Report.rejectedCount r = countStatus "Rejected" counted
    /\ (Report.approvedCount r + Report.rejectedCount r
        <= Report.totalCreated r)%nat
    /\ (Report.approvalRate r = Report.Zero <-> counted = []).
Proof.
  intros now leads admin Hm Hwf r counted.
  assert (E : filter (fun l =>
                (Lead.createdBy (Lead.doc l) =? User._id admin)
                && JsDate.leb (startOfLastMonth now) (Lead.createdAt (Lead.doc l))
                && JsDate.leb (Lead.createdAt (Lead.doc l)) (endOfLastMonth now))
              leads = counted).
  { unfold counted. apply filter_ext_in. intros l Hin.
    rewrite <- andb_assoc. f_equal.
    apply lastMonth_window; [exact Hm|].
    exact (proj1 (Forall_forall _ _) Hwf l Hin). }
  subst r. unfold reportRow. rewrite E. simpl.
  split; [reflexivity|]. split; [reflexivity|]. split; [reflexivity|].
  split; [apply counts_within|].
  destruct counted as [|c cs]; simpl; split; intro G;
    try reflexivity; discriminate G.
Qed.

Lemma monthly_row_counts_last_month_witness :
  (0 <= month Sample.now <= 11)%Z
  /\ Forall (fun l => wf (Lead.createdAt (Lead.doc l)))
            [Sample2.mayLead; Sample.lead1]
  /\ Report.totalCreated
       (reportRow (startOfLastMonth Sample.now) (endOfLastMonth Sample.now)
          [Sample2.mayLead; Sample.lead1] Sample.alice) = 1%nat.
Proof.
  assert (H1 : (0 <= month Sample.now <= 11)%Z) by (simpl; lia).
  assert (H2 : Forall (fun l => wf (Lead.createdAt (Lead.doc l)))
                      [Sample2.mayLead; Sample.lead1]).
  { repeat constructor; vm_compute; intuition discriminate. }
  refine (conj H1 (conj H2 _)).
  exact (proj1 (monthly_row_counts_last_month Sample.now
                  [Sample2.mayLead; Sample.lead1] Sample.alice H1 H2)).
Defined.

(** ** The dashboard, continued *)

Lemma four_statuses (leads : list Lead.t) :
  Forall (fun l => JsString.includes Lead.statuses (Lead.status (Lead.doc l))
                   = true) leads ->
  (countStatus "New" leads + countStatus "Follow-up" leads
   + countStatus "Approved" leads + countStatus "Rejected" leads
   = List.length leads)%nat.
Proof.
  induction 1 as [|l r Hl Hr IH]; [reflexivity|].
  apply includes_statuses in Hl.
  rewrite !countStatus_cons.
  destruct Hl as [E|[E|[E|E]]]; rewrite E; simpl; lia.
Qed.

(** X19: on the dashboard of a SUPER ADMIN, when every stored status is one
    of the enum, the four status counts add up to [totalLeads], which is the
    number of stored leads; and the number of leads of the last 30 days
    never exceeds the total. *)
Theorem dashboard_counts_add_up :
  forall (now : Date) (leads : list Lead.t) (user : ReqUser),
    role user = "SUPER ADMIN" ->
    Forall (fun l => JsString.includes Lead.statuses (Lead.status (Lead.doc l))
                     = true) leads ->
    exists s n f a r,
      getDashboardStats now leads user = mkResponse 200 true None (Some s)
      /\ totalLeads s = List.length leads
      /\ getKey "New" (statusCounts s) = Some n
      /\ getKey "Follow-up" (statusCounts s) = Some f
      /\ getKey "Approved" (statusCounts s) = Some a
      /\ getKey "Rejected" (statusCounts s) = Some r
      /\ (n + f + a + r = totalLeads s)%nat
      /\ (leadsLast30Days s <= totalLeads s)%nat.
Proof.
  intros now leads user Hr Hst.
  destruct (matchStage_superAdmin user leads Hr) as [Hm Hs].
  eexists. exists (countStatus "New" leads), (countStatus "Follow-up" leads),
    (countStatus "Approved" leads), (countStatus "Rejected" leads).
  split; [reflexivity|]. simpl. rewrite Hm, Hs.
  split; [reflexivity|].
  split; [apply statusCounts_read; simpl; tauto|].
  split; [apply statusCounts_read; simpl; tauto|].
  split; [apply statusCounts_read; simpl; tauto|].
  split; [apply statusCounts_read; simpl; tauto|].
  split; [apply four_statuses; exact Hst|].
  apply filter_length_le.
Qed.

Lemma dashboard_counts_add_up_witness :
  role Sample.asRoot = "SUPER ADMIN"
  /\ Forall (fun l => JsString.includes Lead.statuses
                        (Lead.status (Lead.doc l)) = true) Sample.tenLeads
  /\ exists s,
       getDashboardStats Sample.now Sample.tenLeads Sample.asRoot
       = mkResponse 200 true None (Some s)
       /\ (leadsLast30Days s <= totalLeads s)%nat.
Proof.
  assert (H1 : role Sample.asRoot = "SUPER ADMIN") by reflexivity.
  assert (H2 : Forall (fun l => JsString.includes Lead.statuses
                                  (Lead.status (Lead.doc l)) = true)
                      Sample.tenLeads) by (repeat constructor).
  refine (conj H1 (conj H2 _)).
  destruct (dashboard_counts_add_up Sample.now Sample.tenLeads Sample.asRoot
              H1 H2) as [s [n [f [a [r [E [_ [_ [_ [_ [_ [_ L]]]]]]]]]]]].
  exists s. exact (conj E L).
Defined.

(** ** What is stored is what is answered and listed *)

(** X20: when [updateLead] answers 200, the lead of the response is the
    lead that is stored under the id afterwards, history included, and the
    last entry of its history has the caller as editor. *)
Theorem updateLead_answers_the_stored_lead :
  forall (clock : Clock) (leads : list Lead.t) (user : ReqUser) (i : string)
         (body : Body.t),
    statusCode (fst (updateLead clock leads user i body)) = 200%Z ->
    exists l',
      data (fst (updateLead clock leads user i body)) = Some (OneLead l')
      /\ Leads.findById (snd (updateLead clock leads user i body)) i = Some l'
      /\ Lead.updatedAt (Lead.doc l') = atSave clock
      /\ option_map Lead.editorId (last (map Some (Lead.editHistory l')) None)
         = Some (id user).
Proof.
  intros clock leads user i body H.
  destruct (updateLead_cases clock leads user i body)
    as [[Hn _]|[lead [Hf [Ha [Hv _]]]]]; [contradiction|].
  destruct (updateLead_accepted clock _ _ _ _ _ Hf Ha Hv) as [Hi _].
  exists (Run.updated clock user body lead).
  split; [rewrite (updateLead_authorized _ _ _ _ _ _ Hf Ha), Hv; reflexivity|].
  split; [exact Hi|]. split; [reflexivity|].
  change (Lead.editHistory (Run.updated clock user body lead))
    with (Lead.editHistory (Leads.applyUpdate (atUpdate clock) body lead)
          ++ [Lead.mkEdit (id user) (atPush clock) (Lead.doc lead)
                (Lead.doc (Leads.applyUpdate (atUpdate clock) body lead))]).
  rewrite map_app. simpl map at 2. rewrite last_last. reflexivity.
Qed.

Lemma updateLead_answers_the_stored_lead_witness :
  statusCode (fst (updateLead Sample.clock1 [Sample.lead1] Sample.asAlice "l1"
                     (Sample.setStatus "Approved"))) = 200%Z
  /\ exists l',
       data (fst (updateLead Sample.clock1 [Sample.lead1] Sample.asAlice "l1"
                    (Sample.setStatus "Approved"))) = Some (OneLead l')
       /\ Leads.findById
            (snd (updateLead Sample.clock1 [Sample.lead1] Sample.asAlice "l1"
                    (Sample.setStatus "Approved"))) "l1" = Some l'.
Proof.
  assert (H : statusCode (fst (updateLead Sample.clock1 [Sample.lead1]
                                 Sample.asAlice "l1"
                                 (Sample.setStatus "Approved"))) = 200%Z)
    by reflexivity.
  split; [exact H|].
  destruct (updateLead_answers_the_stored_lead Sample.clock1 [Sample.lead1]
              Sample.asAlice "l1" (Sample.setStatus "Approved") H)
    as [l' [D [F _]]].
  exists l'. exact (conj D F).
Defined.

Lemma findById_app_new (leads : list Lead.t) (l : Lead.t) :
  (forall l0, In l0 leads -> Lead._id (Lead.doc l0) <> Lead._id (Lead.doc l)) ->
  Leads.findById (leads ++ [l]) (Lead._id (Lead.doc l)) = Some l.
Proof.
  unfold Leads.findById. intro H.
  induction leads as [|x r IH]; simpl.
  - unfold Leads.hasId. rewrite String.eqb_refl. reflexivity.
  - unfold Leads.hasId at 1.
    rewrite (neq_eqb_false _ _ (H x (or_introl eq_refl))).
    apply IH. intros l0 Hin. apply H. right. exact Hin.
Qed.

(** X21: a lead created by [createLead] under a fresh id can be read back:
    it is the lead found under that id, it is in the listing of its creator
    and of every SUPER ADMIN, and it is in the listing of no other caller. *)
Theorem created_lead_is_listed :
  forall (now : Date) (newId : string) (users : list User.t)
         (leads : list Lead.t) (user super other : ReqUser) (body : Body.t),
    statusCode (fst (createLead now newId users leads user body)) = 201%Z ->
    (forall l0, In l0 leads -> Lead._id (Lead.doc l0) <> newId) ->
    role super = "SUPER ADMIN" ->
    role other <> "SUPER ADMIN" ->
    id other <> id user ->
    let leads' := snd (createLead now newId users leads user body) in
    exists l mine all theirs,
      data (fst (createLead now newId users leads user body))
      = Some (OneLead l)
      /\ Leads.findById leads' newId = Some l
      /\ data (getAllLeads users leads' user)
         = Some (ManyLeads (List.length mine) mine)
      /\ In l (map fst mine)
      /\ data (getAllLeads users leads' super)
         = Some (ManyLeads (List.length all) all)
      /\ In l (map fst all)
      /\ data (getAllLeads users leads' other)
         = Some (ManyLeads (List.length theirs) theirs)
      /\ ~ In l (map fst theirs).
Proof.
  intros now newId users leads user super other body H Hfresh Hs Ho Hne leads'.
  destruct (createLead_created _ _ _ _ _ _ H)
    as [pan [aadhar [_ [_ [_ [_ [_ [_ [_ E0]]]]]]]]].
  set (l := Leads.newDocument now newId (Body.stamp body (id user) "Manual"))
    in E0.
  assert (E : snd (createLead now newId users leads user body) = leads ++ [l])
    by (rewrite E0; reflexivity).
  assert (D : data (fst (createLead now newId users leads user body))
              = Some (OneLead l))
    by (rewrite E0; reflexivity).
  assert (Hid : Lead._id (Lead.doc l) = newId) by reflexivity.
  assert (Hc : Lead.createdBy (Lead.doc l) = id user) by reflexivity.
  clearbody l. clear E0.
  assert (Hin : In l leads').
  { unfold leads'. rewrite E. apply in_or_app. right. left. reflexivity. }
  exists l.
  exists (map (fun x => (x, Leads.populate users x))
              (if negb (role user =? "SUPER ADMIN")
               then filter (fun x => Lead.createdBy (Lead.doc x) =? id user)
                           leads'
               else leads')).
  exists (map (fun x => (x, Leads.populate users x)) leads').
  exists (map (fun x => (x, Leads.populate users x))
              (filter (fun x => Lead.createdBy (Lead.doc x) =? id other)
                      leads')).
  split; [exact D|]. split.
  { unfold leads'. rewrite E, <- Hid. apply findById_app_new.
    intros l0 H0. rewrite Hid. exact (Hfresh l0 H0). }
  split; [unfold getAllLeads; simpl; rewrite length_map; reflexivity|].
  split.
  { rewrite rows_found. destruct (negb (role user =? "SUPER ADMIN"));
      [|exact Hin].
    apply filter_In. split; [exact Hin|]. rewrite Hc. apply String.eqb_refl. }
  split; [unfold getAllLeads; rewrite Hs; simpl; rewrite length_map;
          reflexivity|].
  split; [rewrite rows_found; exact Hin|].
  split; [unfold getAllLeads; rewrite (neq_eqb_false _ _ Ho); simpl;
          rewrite length_map; reflexivity|].
  rewrite rows_found. intro G. apply filter_In in G. destruct G as [_ G].
  apply String.eqb_eq in G. rewrite Hc in G. congruence.
Qed.

Lemma created_lead_is_listed_witness :
  statusCode (fst (createLead Sample.now "l2" Sample.users [Sample2.mayLead]
                     Sample.asAlice Sample2.raviBody)) = 201%Z
  /\ exists l,
       Leads.findById
         (snd (createLead Sample.now "l2" Sample.users [Sample2.mayLead]
                 Sample.asAlice Sample2.raviBody)) "l2" = Some l.
Proof.
  assert (H : statusCode (fst (createLead Sample.now "l2" Sample.users
                                 [Sample2.mayLead] Sample.asAlice
                                 Sample2.raviBody)) = 201%Z) by reflexivity.
  split; [exact H|].
  assert (F : forall l0, In l0 [Sample2.mayLead] ->
                         Lead._id (Lead.doc l0) <> "l2").
  { intros l0 [E|[]]. subst l0. simpl. intro X. discriminate X. }
  assert (Hs : role Sample.asRoot = "SUPER ADMIN") by reflexivity.
  assert (Ho : role Sample.asBob <> "SUPER ADMIN")
    by (simpl; intro X; discriminate X).
  assert (Hne : id Sample.asBob <> id Sample.asAlice)
    by (simpl; intro X; discriminate X).
  destruct (created_lead_is_listed Sample.now "l2" Sample.users
              [Sample2.mayLead] Sample.asAlice Sample.asRoot Sample.asBob
              Sample2.raviBody H F Hs Ho Hne)
    as [l [mine [all [theirs [_ [Fd _]]]]]].
  exists l. exact Fd.
Defined.
